(** * glassfibre.preprocessing: a shallow embedding and its properties

    The module [src/glassfibre/preprocessing.py] prepares boundary and
    population data and computes life-cycle-assessment (LCA) emission
    dictionaries.  Python numbers are modelled as exact rationals [Q]
    (rounding of binary floating point is not modelled); Python dictionaries
    are association lists in insertion order; exceptions are values of
    [result]. *)

From Stdlib Require Import List Ascii String QArith Qabs Qround ZArith Lia Lqa Bool
  DecimalString Permutation PeanoNat.
Import ListNotations.

Open Scope string_scope.
Open Scope Q_scope.

(** ** Exceptions and the error monad *)

Inductive exn : Type :=
| KeyError (key : string)
| FileNotFoundError (what : string)
| FileExistsError (what : string)
| DriverError (what : string)
| ValueError (what : string).

Inductive result (A : Type) : Type :=
| Ok (a : A)
| Raise (e : exn).

Arguments Ok {A} a.
Arguments Raise {A} e.

Definition bind {A B : Type} (m : result A) (f : A -> result B) : result B :=
  match m with
  | Ok a => f a
  | Raise e => Raise e
  end.

Notation "x <- m ;; k" := (bind m (fun x => k))
  (at level 61, m at next level, right associativity).

(** ** Python dictionaries *)

Definition dict (V : Type) : Type := list (string * V).

Definition keys {V : Type} (d : dict V) : list string := map fst d.

Fixpoint dict_get {V : Type} (d : dict V) (k : string) : option V :=
  match d with
  | [] => None
  | (k', v) :: rest => if String.eqb k' k then Some v else dict_get rest k
  end.

(** [d[k] = v]: replaces the value in place, or appends a new key. *)
Fixpoint dict_set {V : Type} (d : dict V) (k : string) (v : V) : dict V :=
  match d with
  | [] => [(k, v)]
  | (k', v') :: rest =>
      if String.eqb k' k then (k', v) :: rest else (k', v') :: dict_set rest k v
  end.

(** [d[k]] as an expression: raises [KeyError] on a missing key. *)
Definition getitem {V : Type} (d : dict V) (k : string) : result V :=
  match dict_get d k with
  | Some v => Ok v
  | None => Raise (KeyError k)
  end.

Definition has_key {V : Type} (d : dict V) (k : string) : bool :=
  match dict_get d k with
  | Some _ => true
  | None => false
  end.

Definition has_keys {V : Type} (d : dict V) (ks : list string) : bool :=
  forallb (has_key d) ks.

(** The number stored under [k], read as [0] when the key is missing; only
    used in statements, next to a [has_keys] hypothesis. *)
Definition val (d : dict Q) (k : string) : Q :=
  match dict_get d k with
  | Some v => v
  | None => 0
  end.

(** [for k, v in d.items(): s = body(k, v, s)] *)
Fixpoint for_items {V S : Type} (items : dict V)
    (body : string -> V -> S -> result S) (s : S) : result S :=
  match items with
  | [] => Ok s
  | (k, v) :: rest => s' <- body k v s ;; for_items rest body s'
  end.

(** Values stored in the emission dictionaries: a number or a phase tag. *)
Inductive pyval : Type :=
| VNum (q : Q)
| VStr (s : string).

(** ** The LCA calculators

    [glassfibre.inputs] (the tables [weights], [carbon_factors] and
    [operations]) is imported by the module and is taken as a parameter. *)

Definition table : Type := dict (dict Q).

(** [item[wk] * carbon_factor[ck]], left operand first. *)
Definition weighted (item carbon_factor : dict Q) (wk ck : string) : result Q :=
  w <- getitem item wk ;;
  c <- getitem carbon_factor ck ;;
  Ok (w * c).

Definition lca_manufacturing (carbon_factors weights : table)
    : result (dict pyval) :=
  for_items carbon_factors (fun key carbon_factor mfg_emission_dict =>
    if key =? "mfg_emissions" then
      for_items weights (fun key item mfg_emission_dict =>
        if key =? "manufacturing" then
          fiber_cable_ghg <-
            weighted item carbon_factor "fiber_cable_per_km_kg" "glass_kg_co2e" ;;
          pcb_ghg <- weighted item carbon_factor "pcb_kg" "pcb_kg_co2e" ;;
          alu_bbu__ghg <-
            weighted item carbon_factor "aluminium_bru_kg" "aluminium_kg_co2e" ;;
          cu_antenna_ghg <-
            weighted item carbon_factor "copper_antenna_kg" "copper_kg_co2e" ;;
          alu_antenna_ghg <-
            weighted item carbon_factor "aluminium_antenna_kg" "aluminium_kg_co2e" ;;
          pvc_ghg <- weighted item carbon_factor "pvc_antenna_kg" "pvc_kg_co2e" ;;
          iron_ghg <- weighted item carbon_factor "iron_antenna_kg" "iron_kg_co2e" ;;
          steel_ghg <-
            weighted item carbon_factor "steel_antenna_kg" "steel_kg_co2e" ;;
          alu_frame_ghg <-
            weighted item carbon_factor "aluminium_frame_kg" "aluminium_kg_co2e" ;;
          concrete_ghg <-
            weighted item carbon_factor "concrete_kg" "concrete_kg_co2e" ;;
          alu_device_ghg <-
            weighted item carbon_factor "aluminium_device_kg" "aluminium_kg_co2e" ;;
          let d := dict_set mfg_emission_dict "aluminium_ghg"
                     (VNum (alu_bbu__ghg + alu_antenna_ghg + alu_frame_ghg
                            + alu_device_ghg)) in
          let d := dict_set d "optic_fiber_ghg" (VNum fiber_cable_ghg) in
          let d := dict_set d "steel_iron_ghg" (VNum (iron_ghg + steel_ghg)) in
          let d := dict_set d "concrete_ghg" (VNum concrete_ghg) in
          let d := dict_set d "plastics_ghg" (VNum (pcb_ghg + pvc_ghg)) in
          let d := dict_set d "other_metals_ghg" (VNum cu_antenna_ghg) in
          Ok (dict_set d "lca_phase" (VStr key))
        else Ok mfg_emission_dict) mfg_emission_dict
    else Ok mfg_emission_dict) [].

Definition lca_eolt (carbon_factors weights : table) : result (dict pyval) :=
  for_items carbon_factors (fun key carbon_factor eolt_emission_dict =>
    if key =? "eolt_emissions" then
      for_items weights (fun key item eolt_emission_dict =>
        if key =? "manufacturing" then
          fiber_cable_ghg <-
            weighted item carbon_factor "fiber_cable_per_km_kg" "glass_kg_co2e" ;;
          pcb_ghg <- weighted item carbon_factor "pcb_kg" "pcb_kg_co2e" ;;
          alu_bbu__ghg <-
            weighted item carbon_factor "aluminium_bru_kg" "metals_kg_co2e" ;;
          cu_antenna_ghg <-
            weighted item carbon_factor "copper_antenna_kg" "metals_kg_co2e" ;;
          alu_antenna_ghg <-
            weighted item carbon_factor "aluminium_antenna_kg" "metals_kg_co2e" ;;
          pvc_ghg <- weighted item carbon_factor "pvc_antenna_kg" "pcb_kg_co2e" ;;
          iron_ghg <- weighted item carbon_factor "iron_antenna_kg" "metals_kg_co2e" ;;
          steel_ghg <-
            weighted item carbon_factor "steel_antenna_kg" "metals_kg_co2e" ;;
          alu_frame_ghg <-
            weighted item carbon_factor "aluminium_frame_kg" "metals_kg_co2e" ;;
          concrete_ghg <-
            weighted item carbon_factor "concrete_kg" "concrete_kg_co2e" ;;
          alu_device_ghg <-
            weighted item carbon_factor "aluminium_device_kg" "metals_kg_co2e" ;;
          let d := dict_set eolt_emission_dict "aluminium_ghg"
                     (VNum (alu_bbu__ghg + alu_antenna_ghg + alu_frame_ghg
                            + alu_device_ghg)) in
          let d := dict_set d "optic_fiber_ghg" (VNum fiber_cable_ghg) in
          let d := dict_set d "steel_iron_ghg" (VNum (iron_ghg + steel_ghg)) in
          let d := dict_set d "concrete_ghg" (VNum concrete_ghg) in
          let d := dict_set d "plastics_ghg" (VNum (pcb_ghg + pvc_ghg)) in
          let d := dict_set d "other_metals_ghg" (VNum cu_antenna_ghg) in
          Ok (dict_set d "lca_phase" (VStr "eolt"))
        else Ok eolt_emission_dict) eolt_emission_dict
    else Ok eolt_emission_dict) [].

Definition lca_trans (carbon_factors : table) : result (dict pyval) :=
  for_items carbon_factors (fun key carbon_factor trans_emission_dict =>
    if key =? "trans_emissions" then
      fiber_cable_ghg <- getitem carbon_factor "olnu_router_kg_co2e" ;;
      let d := dict_set trans_emission_dict "optic_fiber_ghg"
                 (VNum fiber_cable_ghg) in
      Ok (dict_set d "lca_phase" (VStr "trans"))
    else Ok trans_emission_dict) [].

Definition lca_operations (operations : table) : result (dict pyval) :=
  for_items operations (fun key operation ops_emission_dict =>
    cpe_power_kwh <- getitem operation "cpe_power_kwh" ;;
    base_station_power_kwh <- getitem operation "base_station_pwr_kwh" ;;
    terminal_unit_pwr_kwh <- getitem operation "terminal_unit_pwr_kwh" ;;
    let d := dict_set ops_emission_dict "cpe_power" (VNum cpe_power_kwh) in
    let d := dict_set d "base_station_power_kwh"
               (VNum base_station_power_kwh) in
    let d := dict_set d "terminal_unit_pwr_kwh" (VNum terminal_unit_pwr_kwh) in
    Ok (dict_set d "lca_phase" (VStr "ops"))) [].

(** ** Geometries

    The geometry classes of the geometry library, with planar coordinates.
    Only the type name, the area and the parts of a multi-polygon are used
    by the module. *)

Definition point : Type := (Q * Q)%type.

Definition ring : Type := list point.

Record polygon : Type := mkPolygon {
  exterior : ring;
  interiors : list ring
}.

#[warnings="-register-all"]
Inductive geom : Type :=
| Point (p : point)
| LineString (coords : list point)
| LinearRing (coords : ring)
| Polygon (p : polygon)
| MultiPoint (points : list point)
| MultiLineString (lines : list (list point))
| MultiPolygon (parts : list polygon)
| GeometryCollection (members : list geom).

(** Twice the signed area enclosed by a closed ring. *)
Fixpoint shoelace (r : ring) : Q :=
  match r with
  | (x1, y1) :: (((x2, y2) :: _) as rest) => (x1 * y2 - x2 * y1) + shoelace rest
  | _ => 0
  end.

Definition ring_area (r : ring) : Q := Qabs (shoelace r) / 2.

Definition sumQ (l : list Q) : Q := fold_right Qplus 0 l.

Definition polygon_area (p : polygon) : Q :=
  ring_area (exterior p) - sumQ (map ring_area (interiors p)).

(** [g.area]: curves and points have none; a multi-part geometry has the sum
    of the areas of its parts. *)
Fixpoint area (g : geom) : Q :=
  match g with
  | Polygon p => polygon_area p
  | MultiPolygon ps => sumQ (map polygon_area ps)
  | GeometryCollection gs => fold_right (fun g acc => area g + acc) 0 gs
  | _ => 0
  end.

(** [g.type] *)
Definition geom_type (g : geom) : string :=
  match g with
  | Point _ => "Point"
  | LineString _ => "LineString"
  | LinearRing _ => "LinearRing"
  | Polygon _ => "Polygon"
  | MultiPoint _ => "MultiPoint"
  | MultiLineString _ => "MultiLineString"
  | MultiPolygon _ => "MultiPolygon"
  | GeometryCollection _ => "GeometryCollection"
  end.

(** [g.geoms] of a multi-polygon (a polygon is its own single part). *)
Definition geoms (g : geom) : list polygon :=
  match g with
  | MultiPolygon ps => ps
  | Polygon p => [p]
  | _ => []
  end.

(** A row of a boundary layer, as [remove_small_shapes] reads it. *)
Record feature : Type := mkFeature {
  GID_0 : string;
  geometry : geom
}.

Definition Qltb (x y : Q) : bool := negb (Qle_bool y x).

(** [s in [..]] on strings *)
Definition str_in (s : string) (l : list string) : bool :=
  existsb (String.eqb s) l.

(** The threshold chosen for a multi-polygon of total area at least 0.01. *)
Definition shape_threshold (x : feature) : Q :=
  let area2 := 50 in
  if str_in (GID_0 x) ["CHL"; "IDN"] then 0.01
  else if str_in (GID_0 x) ["RUS"; "GRL"; "CAN"; "USA"] then 0.01
  else if Qltb area2 (area (geometry x)) then 0.1
  else 0.001.

(** [None] is Python's [None], returned when no branch returns. *)
Definition remove_small_shapes (x : feature) : option geom :=
  if geom_type (geometry x) =? "Polygon" then Some (geometry x)
  else if geom_type (geometry x) =? "MultiPolygon" then
    let area1 := 0.01 in
    if Qltb (area (geometry x)) area1 then Some (geometry x)
    else
      let threshold := shape_threshold x in
      let new_geom :=
        filter (fun y => Qltb threshold (polygon_area y)) (geoms (geometry x)) in
      Some (MultiPolygon new_geom)
  else None.

(** A row after [layer.apply(remove_small_shapes, axis = 1)] has replaced
    its geometry column. *)
Record pruned_feature : Type := mkPruned {
  pruned_GID_0 : string;
  pruned_geometry : option geom
}.

Definition apply_remove_small_shapes (layer : list feature)
    : list pruned_feature :=
  map (fun x => mkPruned (GID_0 x) (remove_small_shapes x)) layer.

(** [frame['geometry'] = frame.apply(remove_small_shapes, axis = 1)]: on a
    frame without rows [apply] gives a frame back instead of a column, and
    the assignment raises [ValueError] (the text of its message depends on
    the version of the library; the properties below do not). *)
Definition assign_applied (frame : list feature)
    : result (list pruned_feature) :=
  match frame with
  | [] => Raise (ValueError "Cannot set a DataFrame with multiple columns")
  | _ => Ok (apply_remove_small_shapes frame)
  end.

(** How many rows of a layer belong to a country. *)
Definition country_rows (iso : string) (countries : list feature) : nat :=
  List.length (filter (fun r => GID_0 r =? iso) countries).

(** Number of polygon parts of a returned geometry. *)
Definition num_parts (g : geom) : nat := List.length (geoms g).

(** ** ProcessCountry.get_countries *)

Record country_row : Type := mkCountry {
  country_iso3 : string;
  Exclude : Z;
  metadata : dict string
}.

Fixpoint remove_nth {A : Type} (i : nat) (l : list A) : list A :=
  match l, i with
  | [], _ => []
  | _ :: t, O => t
  | h :: t, S i' => h :: remove_nth i' t
  end.

(** [df.sample(frac = 1)]: every row, drawn one after the other without
    replacement; [random_state k] is the raw draw made when [k + 1] rows
    are still to be placed. *)
Fixpoint sample_rows {A : Type} (n : nat) (random_state : nat -> nat)
    (l : list A) : list A :=
  match n with
  | O => []
  | S n' =>
      match l with
      | [] => []
      | x :: _ =>
          let i := (random_state n' mod List.length l)%nat in
          nth i l x :: sample_rows n' random_state (remove_nth i l)
      end
  end.

Definition sample_frac1 {A : Type} (random_state : nat -> nat) (l : list A)
    : list A :=
  sample_rows (List.length l) random_state l.

Definition get_countries (random_state : nat -> nat) (csv : list country_row)
    : list country_row :=
  let countries := csv in
  let countries := filter (fun c => (Exclude c =? 0)%Z) countries in
  let countries := sample_frac1 random_state countries in
  countries.

(** ** Files, console and the effect monad

    Paths are kept as their [os.path.join] components.  The world records
    which paths exist, what the raw boundary layers hold, whether a write to
    a path succeeds, and the effects performed so far, oldest first. *)

Definition path : Type := list string.

Definition join (p : path) : string := String.concat "/" p.

Definition path_eqb (p q : path) : bool :=
  if list_eq_dec string_dec p q then true else false.

Inductive event : Type :=
| Printed (line : string)
| MadeDir (p : path)
| ReadFile (p : path)
| Wrote (p : path) (layer : list pruned_feature)
| WriteFailed (p : path).

Record world : Type := mkWorld {
  fs : list path;
  raw_layers : path -> option (list feature);
  writable : path -> bool;
  trace : list event
}.

Definition io (A : Type) : Type := world -> result A * world.

Definition io_ret {A : Type} (a : A) : io A := fun w => (Ok a, w).

(** A pure step that may raise. *)
Definition io_lift {A : Type} (m : result A) : io A := fun w => (m, w).

Definition io_bind {A B : Type} (m : io A) (f : A -> io B) : io B :=
  fun w =>
    match m w with
    | (Ok a, w') => f a w'
    | (Raise e, w') => (Raise e, w')
    end.

Notation "x <~ m ;; k" := (io_bind m (fun x => k))
  (at level 61, m at next level, right associativity).

(** [try: m  except: handler] with a bare [except]: every exception is
    caught. *)
Definition try_except {A : Type} (m : io A) (handler : io A) : io A :=
  fun w =>
    match m w with
    | (Ok a, w') => (Ok a, w')
    | (Raise _, w') => handler w'
    end.

Definition emit (e : event) (w : world) : world :=
  mkWorld (fs w) (raw_layers w) (writable w) (trace w ++ [e])%list.

Definition add_path (p : path) (w : world) : world :=
  mkWorld (fs w ++ [p])%list (raw_layers w) (writable w) (trace w).

Definition print (line : string) : io unit :=
  fun w => (Ok tt, emit (Printed line) w).

Definition path_exists (p : path) : io bool :=
  fun w => (Ok (existsb (path_eqb p) (fs w)), w).

(** [os.mkdir]: the parent directory has to exist. *)
Definition mkdir (p : path) : io unit :=
  fun w =>
    if existsb (path_eqb p) (fs w) then (Raise (FileExistsError (join p)), w)
    else if existsb (path_eqb (removelast p)) (fs w)
    then (Ok tt, emit (MadeDir p) (add_path p w))
    else (Raise (FileNotFoundError (join p)), w).

(** [gpd.read_file] *)
Definition read_file (p : path) : io (list feature) :=
  fun w =>
    match raw_layers w p with
    | Some layer => (Ok layer, emit (ReadFile p) w)
    | None => (Raise (DriverError (join p)), w)
    end.

(** [layer.to_file(p, driver = 'ESRI Shapefile')] *)
Definition to_file (p : path) (layer : list pruned_feature) : io unit :=
  fun w =>
    if writable w p then (Ok tt, emit (Wrote p layer) (add_path p w))
    else (Raise (DriverError (join p)), emit (WriteFailed p) w).

(** [str(n)] as [format] prints an integer. *)
Definition string_of_nat (n : nat) : string :=
  NilEmpty.string_of_uint (Nat.to_uint n).

(** ** ProcessRegions.process_regions *)

Section Regions.

(** [geometry.simplify(tolerance, preserve_topology = True)] of the
    geometry library. *)
Variable simplify : Q -> geom -> geom.

Definition regions_folder (country_iso3 : string) : path :=
  ["results"; "processed"; country_iso3; "regions"].

Definition path_processed (country_iso3 : string) (regional_level : nat)
    : path :=
  (regions_folder country_iso3
     ++ [("regions_" ++ string_of_nat regional_level ++ "_" ++ country_iso3
          ++ ".shp")%string])%list.

Definition gadm_filename (regional_level : nat) : string :=
  "gadm36_" ++ string_of_nat regional_level ++ ".shp".

Definition path_regions (regional_level : nat) : path :=
  ["data"; "raw"; "boundaries"; gadm_filename regional_level].

(** What one level writes: the country's rows, simplified and pruned.  A
    layer without a row of the country raises at the assignment of the
    pruned geometries. *)
Definition level_layer (country_iso3 : string) (regions : list feature)
    : result (list pruned_feature) :=
  let regions := filter (fun r => GID_0 r =? country_iso3) regions in
  let regions :=
    map (fun r => mkFeature (GID_0 r) (simplify 0.005 (geometry r))) regions in
  assign_applied regions.

(** The body of the loop over regional levels. *)
Definition process_level (country_iso3 : string) (regional_level : nat)
    : io unit :=
  let folder := regions_folder country_iso3 in
  done <~ path_exists (path_processed country_iso3 regional_level) ;;
  if (done : bool) then io_ret tt
  else
    _ <~ print ("Processing GID_" ++ string_of_nat regional_level
                ++ " region shapes for " ++ country_iso3) ;;
    have_folder <~ path_exists folder ;;
    _ <~ (if (have_folder : bool) then io_ret tt else mkdir folder) ;;
    let filename := gadm_filename regional_level in
    regions <~ read_file (path_regions regional_level) ;;
    regions <~ io_lift (level_layer country_iso3 regions) ;;
    try_except
      (to_file (path_processed country_iso3 regional_level) regions)
      (print ("Unable to write " ++ filename)).

Fixpoint for_levels (country_iso3 : string) (levels : list nat) : io unit :=
  match levels with
  | [] => io_ret tt
  | regional_level :: rest =>
      _ <~ process_level country_iso3 regional_level ;;
      for_levels country_iso3 rest
  end.

(** [range(1, int(gid_level) + 1)] is [seq 1 gid_level]. *)
Definition process_regions (country_iso3 : string) (gid_level : nat)
    : io unit :=
  for_levels country_iso3 (seq 1 gid_level).

End Regions.

(** The world once a level has been announced and its folder made sure
    of. *)
Definition level_started (country_iso3 : string) (regional_level : nat)
    (w : world) : world :=
  let w1 :=
    emit (Printed ("Processing GID_" ++ string_of_nat regional_level
                   ++ " region shapes for " ++ country_iso3)) w in
  if existsb (path_eqb (regions_folder country_iso3)) (fs w) then w1
  else emit (MadeDir (regions_folder country_iso3))
         (add_path (regions_folder country_iso3) w1).

(** The world after a level whose write failed: the raw layer was read, one
    write was attempted, and the failure was printed. *)
Definition level_write_failed (country_iso3 : string) (regional_level : nat)
    (w : world) : world :=
  emit (Printed ("Unable to write " ++ gadm_filename regional_level))
    (emit (WriteFailed (path_processed country_iso3 regional_level))
       (emit (ReadFile (path_regions regional_level))
          (level_started country_iso3 regional_level w))).

(** The regions folder exists, or can be made. *)
Definition folder_available (country_iso3 : string) (w : world) : Prop :=
  existsb (path_eqb (regions_folder country_iso3)) (fs w) = true
  \/ existsb (path_eqb (removelast (regions_folder country_iso3))) (fs w)
     = true.

(** The raw layer of a level can be read and has a row of the country. *)
Definition level_readable (country_iso3 : string) (w : world)
    (regional_level : nat) : Prop :=
  exists layer,
    raw_layers w (path_regions regional_level) = Some layer
    /\ country_rows country_iso3 layer <> 0%nat.

(** ** ProcessPopulation.process_population_tif *)

(** A cell of a dataframe column: missing, float or integer. *)
Inductive cell : Type :=
| Null
| FloatCell (q : Q)
| IntCell (z : Z).

(** [isna] on a cell *)
Definition is_null (c : cell) : bool :=
  match c with
  | Null => true
  | _ => false
  end.

(** A row of the regions layer: its attribute columns and its geometry. *)
Record boundary_row : Type := mkBoundary {
  attrs : dict string;
  boundary_geometry : geom
}.

(** The dictionary appended to [output] for one sub-region. *)
Record region_record : Type := mkRecord {
  iso3 : string;
  region : string;
  GID_1 : string;
  population : cell;
  latitude : Q;
  longitude : Q;
  record_geometry : geom;
  record_area : Q
}.

(** [try: m  except: handler] in pure code. *)
Definition try_catch {A : Type} (m handler : result A) : result A :=
  match m with
  | Ok a => Ok a
  | Raise _ => handler
  end.

Fixpoint mapM {A B : Type} (f : A -> result B) (l : list A)
    : result (list B) :=
  match l with
  | [] => Ok []
  | x :: rest => y <- f x ;; ys <- mapM f rest ;; Ok (y :: ys)
  end.

Definition indexed {A : Type} (l : list A) : list (nat * A) :=
  combine (seq 0 (List.length l)) l.

(** [array[array <= 0] = 0] *)
Definition zero_nonpositive (array : list (list Q)) : list (list Q) :=
  map (map (fun v => if Qle_bool v 0 then 0 else v)) array.

(** Truncation of a float towards zero. *)
Definition truncate (q : Q) : Z :=
  if Qle_bool 0 q then Qfloor q else Qceiling q.

Definition int64_min : Z := (- 9223372036854775808)%Z.

Definition int64_max : Z := 9223372036854775807%Z.

(** The cast of a float to [int], a 64-bit integer: truncation towards
    zero, and the least 64-bit integer for a value out of range. *)
Definition to_int64 (q : Q) : Z :=
  let z := truncate q in
  if ((int64_min <=? z) && (z <=? int64_max))%Z then z else int64_min.

Definition round_half_even (q : Q) : Z :=
  let f := Qfloor q in
  let d := q - inject_Z f in
  if Qltb d (1 # 2) then f
  else if Qltb (1 # 2) d then (f + 1)%Z
  else if Z.even f then f else (f + 1)%Z.

(** [round(4)] of a float column *)
Definition round4 (q : Q) : Q :=
  inject_Z (round_half_even (q * 10000)) / 10000.

Section Population.

(** Rasterisation of the statistics library: whether the cell at a row
    and column of the raster lies in the geometry. *)
Variable covered : geom -> nat -> nat -> bool.

(** [g.centroid] of the geometry library, as [(x, y)]. *)
Variable centroid : geom -> point.

(** The cells that enter a zonal statistic: inside the geometry and
    different from [nodata]. *)
Definition zone_values (g : geom) (array : list (list Q)) (nodata : Q)
    : list Q :=
  flat_map (fun rc : nat * list Q =>
    flat_map (fun cv : nat * Q =>
      if covered g (fst rc) (fst cv) && negb (Qeq_bool (snd cv) nodata)
      then [snd cv] else [])
      (indexed (snd rc)))
    (indexed array).

(** [zonal_stats(g, array, nodata = .., stats = ['sum'])[0]['sum']]:
    no value when no cell enters the statistic. *)
Definition zonal_sum (g : geom) (array : list (list Q)) (nodata : Q)
    : cell :=
  match zone_values g array nodata with
  | [] => Null
  | vs => FloatCell (fold_left Qplus vs 0)
  end.

(** The dictionary literal of the loop body, with the id column read from
    [gid_column]; the keys are evaluated in the order written. *)
Definition region_entry (boundary : boundary_row) (gid_column : string)
    (population : cell) : result region_record :=
  let g := boundary_geometry boundary in
  iso <- getitem (attrs boundary) "GID_0" ;;
  name <- getitem (attrs boundary) "NAME_1" ;;
  gid <- getitem (attrs boundary) gid_column ;;
  Ok (mkRecord iso name gid population (snd (centroid g)) (fst (centroid g))
        g (area g * 12309)).

(** One iteration of the loop over the boundaries. *)
Definition process_boundary (raster : list (list Q))
    (output : list region_record) (boundary : boundary_row)
    : result (list region_record) :=
  let array := zero_nonpositive raster in
  let population := zonal_sum (boundary_geometry boundary) array 255 in
  try_catch
    (r <- region_entry boundary "GID_2" population ;; Ok (output ++ [r])%list)
    (r <- region_entry boundary "GID_1" population ;; Ok (output ++ [r])%list).

Fixpoint for_boundaries (raster : list (list Q))
    (boundaries : list boundary_row) (output : list region_record)
    : result (list region_record) :=
  match boundaries with
  | [] => Ok output
  | boundary :: rest =>
      output' <- process_boundary raster output boundary ;;
      for_boundaries raster rest output'
  end.

(** [df.dropna(subset = ['population'])]: the column has to exist, which
    it does as soon as the frame has a row. *)
Definition dropna_population (df : list region_record)
    : result (list region_record) :=
  match df with
  | [] => Raise (KeyError "population")
  | _ =>
      Ok (filter (fun r => negb (is_null (population r))) df)
  end.

(** [df['population'].astype(int)]: a missing value cannot be cast, and a
    float is cast to a 64-bit integer.  The sums are rationals here: a sum
    that is not finite, on which the cast raises too, is outside this
    model, so what is stated about the written populations is stated for
    calls that return. *)
Definition astype_int (r : region_record) : result region_record :=
  match population r with
  | Null => Raise (ValueError "cannot convert float NaN to integer")
  | FloatCell q =>
      Ok (mkRecord (iso3 r) (region r) (GID_1 r) (IntCell (to_int64 q))
            (latitude r) (longitude r) (record_geometry r) (record_area r))
  | IntCell z => Ok r
  end.

Definition round_coordinates (r : region_record) : region_record :=
  mkRecord (iso3 r) (region r) (GID_1 r) (population r)
    (round4 (latitude r)) (round4 (longitude r))
    (record_geometry r) (record_area r).

(** Returns the rows written to the CSV file and the returned [output]. *)
Definition process_population_tif (boundaries : list boundary_row)
    (raster : list (list Q))
    : result (list region_record * list region_record) :=
  output <- for_boundaries raster boundaries [] ;;
  let df := output in
  df <- dropna_population df ;;
  df <- mapM astype_int df ;;
  let df := map round_coordinates df in
  Ok (df, output).

End Population.

(** What the population column may hold: nothing, or a number that is not
    negative. *)
Definition pop_nonneg (c : cell) : Prop :=
  match c with
  | Null => True
  | FloatCell q => 0 <= q
  | IntCell z => (0 <= z)%Z
  end.

(** A row that has the country code, the level-1 name and one of the two id
    columns. *)
Definition regions_row (boundary : boundary_row) : Prop :=
  dict_get (attrs boundary) "GID_0" <> None
  /\ dict_get (attrs boundary) "NAME_1" <> None
  /\ (dict_get (attrs boundary) "GID_2" <> None
      \/ dict_get (attrs boundary) "GID_1" <> None).

(** ** The documented shape of an LCA total

    The specification describes every category total as a sum of products
    weight x carbon factor taken from the lookup tables.  [spec_weighted_sum]
    follows these words: some finite list of pairs (a value of the weights
    table, a value of the carbon-factor table) whose products add up to the
    total. *)

Definition table_value (t : table) (v : Q) : Prop :=
  exists k d name, In (k, d) t /\ In (name, v) d.

Definition sum_products (terms : list (Q * Q)) : Q :=
  sumQ (map (fun t => fst t * snd t) terms).

Definition spec_weighted_sum (weights carbon_factors : table) (v : Q) : Prop :=
  exists terms : list (Q * Q),
    Forall (fun t => table_value weights (fst t)
                     /\ table_value carbon_factors (snd t)) terms
    /\ v == sum_products terms.

(** The keys the calculators read. *)
Definition weight_keys : list string :=
  ["fiber_cable_per_km_kg"; "pcb_kg"; "aluminium_bru_kg"; "copper_antenna_kg";
   "aluminium_antenna_kg"; "pvc_antenna_kg"; "iron_antenna_kg";
   "steel_antenna_kg"; "aluminium_frame_kg"; "concrete_kg";
   "aluminium_device_kg"].

Definition mfg_factor_keys : list string :=
  ["glass_kg_co2e"; "pcb_kg_co2e"; "aluminium_kg_co2e"; "copper_kg_co2e";
   "pvc_kg_co2e"; "iron_kg_co2e"; "steel_kg_co2e"; "concrete_kg_co2e"].

Definition eolt_factor_keys : list string :=
  ["glass_kg_co2e"; "pcb_kg_co2e"; "metals_kg_co2e"; "concrete_kg_co2e"].

Definition operation_keys : list string :=
  ["cpe_power_kwh"; "base_station_pwr_kwh"; "terminal_unit_pwr_kwh"].

(** The dictionaries the calculators return on complete tables. *)
Definition mfg_totals (item cf : dict Q) : dict pyval :=
  [("aluminium_ghg",
    VNum (val item "aluminium_bru_kg" * val cf "aluminium_kg_co2e"
          + val item "aluminium_antenna_kg" * val cf "aluminium_kg_co2e"
          + val item "aluminium_frame_kg" * val cf "aluminium_kg_co2e"
          + val item "aluminium_device_kg" * val cf "aluminium_kg_co2e"));
   ("optic_fiber_ghg",
    VNum (val item "fiber_cable_per_km_kg" * val cf "glass_kg_co2e"));
   ("steel_iron_ghg",
    VNum (val item "iron_antenna_kg" * val cf "iron_kg_co2e"
          + val item "steel_antenna_kg" * val cf "steel_kg_co2e"));
   ("concrete_ghg", VNum (val item "concrete_kg" * val cf "concrete_kg_co2e"));
   ("plastics_ghg",
    VNum (val item "pcb_kg" * val cf "pcb_kg_co2e"
          + val item "pvc_antenna_kg" * val cf "pvc_kg_co2e"));
   ("other_metals_ghg",
    VNum (val item "copper_antenna_kg" * val cf "copper_kg_co2e"));
   ("lca_phase", VStr "manufacturing")].

Definition eolt_totals (item cf : dict Q) : dict pyval :=
  [("aluminium_ghg",
    VNum (val item "aluminium_bru_kg" * val cf "metals_kg_co2e"
          + val item "aluminium_antenna_kg" * val cf "metals_kg_co2e"
          + val item "aluminium_frame_kg" * val cf "metals_kg_co2e"
          + val item "aluminium_device_kg" * val cf "metals_kg_co2e"));
   ("optic_fiber_ghg",
    VNum (val item "fiber_cable_per_km_kg" * val cf "glass_kg_co2e"));
   ("steel_iron_ghg",
    VNum (val item "iron_antenna_kg" * val cf "metals_kg_co2e"
          + val item "steel_antenna_kg" * val cf "metals_kg_co2e"));
   ("concrete_ghg", VNum (val item "concrete_kg" * val cf "concrete_kg_co2e"));
   ("plastics_ghg",
    VNum (val item "pcb_kg" * val cf "pcb_kg_co2e"
          + val item "pvc_antenna_kg" * val cf "pcb_kg_co2e"));
   ("other_metals_ghg",
    VNum (val item "copper_antenna_kg" * val cf "metals_kg_co2e"));
   ("lca_phase", VStr "eolt")].

Definition trans_totals (cf : dict Q) : dict pyval :=
  [("optic_fiber_ghg", VNum (val cf "olnu_router_kg_co2e"));
   ("lca_phase", VStr "trans")].

Definition ops_totals (operation : dict Q) : dict pyval :=
  [("cpe_power", VNum (val operation "cpe_power_kwh"));
   ("base_station_power_kwh", VNum (val operation "base_station_pwr_kwh"));
   ("terminal_unit_pwr_kwh", VNum (val operation "terminal_unit_pwr_kwh"));
   ("lca_phase", VStr "ops")].

(** ** Sample data *)

Definition sample_weights : table :=
  [("manufacturing", map (fun k => (k, 2)) weight_keys)].

Definition sample_carbon_factors : table :=
  [("mfg_emissions", map (fun k => (k, 3)) mfg_factor_keys);
   ("eolt_emissions", map (fun k => (k, 3)) eolt_factor_keys);
   ("trans_emissions", [("olnu_router_kg_co2e", 3)])].

Definition sample_operations : table :=
  [("fiber", [("cpe_power_kwh", 5); ("base_station_pwr_kwh", 7);
              ("terminal_unit_pwr_kwh", 11)])].

(** An axis-parallel rectangle with lower-left corner [(x, y)]. *)
Definition rectangle (x y w h : Q) : polygon :=
  mkPolygon [(x, y); (x + w, y); (x + w, y + h); (x, y + h); (x, y)] [].

Definition square (x y side : Q) : polygon := rectangle x y side side.

(** Two islets of area 0.0064 each, off a mainland of a large country. *)
Definition two_islets : feature :=
  mkFeature "USA" (MultiPolygon [square 0 0 0.08; square 1 1 0.08]).

(** A mainland of area 4 with an islet of area 0.0004. *)
Definition mainland_and_islet : feature :=
  mkFeature "KEN" (MultiPolygon [square 0 0 2; square 3 3 0.02]).

Definition single_polygon : feature :=
  mkFeature "KEN" (Polygon (square 0 0 2)).

Definition tiny_multipolygon : feature :=
  mkFeature "KEN" (MultiPolygon [square 0 0 0.05; square 1 1 0.05]).

Definition a_point : feature := mkFeature "KEN" (Point (1, 1)).

Definition sample_countries : list country_row :=
  [mkCountry "KEN" 0 [("country", "Kenya")];
   mkCountry "ATA" 1 [("country", "Antarctica")];
   mkCountry "UGA" 0 [("country", "Uganda")]].

(** A raster cell is taken to lie in a polygon when its centre lies in the
    box spanned by the first and third vertex of the exterior ring. *)
Definition sample_covered (g : geom) (row col : nat) : bool :=
  match g with
  | Polygon p =>
      match exterior p with
      | (x1, y1) :: _ :: (x2, y2) :: _ =>
          let cx := inject_Z (Z.of_nat col) + (1 # 2) in
          let cy := inject_Z (Z.of_nat row) + (1 # 2) in
          Qle_bool x1 cx && Qle_bool cx x2 && Qle_bool y1 cy && Qle_bool cy y2
      | _ => false
      end
  | _ => false
  end.

Definition sample_centroid (g : geom) : point :=
  match g with
  | Polygon p =>
      match exterior p with
      | (x1, y1) :: _ :: (x2, y2) :: _ => ((x1 + x2) / 2, (y1 + y2) / 2)
      | _ => (0, 0)
      end
  | _ => (0, 0)
  end.

(** A raster of two rows and three columns: one cell below zero and one
    holding the nodata value. *)
Definition sample_raster : list (list Q) :=
  [[10; 10; -3]; [255; 10; 10]].

(** A level-2 row over the two leftmost cells of the first raster row, and
    a level-1 row that lies outside the raster. *)
Definition sample_boundaries : list boundary_row :=
  [mkBoundary [("GID_0", "KEN"); ("NAME_1", "Baringo"); ("GID_1", "KEN.1_1");
               ("GID_2", "KEN.1.1_1")]
              (Polygon (rectangle 0 0 2 1));
   mkBoundary [("GID_0", "KEN"); ("NAME_1", "Bomet"); ("GID_1", "KEN.2_1")]
              (Polygon (rectangle 5 5 1 1))].

(** A world in which the country folder exists, both raw layers can be read
    and the level-1 output cannot be written. *)
Definition sample_world : world :=
  mkWorld [["results"; "processed"; "KEN"]]
    (fun p =>
       if path_eqb p ["data"; "raw"; "boundaries"; "gadm36_1.shp"]
       then Some [single_polygon; a_point]
       else if path_eqb p ["data"; "raw"; "boundaries"; "gadm36_2.shp"]
       then Some [mainland_and_islet]
       else None)
    (fun p =>
       negb (path_eqb p ["results"; "processed"; "KEN"; "regions";
                         "regions_1_KEN.shp"]))
    [].

Definition keep_geometry (tolerance : Q) (g : geom) : geom := g.

(** A raster whose first cell holds ten to the nineteenth, above the range
    of 64-bit integers. *)
Definition huge_raster : list (list Q) :=
  [[10000000000000000000; 10; 10]; [10; 10; 10]].

(** A row that has neither id column. *)
Definition row_without_ids : boundary_row :=
  mkBoundary [("GID_0", "KEN"); ("NAME_1", "Baringo")]
             (Polygon (rectangle 0 0 2 1)).

(** A world whose level-1 layer holds no row of the country asked for. *)
Definition world_other_country : world :=
  mkWorld [["results"; "processed"; "UGA"]]
    (raw_layers sample_world) (fun _ => true) [].

(** ** Components of the LCA totals

    The pairs (weight key, carbon-factor key) that the two calculators
    multiply, in the order of the assignments. *)

Definition mfg_components : list (string * string) :=
  [("fiber_cable_per_km_kg", "glass_kg_co2e");
   ("pcb_kg", "pcb_kg_co2e");
   ("aluminium_bru_kg", "aluminium_kg_co2e");
   ("copper_antenna_kg", "copper_kg_co2e");
   ("aluminium_antenna_kg", "aluminium_kg_co2e");
   ("pvc_antenna_kg", "pvc_kg_co2e");
   ("iron_antenna_kg", "iron_kg_co2e");
   ("steel_antenna_kg", "steel_kg_co2e");
   ("aluminium_frame_kg", "aluminium_kg_co2e");
   ("concrete_kg", "concrete_kg_co2e");
   ("aluminium_device_kg", "aluminium_kg_co2e")].

Definition eolt_components : list (string * string) :=
  [("fiber_cable_per_km_kg", "glass_kg_co2e");
   ("pcb_kg", "pcb_kg_co2e");
   ("aluminium_bru_kg", "metals_kg_co2e");
   ("copper_antenna_kg", "metals_kg_co2e");
   ("aluminium_antenna_kg", "metals_kg_co2e");
   ("pvc_antenna_kg", "pcb_kg_co2e");
   ("iron_antenna_kg", "metals_kg_co2e");
   ("steel_antenna_kg", "metals_kg_co2e");
   ("aluminium_frame_kg", "metals_kg_co2e");
   ("concrete_kg", "concrete_kg_co2e");
   ("aluminium_device_kg", "metals_kg_co2e")].

Definition components_total (item cf : dict Q)
    (components : list (string * string)) : Q :=
  sumQ (map (fun p => val item (fst p) * val cf (snd p)) components).

(** The sum of the numbers of an emission dictionary. *)
Definition dict_total (d : dict pyval) : Q :=
  sumQ (flat_map (fun kv => match snd kv with
                            | VNum q => [q]
                            | VStr _ => []
                            end) d).

(** Tables that lack the PVC factor, and an operations table whose second
    entry lacks a power value. *)
Definition sample_factors_no_pvc : table :=
  [("mfg_emissions",
    map (fun k => (k, 3))
      ["glass_kg_co2e"; "pcb_kg_co2e"; "aluminium_kg_co2e"; "copper_kg_co2e";
       "iron_kg_co2e"; "steel_kg_co2e"; "concrete_kg_co2e"])].

Definition sample_operations_incomplete : table :=
  [("fiber", [("cpe_power_kwh", 5); ("base_station_pwr_kwh", 7);
              ("terminal_unit_pwr_kwh", 11)]);
   ("wireless", [("cpe_power_kwh", 5); ("terminal_unit_pwr_kwh", 11)]);
   ("copper", [("cpe_power_kwh", 1); ("base_station_pwr_kwh", 2);
               ("terminal_unit_pwr_kwh", 3)])].

(** The feature with its geometry column replaced, as the callers do after
    applying [remove_small_shapes]. *)
Definition with_geometry (x : feature) (g : geom) : feature :=
  mkFeature (GID_0 x) g.

(** A multi-polygon of a country that is not listed: nine small parts. *)
Definition nine_parts : feature :=
  mkFeature "KEN"
    (MultiPolygon
       (map (fun i => square (inject_Z (Z.of_nat i)) 0 0.04) (seq 0 9))).

(** A path inside the regions folder of a country (the folder included). *)
Definition inside_regions (country_iso3 : string) (p : path) : Prop :=
  exists suffix, p = (regions_folder country_iso3 ++ suffix)%list.

(** An effect that writes no row of another country. *)
Definition writes_only (country_iso3 : string) (e : event) : Prop :=
  match e with
  | Wrote p layer =>
      inside_regions country_iso3 p
      /\ Forall (fun r => pruned_GID_0 r = country_iso3) layer
  | _ => True
  end.

(** A world in which the country folder is missing, and one in which the
    level-2 raw layer is missing. *)
Definition world_without_folder : world :=
  mkWorld [] (raw_layers sample_world) (writable sample_world) [].

Definition world_without_level_2 : world :=
  mkWorld (fs sample_world)
    (fun p =>
       if path_eqb p ["data"; "raw"; "boundaries"; "gadm36_1.shp"]
       then Some [single_polygon; a_point]
       else None)
    (fun _ => true) [].

Definition world_all_writable : world :=
  mkWorld (fs sample_world) (raw_layers sample_world) (fun _ => true) [].

(** A layer whose second row has no level-1 name. *)
Definition boundaries_without_name : list boundary_row :=
  [mkBoundary [("GID_0", "KEN"); ("NAME_1", "Baringo"); ("GID_1", "KEN.1_1")]
              (Polygon (rectangle 0 0 2 1));
   mkBoundary [("GID_0", "KEN"); ("GID_1", "KEN.2_1")]
              (Polygon (rectangle 0 1 1 1))].

(** The number of raster cells that the rasterisation puts in a geometry. *)
Definition covered_cells (covered : geom -> nat -> nat -> bool) (g : geom)
    (array : list (list Q)) : nat :=
  List.length
    (flat_map (fun rc : nat * list Q =>
       filter (fun cv : nat * Q => covered g (fst rc) (fst cv))
         (indexed (snd rc)))
       (indexed array)).

(** A raster of two rows and three columns with ten persons in every cell. *)
Definition uniform_raster : list (list Q) := [[10; 10; 10]; [10; 10; 10]].

(** ** ProcessCountry.process_country_shapes *)

(** The non-empty prefixes of a path, shortest first. *)
Fixpoint prefixes_from (done p : path) : list path :=
  match p with
  | [] => []
  | c :: rest => (done ++ [c])%list :: prefixes_from (done ++ [c])%list rest
  end.

(** One step of [makedirs]. *)
Definition make_missing (w : world) (q : path) : world :=
  if existsb (path_eqb q) (fs w) then w else emit (MadeDir q) (add_path q w).

(** [os.makedirs]: makes the directory and every missing parent. *)
Definition makedirs (p : path) : io unit :=
  fun w =>
    if existsb (path_eqb p) (fs w) then (Raise (FileExistsError (join p)), w)
    else (Ok tt, fold_left make_missing (prefixes_from [] p) w).

(** [left.merge(info, left_on = 'GID_0', right_on = 'iso3')]: an inner
    join, in the order of the left rows. *)
Definition merge_info (rows : list pruned_feature) (info : list country_row)
    : list (pruned_feature * country_row) :=
  flat_map (fun r =>
              map (fun c => (r, c))
                (filter (fun c => pruned_GID_0 r =? country_iso3 c) info))
    rows.

Section Country.

(** [geometry.simplify(tolerance, preserve_topology = True)] of the
    geometry library. *)
Variable simplify : Q -> geom -> geom.

Definition country_folder (country_iso3 : string) : path :=
  ["results"; "processed"; country_iso3].

Definition shape_path (country_iso3 : string) : path :=
  (country_folder country_iso3 ++ ["national_outline.shp"])%list.

Definition path_countries : path :=
  ["data"; "raw"; "boundaries"; "gadm36_0.shp"].

(** The boundary rows of the country, simplified and pruned.  As in
    [process_regions], the assignment of the pruned geometries raises
    [ValueError] when the national layer has no row of the country. *)
Definition country_layer (country_iso3 : string) (countries : list feature)
    : result (list pruned_feature) :=
  let single_country :=
    filter (fun r => GID_0 r =? country_iso3) countries in
  let single_country :=
    map (fun r => mkFeature (GID_0 r) (simplify 0.01 (geometry r)))
      single_country in
  assign_applied single_country.

(** The frame that is written when the country has a boundary row: the rows
    of the country, simplified, pruned and joined with the rows of the
    metadata file for the country. *)
Definition national_outline (country_iso3 : string)
    (countries : list feature) (csv : list country_row)
    : list (pruned_feature * country_row) :=
  let single_country :=
    filter (fun r => GID_0 r =? country_iso3) countries in
  let single_country :=
    map (fun r => mkFeature (GID_0 r) (simplify 0.01 (geometry r)))
      single_country in
  let single_country := apply_remove_small_shapes single_country in
  merge_info single_country csv.

(** [csv] is the content of the metadata file [csv_country].  The world
    records the boundary columns of a written layer. *)
Definition process_country_shapes (csv : list country_row)
    (country_iso3 : string) : io unit :=
  let path := country_folder country_iso3 in
  done <~ path_exists (path ++ ["national_outline.shp"])%list ;;
  _ <~ (if (done : bool)
        then print "Completed national outline processing"
        else io_ret tt) ;;
  _ <~ print ("Processing country shapes for " ++ country_iso3) ;;
  have_path <~ path_exists path ;;
  _ <~ (if (have_path : bool) then io_ret tt else makedirs path) ;;
  countries <~ read_file path_countries ;;
  single_country <~ io_lift (country_layer country_iso3 countries) ;;
  let single_country := merge_info single_country csv in
  _ <~ to_file (shape_path country_iso3) (map fst single_country) ;;
  print ("National outline shapefile processing completed for "
         ++ country_iso3).

End Country.

(** A world with the national layer, and the metadata file of the sample
    countries. *)
Definition world_with_countries : world :=
  mkWorld []
    (fun p =>
       if path_eqb p ["data"; "raw"; "boundaries"; "gadm36_0.shp"]
       then Some [mainland_and_islet; two_islets]
       else if path_eqb p ["data"; "raw"; "boundaries"; "gadm36_1.shp"]
       then Some [single_polygon]
       else None)
    (fun _ => true) [].

Definition world_read_only : world :=
  mkWorld [] (raw_layers world_with_countries) (fun _ => false) [].

(** The world once the outline has been announced and the country folder
    made sure of. *)
Definition outline_started (country_iso3 : string) (w : world) : world :=
  let w0 :=
    if existsb (path_eqb (shape_path country_iso3)) (fs w)
    then emit (Printed "Completed national outline processing") w
    else w in
  let w1 :=
    emit (Printed ("Processing country shapes for " ++ country_iso3)) w0 in
  if existsb (path_eqb (country_folder country_iso3)) (fs w) then w1
  else fold_left make_missing (prefixes_from [] (country_folder country_iso3))
         w1.

(** How many rows of the metadata file belong to a country. *)
Definition metadata_rows (iso : string) (csv : list country_row) : nat :=
  List.length (filter (fun c => iso =? country_iso3 c) csv).

Definition world_with_outline : world :=
  mkWorld [["results"; "processed"; "KEN"];
           ["results"; "processed"; "KEN"; "national_outline.shp"]]
    (raw_layers world_with_countries) (fun _ => true) [].

(** ** ProcessRegions.process_sub_region_boundaries

    The function reads a processed regions layer with its attribute
    columns and writes one shapefile per row.  Its disk holds the
    shapefiles, keyed by their joined path, and the folders.  Two
    idealisations: a write to this disk succeeds, whereas [to_file] can
    raise, and nothing catches it; and two files are the same when their
    joined paths are the same string, which is how the file system sees
    them as long as the ids are plain file names ([plain_name]): an id
    with a path separator can name a file of another folder.  What is
    stated about the files on the disk is therefore stated for calls that
    return and for layers whose ids are plain names. *)

Record disk : Type := mkDisk {
  shapefiles : dict (list boundary_row);
  folders : list path
}.

(** [os.path.exists] *)
Definition disk_exists (p : path) (d : disk) : bool :=
  has_key (shapefiles d) (join p) || existsb (path_eqb p) (folders d).

(** [gpd.read_file] *)
Definition disk_read (p : path) (d : disk) : result (list boundary_row) :=
  match dict_get (shapefiles d) (join p) with
  | Some rows => Ok rows
  | None => Raise (DriverError (join p))
  end.

(** [os.makedirs] *)
Definition disk_makedirs (p : path) (d : disk) : disk :=
  mkDisk (shapefiles d)
    (fold_left (fun made q =>
                  if existsb (path_eqb q) made then made
                  else (made ++ [q])%list)
       (prefixes_from [] p) (folders d)).

(** [layer.to_file(p, driver = 'ESRI Shapefile')]: replaces the file. *)
Definition disk_write (p : path) (rows : list boundary_row) (d : disk)
    : disk :=
  mkDisk (dict_set (shapefiles d) (join p) rows) (folders d).

Definition boundaries_folder (country_iso3 : string) : path :=
  ["results"; "processed"; country_iso3; "boundaries"].

(** The file written for the region with id [id]. *)
Definition sub_region_path (country_iso3 id : string) : path :=
  (boundaries_folder country_iso3 ++ [(id ++ ".shp")%string])%list.

(** The body of the loop over the rows of the layer. *)
Definition write_sub_region (country_iso3 gid : string) (d : disk)
    (row : boundary_row) : result unit * disk :=
  let sub_region_shapefile := [row] in
  match getitem (attrs row) gid with
  | Raise e => (Raise e, d)
  | Ok id =>
      let folder_out := boundaries_folder country_iso3 in
      let d :=
        if disk_exists folder_out d then d else disk_makedirs folder_out d in
      (Ok tt,
       disk_write (sub_region_path country_iso3 id) sub_region_shapefile d)
  end.

Fixpoint for_rows (country_iso3 gid : string) (rows : list boundary_row)
    (d : disk) : result unit * disk :=
  match rows with
  | [] => (Ok tt, d)
  | row :: rest =>
      match write_sub_region country_iso3 gid d row with
      | (Ok _, d') => for_rows country_iso3 gid rest d'
      | (Raise e, d') => (Raise e, d')
      end
  end.

Definition process_sub_region_boundaries (country_iso3 : string) (d : disk)
    : result unit * disk :=
  let region_path := path_processed country_iso3 2 in
  let region_path_2 := path_processed country_iso3 1 in
  let '(countries, gid) :=
    if disk_exists region_path d
    then (disk_read region_path d, "GID_2")
    else (disk_read region_path_2 d, "GID_1") in
  match countries with
  | Raise e => (Raise e, d)
  | Ok countries => for_rows country_iso3 gid countries d
  end.

(** An id that is a plain file name: it holds no path separator. *)
Fixpoint plain_name (id : string) : bool :=
  match id with
  | EmptyString => true
  | String c rest => negb (Ascii.eqb c "/"%char) && plain_name rest
  end.

(** Every id of the layer, in column [gid], is a plain file name. *)
Definition plain_ids (gid : string) (layer : list boundary_row) : Prop :=
  forall row id,
    In row layer -> dict_get (attrs row) gid = Some id ->
    plain_name id = true.

(** The layer that the function reads, for the id column [gid]: the
    level-2 layer when it is on the disk, the level-1 layer otherwise. *)
Definition reads_layer (country_iso3 gid : string) (d : disk)
    (layer : list boundary_row) : Prop :=
  (gid = "GID_2"
   /\ dict_get (shapefiles d) (join (path_processed country_iso3 2))
      = Some layer)
  \/ (gid = "GID_1"
      /\ disk_exists (path_processed country_iso3 2) d = false
      /\ dict_get (shapefiles d) (join (path_processed country_iso3 1))
         = Some layer).

(** A disk with both regions layers of a country; two level-2 rows share
    their id. *)
Definition sample_level_2 : list boundary_row :=
  [mkBoundary [("GID_0", "KEN"); ("GID_1", "KEN.1_1"); ("GID_2", "KEN.1.1_1")]
              (Polygon (rectangle 0 0 1 1));
   mkBoundary [("GID_0", "KEN"); ("GID_1", "KEN.1_1"); ("GID_2", "KEN.1.2_1")]
              (Polygon (rectangle 1 0 1 1));
   mkBoundary [("GID_0", "KEN"); ("GID_1", "KEN.1_1"); ("GID_2", "KEN.1.1_1")]
              (Polygon (rectangle 2 0 1 1))].

Definition sample_level_1 : list boundary_row :=
  [mkBoundary [("GID_0", "KEN"); ("GID_1", "KEN.1_1")]
              (Polygon (rectangle 0 0 3 1))].

Definition sample_disk : disk :=
  mkDisk [("results/processed/KEN/regions/regions_1_KEN.shp", sample_level_1);
          ("results/processed/KEN/regions/regions_2_KEN.shp", sample_level_2)]
         [["results"]; ["results"; "processed"];
          ["results"; "processed"; "KEN"];
          ["results"; "processed"; "KEN"; "regions"]].

Definition sample_disk_level_1 : disk :=
  mkDisk [("results/processed/KEN/regions/regions_1_KEN.shp", sample_level_1)]
         (folders sample_disk).

(** A level-1 layer whose second row has no id. *)
Definition sample_disk_without_id : disk :=
  mkDisk [("results/processed/KEN/regions/regions_1_KEN.shp",
           (sample_level_1
            ++ [mkBoundary [("GID_0", "KEN")] (Polygon (rectangle 0 1 1 1));
                mkBoundary [("GID_0", "KEN"); ("GID_1", "KEN.3_1")]
                  (Polygon (rectangle 0 2 1 1))])%list)]
         (folders sample_disk).

(** * Properties *)

(** ** Dictionaries and loops over their items *)

Lemma getitem_val (d : dict Q) (k : string) :
  has_key d k = true -> getitem d k = Ok (val d k).
Proof.
  unfold has_key, getitem, val.
  destruct (dict_get d k); [reflexivity | discriminate].
Qed.

Lemma weighted_val (item cf : dict Q) (wk ck : string) :
  has_key item wk = true -> has_key cf ck = true ->
  weighted item cf wk ck = Ok (val item wk * val cf ck).
Proof.
  intros Hw Hc. unfold weighted.
  rewrite (getitem_val _ _ Hw), (getitem_val _ _ Hc). reflexivity.
Qed.

Lemma for_items_skip {V S : Type} (items : dict V)
    (body : string -> V -> S -> result S) (s : S) :
  (forall k v s', In (k, v) items -> body k v s' = Ok s') ->
  for_items items body s = Ok s.
Proof.
  induction items as [| [k v] rest IH]; simpl; intros Hskip; [reflexivity |].
  rewrite Hskip by (left; reflexivity). simpl.
  apply IH. intros k' v' s' Hin. apply Hskip. right; exact Hin.
Qed.

(** A loop whose body only acts on the key [k] runs the body once, on the
    entry stored under [k]. *)
Lemma for_items_single {V S : Type} (items : dict V)
    (body : string -> V -> S -> result S) (k : string) (v : V) (s : S) :
  NoDup (keys items) ->
  dict_get items k = Some v ->
  (forall k' v' s', k' <> k -> body k' v' s' = Ok s') ->
  for_items items body s = body k v s.
Proof.
  intros Hnd Hget Hother. revert s Hnd Hget.
  induction items as [| [k0 v0] rest IH]; simpl; intros s Hnd Hget;
    [discriminate |].
  inversion Hnd as [| ? ? Hnotin Hnd']; subst.
  destruct (String.eqb_spec k0 k) as [-> | Hne].
  - injection Hget as ->.
    destruct (body k v s) as [s1 | e]; simpl; [| reflexivity].
    apply for_items_skip. intros k' v' s' Hin. apply Hother.
    intros ->. apply Hnotin. unfold keys.
    change k with (fst (k, v')). apply in_map. exact Hin.
  - rewrite (Hother k0 v0 s Hne). simpl. apply IH; assumption.
Qed.

Ltac split_keys H :=
  unfold has_keys in H; simpl in H;
  repeat (apply andb_prop in H; let H1 := fresh "Hk" in destruct H as [H1 H]).

(** ** The LCA calculators *)

Lemma lca_manufacturing_totals (carbon_factors weights : table)
    (cf item : dict Q) :
  NoDup (keys carbon_factors) -> NoDup (keys weights) ->
  dict_get carbon_factors "mfg_emissions" = Some cf ->
  dict_get weights "manufacturing" = Some item ->
  has_keys item weight_keys = true ->
  has_keys cf mfg_factor_keys = true ->
  lca_manufacturing carbon_factors weights = Ok (mfg_totals item cf).
Proof.
  intros Hnc Hnw Hcf Hit Hwk Hfk. unfold lca_manufacturing.
  rewrite (for_items_single (S := dict pyval) carbon_factors _ "mfg_emissions" cf [] Hnc Hcf).
  2:{ intros k' v' s' Hne. apply String.eqb_neq in Hne. rewrite Hne.
      reflexivity. }
  rewrite String.eqb_refl.
  rewrite (for_items_single (S := dict pyval) weights _ "manufacturing" item [] Hnw Hit).
  2:{ intros k' v' s' Hne. apply String.eqb_neq in Hne. rewrite Hne.
      reflexivity. }
  rewrite String.eqb_refl.
  split_keys Hwk. split_keys Hfk.
  rewrite !weighted_val by assumption. reflexivity.
Qed.

Lemma lca_eolt_totals (carbon_factors weights : table) (cf item : dict Q) :
  NoDup (keys carbon_factors) -> NoDup (keys weights) ->
  dict_get carbon_factors "eolt_emissions" = Some cf ->
  dict_get weights "manufacturing" = Some item ->
  has_keys item weight_keys = true ->
  has_keys cf eolt_factor_keys = true ->
  lca_eolt carbon_factors weights = Ok (eolt_totals item cf).
Proof.
  intros Hnc Hnw Hcf Hit Hwk Hfk. unfold lca_eolt.
  rewrite (for_items_single (S := dict pyval) carbon_factors _ "eolt_emissions" cf [] Hnc Hcf).
  2:{ intros k' v' s' Hne. apply String.eqb_neq in Hne. rewrite Hne.
      reflexivity. }
  rewrite String.eqb_refl.
  rewrite (for_items_single (S := dict pyval) weights _ "manufacturing" item [] Hnw Hit).
  2:{ intros k' v' s' Hne. apply String.eqb_neq in Hne. rewrite Hne.
      reflexivity. }
  rewrite String.eqb_refl.
  split_keys Hwk. split_keys Hfk.
  rewrite !weighted_val by assumption. reflexivity.
Qed.

Lemma lca_trans_totals (carbon_factors : table) (cf : dict Q) :
  NoDup (keys carbon_factors) ->
  dict_get carbon_factors "trans_emissions" = Some cf ->
  has_key cf "olnu_router_kg_co2e" = true ->
  lca_trans carbon_factors = Ok (trans_totals cf).
Proof.
  intros Hnc Hcf Hk. unfold lca_trans.
  rewrite (for_items_single (S := dict pyval) carbon_factors _ "trans_emissions" cf [] Hnc Hcf).
  2:{ intros k' v' s' Hne. apply String.eqb_neq in Hne. rewrite Hne.
      reflexivity. }
  rewrite String.eqb_refl, (getitem_val _ _ Hk). reflexivity.
Qed.

(** [lca_operations] overwrites the same four keys for every entry of
    [operations], so the last entry decides the returned dictionary. *)
Lemma lca_operations_totals (operations earlier : table) (k : string)
    (last_op : dict Q) :
  operations = (earlier ++ [(k, last_op)])%list ->
  forallb (fun o => has_keys (snd o) operation_keys) operations = true ->
  lca_operations operations = Ok (ops_totals last_op).
Proof.
  intros -> Hall. unfold lca_operations.
  match goal with |- for_items _ ?b _ = _ => set (body := b) end.
  assert (Hstep : forall k' o s,
             has_keys o operation_keys = true ->
             (s = [] \/ exists o', s = ops_totals o') ->
             body k' o s = Ok (ops_totals o)).
  { intros k' o s Hk Hs. subst body. cbv beta. split_keys Hk.
    rewrite !getitem_val by assumption.
    destruct Hs as [-> | [o' ->]]; reflexivity. }
  assert (Hloop : forall ops s,
             (s = [] \/ exists o', s = ops_totals o') ->
             forallb (fun o => has_keys (snd o) operation_keys)
               (ops ++ [(k, last_op)])%list = true ->
             for_items (ops ++ [(k, last_op)])%list body s
             = Ok (ops_totals last_op)).
  { induction ops as [| [k0 o0] rest IH]; intros s Hs Hk.
    - simpl in Hk. apply andb_prop in Hk as [Hk _].
      simpl. rewrite (Hstep k last_op s Hk Hs). reflexivity.
    - change (((k0, o0) :: rest) ++ [(k, last_op)])%list
        with ((k0, o0) :: (rest ++ [(k, last_op)]))%list in *.
      simpl in Hk. apply andb_prop in Hk as [Hk0 Hk].
      simpl. rewrite (Hstep k0 o0 s Hk0 Hs). simpl.
      apply IH; [right; exists o0; reflexivity | exact Hk]. }
  apply Hloop; [left; reflexivity | exact Hall].
Qed.

Lemma sample_weight_value (w : Q) :
  table_value sample_weights w -> w = 2.
Proof.
  intros (k & d & name & Hin & Hv).
  destruct Hin as [Heq | []]. injection Heq as _ <-.
  simpl in Hv. repeat (destruct Hv as [Hv | Hv]; [congruence |]). contradiction.
Qed.

Lemma sample_factor_value (c : Q) :
  table_value sample_carbon_factors c -> c = 3.
Proof.
  intros (k & d & name & Hin & Hv).
  destruct Hin as [Heq | [Heq | [Heq | []]]]; injection Heq as _ <-;
    simpl in Hv; repeat (destruct Hv as [Hv | Hv]; [congruence |]);
    contradiction.
Qed.

Lemma sample_sum_products (terms : list (Q * Q)) :
  Forall (fun t => table_value sample_weights (fst t)
                   /\ table_value sample_carbon_factors (snd t)) terms ->
  sum_products terms == inject_Z (6 * Z.of_nat (List.length terms)).
Proof.
  induction 1 as [| [w c] rest [Hw Hc] _ IH].
  - reflexivity.
  - apply sample_weight_value in Hw. apply sample_factor_value in Hc.
    simpl in Hw, Hc. subst w c.
    unfold sum_products in *. cbn [map sumQ fold_right fst snd List.length].
    unfold sumQ in IH. rewrite IH.
    rewrite Nat2Z.inj_succ.
    replace (6 * Z.succ (Z.of_nat (List.length rest)))%Z
      with (6 + 6 * Z.of_nat (List.length rest))%Z by lia.
    rewrite inject_Z_plus. reflexivity.
Qed.

(** C1, as stated, fails for [lca_trans]: on tables whose weights are all 2
    and whose carbon factors are all 3, the transport total for optic fibre
    is the factor 3 itself, which no sum of products weight x factor (a
    multiple of 6) equals. *)
Lemma lca_trans_total_not_weighted_sum :
  exists d v,
    lca_trans sample_carbon_factors = Ok d
    /\ dict_get d "optic_fiber_ghg" = Some (VNum v)
    /\ ~ spec_weighted_sum sample_weights sample_carbon_factors v.
Proof.
  exists [("optic_fiber_ghg", VNum 3); ("lca_phase", VStr "trans")], 3.
  split; [reflexivity |]. split; [reflexivity |].
  intros (terms & Hterms & Hsum).
  rewrite (sample_sum_products terms Hterms) in Hsum.
  unfold Qeq, inject_Z in Hsum. cbn [Qnum Qden] in Hsum. lia.
Qed.

(** C1 (amended): on complete tables, every category total of
    [lca_manufacturing] and of [lca_eolt] is the sum of the products
    weight x carbon factor of its components (end-of-life uses the metals
    factor for every metal and the PCB factor for both plastics), so that
    the manufacturing aluminium total is the four aluminium weights times
    the aluminium factor; [lca_trans] returns the router transport factor
    itself as the optic-fibre total, and [lca_operations] copies the three
    power values of the last entry of [operations], neither multiplied by a
    weight. *)
Theorem lca_category_totals
    (carbon_factors weights operations earlier : table)
    (mfg eolt trans item last_op : dict Q) (k : string) :
  NoDup (keys carbon_factors) -> NoDup (keys weights) ->
  dict_get carbon_factors "mfg_emissions" = Some mfg ->
  dict_get carbon_factors "eolt_emissions" = Some eolt ->
  dict_get carbon_factors "trans_emissions" = Some trans ->
  dict_get weights "manufacturing" = Some item ->
  has_keys item weight_keys = true ->
  has_keys mfg mfg_factor_keys = true ->
  has_keys eolt eolt_factor_keys = true ->
  has_key trans "olnu_router_kg_co2e" = true ->
  operations = (earlier ++ [(k, last_op)])%list ->
  forallb (fun o => has_keys (snd o) operation_keys) operations = true ->
  lca_manufacturing carbon_factors weights = Ok (mfg_totals item mfg)
  /\ lca_eolt carbon_factors weights = Ok (eolt_totals item eolt)
  /\ lca_trans carbon_factors = Ok (trans_totals trans)
  /\ lca_operations operations = Ok (ops_totals last_op)
  /\ (exists q, dict_get (mfg_totals item mfg) "aluminium_ghg" = Some (VNum q)
        /\ q == (val item "aluminium_bru_kg" + val item "aluminium_antenna_kg"
                 + val item "aluminium_frame_kg"
                 + val item "aluminium_device_kg")
                * val mfg "aluminium_kg_co2e").
Proof.
  intros Hnc Hnw Hm He Ht Hi Hwk Hmk Hek Htk Hops Hok.
  split; [apply lca_manufacturing_totals; assumption |].
  split; [apply lca_eolt_totals; assumption |].
  split; [apply lca_trans_totals; assumption |].
  split; [apply (lca_operations_totals operations earlier k); assumption |].
  eexists. split; [reflexivity | ring].
Qed.

Lemma lca_category_totals_witness :
  lca_manufacturing sample_carbon_factors sample_weights
  = Ok (mfg_totals (map (fun k => (k, 2)) weight_keys)
          (map (fun k => (k, 3)) mfg_factor_keys))
  /\ lca_trans sample_carbon_factors = Ok [("optic_fiber_ghg", VNum 3);
                                           ("lca_phase", VStr "trans")].
Proof.
  destruct (lca_category_totals sample_carbon_factors sample_weights
              sample_operations []
              (map (fun k => (k, 3)) mfg_factor_keys)
              (map (fun k => (k, 3)) eolt_factor_keys)
              [("olnu_router_kg_co2e", 3)]
              (map (fun k => (k, 2)) weight_keys)
              [("cpe_power_kwh", 5); ("base_station_pwr_kwh", 7);
               ("terminal_unit_pwr_kwh", 11)] "fiber")
    as (Hm & _ & Ht & _).
  - repeat constructor; simpl; intuition discriminate.
  - repeat constructor; simpl; intuition discriminate.
  - reflexivity.
  - reflexivity.
  - reflexivity.
  - reflexivity.
  - reflexivity.
  - reflexivity.
  - reflexivity.
  - reflexivity.
  - reflexivity.
  - reflexivity.
  - split; [exact Hm | exact Ht].
Defined.

(** ** remove_small_shapes *)

Lemma Qltb_lt (x y : Q) : Qltb x y = true <-> x < y.
Proof.
  unfold Qltb. rewrite negb_true_iff.
  split; intros H.
  - apply Qnot_le_lt. intros Hle. apply Qle_bool_iff in Hle. congruence.
  - destruct (Qle_bool y x) eqn:E; [| reflexivity].
    apply Qle_bool_iff in E. exfalso. exact (Qlt_not_le _ _ H E).
Qed.

Lemma Qltb_ge (x y : Q) : Qltb x y = false <-> y <= x.
Proof.
  unfold Qltb. rewrite negb_false_iff. apply Qle_bool_iff.
Qed.

Lemma geom_type_Polygon (g : geom) :
  geom_type g = "Polygon" -> exists p, g = Polygon p.
Proof. destruct g; simpl; try discriminate. eauto. Qed.

Lemma geom_type_MultiPolygon (g : geom) :
  geom_type g = "MultiPolygon" -> exists ps, g = MultiPolygon ps.
Proof. destruct g; simpl; try discriminate. eauto. Qed.

(** What the function does on a multi-polygon that is not below the minimum
    total area. *)
Lemma remove_small_shapes_prunes (x : feature) (ps : list polygon) :
  geometry x = MultiPolygon ps ->
  0.01 <= area (geometry x) ->
  remove_small_shapes x
  = Some (MultiPolygon
            (filter (fun y => Qltb (shape_threshold x) (polygon_area y)) ps)).
Proof.
  intros Hg Ha. unfold remove_small_shapes.
  apply Qltb_ge in Ha. rewrite Ha. rewrite Hg. reflexivity.
Qed.

(** C2: a Polygon, and a MultiPolygon of total area below 0.01, is returned
    unchanged. *)
Theorem remove_small_shapes_unchanged (x : feature) :
  geom_type (geometry x) = "Polygon"
  \/ (geom_type (geometry x) = "MultiPolygon" /\ area (geometry x) < 0.01) ->
  remove_small_shapes x = Some (geometry x).
Proof.
  intros [Hp | [Hm Ha]]; unfold remove_small_shapes.
  - rewrite Hp. reflexivity.
  - rewrite Hm. apply Qltb_lt in Ha. rewrite Ha. reflexivity.
Qed.

Lemma remove_small_shapes_unchanged_witness :
  remove_small_shapes single_polygon = Some (geometry single_polygon)
  /\ remove_small_shapes tiny_multipolygon = Some (geometry tiny_multipolygon).
Proof.
  split.
  - apply (remove_small_shapes_unchanged single_polygon).
    left. reflexivity.
  - apply (remove_small_shapes_unchanged tiny_multipolygon).
    right. split; [reflexivity | vm_compute; reflexivity].
Defined.

(** C3: a MultiPolygon of total area at least 0.01 is returned as the
    MultiPolygon of exactly its parts whose area exceeds the threshold: 0.01
    for the six listed countries, whatever the area; otherwise 0.1 when the
    total area exceeds 50, and 0.001 when it does not. *)
Theorem remove_small_shapes_threshold (x : feature) (ps : list polygon) :
  geometry x = MultiPolygon ps ->
  0.01 <= area (geometry x) ->
  exists threshold : Q,
    (In (GID_0 x) ["CHL"; "IDN"; "RUS"; "GRL"; "CAN"; "USA"] ->
     threshold = 0.01)
    /\ (~ In (GID_0 x) ["CHL"; "IDN"; "RUS"; "GRL"; "CAN"; "USA"] ->
        50 < area (geometry x) -> threshold = 0.1)
    /\ (~ In (GID_0 x) ["CHL"; "IDN"; "RUS"; "GRL"; "CAN"; "USA"] ->
        area (geometry x) <= 50 -> threshold = 0.001)
    /\ remove_small_shapes x
       = Some (MultiPolygon
                 (filter (fun y => Qltb threshold (polygon_area y)) ps))
    /\ (forall y,
          In y (filter (fun y => Qltb threshold (polygon_area y)) ps)
          <-> In y ps /\ threshold < polygon_area y).
Proof.
  intros Hg Ha. exists (shape_threshold x).
  split; [| split; [| split; [| split]]].
  - intros Hin. unfold shape_threshold. simpl in Hin.
    destruct Hin as [H | [H | [H | [H | [H | [H | []]]]]]];
      rewrite <- H; reflexivity.
  - intros Hnot Hbig. unfold shape_threshold.
    destruct (str_in (GID_0 x) ["CHL"; "IDN"]) eqn:E1.
    { exfalso. apply Hnot. unfold str_in in E1.
      apply existsb_exists in E1 as (c & Hc & Heq).
      apply String.eqb_eq in Heq. subst c. simpl in Hc |- *. tauto. }
    destruct (str_in (GID_0 x) ["RUS"; "GRL"; "CAN"; "USA"]) eqn:E2.
    { exfalso. apply Hnot. unfold str_in in E2.
      apply existsb_exists in E2 as (c & Hc & Heq).
      apply String.eqb_eq in Heq. subst c. simpl in Hc |- *. tauto. }
    apply Qltb_lt in Hbig. cbv zeta. rewrite Hbig. reflexivity.
  - intros Hnot Hsmall. unfold shape_threshold.
    destruct (str_in (GID_0 x) ["CHL"; "IDN"]) eqn:E1.
    { exfalso. apply Hnot. unfold str_in in E1.
      apply existsb_exists in E1 as (c & Hc & Heq).
      apply String.eqb_eq in Heq. subst c. simpl in Hc |- *. tauto. }
    destruct (str_in (GID_0 x) ["RUS"; "GRL"; "CAN"; "USA"]) eqn:E2.
    { exfalso. apply Hnot. unfold str_in in E2.
      apply existsb_exists in E2 as (c & Hc & Heq).
      apply String.eqb_eq in Heq. subst c. simpl in Hc |- *. tauto. }
    apply Qltb_ge in Hsmall. cbv zeta. rewrite Hsmall. reflexivity.
  - apply remove_small_shapes_prunes; assumption.
  - intros y. rewrite filter_In, Qltb_lt. reflexivity.
Qed.

Lemma remove_small_shapes_threshold_witness :
  exists threshold : Q,
    threshold = 0.001
    /\ remove_small_shapes mainland_and_islet
       = Some (MultiPolygon
                 (filter (fun y => Qltb threshold (polygon_area y))
                    [square 0 0 2; square 3 3 0.02])).
Proof.
  destruct (remove_small_shapes_threshold mainland_and_islet
              [square 0 0 2; square 3 3 0.02])
    as (t & _ & _ & Hsmall & Hres & _).
  - reflexivity.
  - vm_compute. discriminate.
  - exists t. split; [| exact Hres].
    apply Hsmall.
    + simpl. intuition discriminate.
    + vm_compute. discriminate.
Defined.

(** C4, as stated, fails: a county of a large country made of two islets of
    area 0.0064 each has total area 0.0128, so it is pruned with threshold
    0.01 and every part is discarded. *)
Lemma two_islets_pruned_empty :
  geom_type (geometry two_islets) = "MultiPolygon"
  /\ exists g, remove_small_shapes two_islets = Some g /\ num_parts g = 0%nat.
Proof.
  split; [reflexivity |].
  exists (MultiPolygon []). split; reflexivity.
Qed.

(** C4 (amended): a Polygon is returned as it is, one part; a MultiPolygon
    of total area below 0.01 keeps all its parts; a MultiPolygon of total
    area at least 0.01 is returned non-empty exactly when one of its parts
    has an area above the selected threshold. *)
Theorem remove_small_shapes_nonempty (x : feature) :
  geom_type (geometry x) = "Polygon"
  \/ geom_type (geometry x) = "MultiPolygon" ->
  exists g,
    remove_small_shapes x = Some g
    /\ (geom_type (geometry x) = "Polygon" -> num_parts g = 1%nat)
    /\ (geom_type (geometry x) = "MultiPolygon" ->
        area (geometry x) < 0.01 ->
        num_parts g = num_parts (geometry x))
    /\ (geom_type (geometry x) = "MultiPolygon" ->
        0.01 <= area (geometry x) ->
        ((1 <= num_parts g)%nat
         <-> exists y, In y (geoms (geometry x))
                       /\ shape_threshold x < polygon_area y)).
Proof.
  intros [Hp | Hm].
  - exists (geometry x).
    split; [unfold remove_small_shapes; rewrite Hp; reflexivity |].
    destruct (geom_type_Polygon _ Hp) as [p Hg].
    split; [intros _; rewrite Hg; reflexivity |].
    split; intros Hm; rewrite Hp in Hm; discriminate.
  - destruct (geom_type_MultiPolygon _ Hm) as [ps Hg].
    destruct (Qlt_le_dec (area (geometry x)) 0.01) as [Hlt | Hge].
    + exists (geometry x).
      split.
      { unfold remove_small_shapes. rewrite Hm.
        rewrite (proj2 (Qltb_lt _ _) Hlt). reflexivity. }
      split; [intros Hp; rewrite Hm in Hp; discriminate |].
      split; [reflexivity |].
      intros _ Hge. exfalso. exact (Qlt_not_le _ _ Hlt Hge).
    + eexists.
      split; [apply (remove_small_shapes_prunes x ps Hg Hge) |].
      split; [intros Hp; rewrite Hm in Hp; discriminate |].
      split; [intros _ Hlt; exfalso; exact (Qlt_not_le _ _ Hlt Hge) |].
      intros _ _. rewrite Hg. unfold num_parts. cbn [geoms].
      split.
      * intros Hlen.
        destruct (filter (fun y => Qltb (shape_threshold x) (polygon_area y)) ps)
          as [| y rest] eqn:E; [simpl in Hlen; lia |].
        exists y.
        assert (Hin : In y (filter (fun y => Qltb (shape_threshold x)
                                               (polygon_area y)) ps))
          by (rewrite E; left; reflexivity).
        apply filter_In in Hin as [Hin Hy]. apply Qltb_lt in Hy.
        split; assumption.
      * intros (y & Hin & Hy).
        assert (Hf : In y (filter (fun y => Qltb (shape_threshold x)
                                              (polygon_area y)) ps)).
        { apply filter_In. split; [exact Hin |]. apply Qltb_lt. exact Hy. }
        destruct (filter (fun y => Qltb (shape_threshold x) (polygon_area y)) ps);
          [destruct Hf | simpl; lia].
Qed.

Lemma remove_small_shapes_nonempty_witness :
  exists g,
    remove_small_shapes mainland_and_islet = Some g /\ (1 <= num_parts g)%nat.
Proof.
  destruct (remove_small_shapes_nonempty mainland_and_islet)
    as (g & Hres & _ & _ & Hiff).
  - right. reflexivity.
  - exists g. split; [exact Hres |].
    apply Hiff.
    + reflexivity.
    + vm_compute. discriminate.
    + exists (square 0 0 2). split; [left; reflexivity | vm_compute; reflexivity].
Defined.

(** C9: a feature whose geometry is neither a Polygon nor a MultiPolygon
    gets no geometry ([None]); applied over a layer, the function leaves a
    null geometry in that row, without raising and without passing the
    geometry through. *)
Theorem remove_small_shapes_other_types (x : feature) :
  geom_type (geometry x) <> "Polygon" ->
  geom_type (geometry x) <> "MultiPolygon" ->
  remove_small_shapes x = None
  /\ forall layer, In x layer ->
       In (mkPruned (GID_0 x) None) (apply_remove_small_shapes layer).
Proof.
  intros Hp Hm.
  assert (Hnone : remove_small_shapes x = None).
  { unfold remove_small_shapes.
    apply String.eqb_neq in Hp. apply String.eqb_neq in Hm.
    rewrite Hp, Hm. reflexivity. }
  split; [exact Hnone |].
  intros layer Hin. unfold apply_remove_small_shapes.
  rewrite <- Hnone.
  apply (in_map (fun x => mkPruned (GID_0 x) (remove_small_shapes x))).
  exact Hin.
Qed.

Lemma remove_small_shapes_other_types_witness :
  remove_small_shapes a_point = None
  /\ apply_remove_small_shapes [single_polygon; a_point]
     = [mkPruned "KEN" (Some (geometry single_polygon)); mkPruned "KEN" None].
Proof.
  split.
  - apply (remove_small_shapes_other_types a_point); discriminate.
  - reflexivity.
Defined.

(** ** get_countries *)

Lemma remove_nth_perm {A : Type} (l : list A) (i : nat) (d : A) :
  (i < List.length l)%nat -> Permutation (nth i l d :: remove_nth i l) l.
Proof.
  revert i. induction l as [| h t IH]; intros i Hi; simpl in Hi; [lia |].
  destruct i as [| i']; simpl.
  - apply Permutation_refl.
  - eapply perm_trans; [apply perm_swap |].
    apply perm_skip. apply IH. lia.
Qed.

Lemma remove_nth_length {A : Type} (l : list A) (i : nat) :
  (i < List.length l)%nat ->
  List.length (remove_nth i l) = (List.length l - 1)%nat.
Proof.
  revert i. induction l as [| h t IH]; intros i Hi; simpl in Hi; [lia |].
  destruct i as [| i']; simpl; [lia |].
  rewrite IH by lia. lia.
Qed.

Lemma sample_rows_perm {A : Type} (n : nat) (random_state : nat -> nat)
    (l : list A) :
  n = List.length l -> Permutation (sample_rows n random_state l) l.
Proof.
  revert l. induction n as [| n' IH]; intros l Hn.
  - destruct l; [apply Permutation_refl | discriminate].
  - destruct l as [| x t]; [discriminate |].
    cbn [sample_rows].
    set (i := (random_state n' mod List.length (x :: t))%nat).
    assert (Hi : (i < List.length (x :: t))%nat).
    { subst i. apply Nat.mod_upper_bound. simpl. lia. }
    eapply perm_trans; [| apply (remove_nth_perm (x :: t) i x Hi)].
    apply perm_skip. apply IH.
    rewrite (remove_nth_length _ _ Hi). simpl in Hn |- *. lia.
Qed.

(** C10: [get_countries] returns exactly the rows whose [Exclude] flag is 0,
    each as often as the file has it, in an order that the random state
    decides: two random states can give two different orders. *)
Theorem get_countries_filters_and_shuffles :
  (forall random_state csv,
      Permutation (get_countries random_state csv)
                  (filter (fun c => (Exclude c =? 0)%Z) csv))
  /\ (forall random_state csv row,
         In row (get_countries random_state csv)
         <-> In row csv /\ Exclude row = 0%Z)
  /\ (exists csv rs1 rs2, get_countries rs1 csv <> get_countries rs2 csv).
Proof.
  assert (Hperm : forall random_state csv,
             Permutation (get_countries random_state csv)
                         (filter (fun c => (Exclude c =? 0)%Z) csv)).
  { intros rs csv. unfold get_countries, sample_frac1.
    apply sample_rows_perm. reflexivity. }
  split; [exact Hperm |]. split.
  - intros rs csv row. split.
    + intros Hin. apply (Permutation_in _ (Hperm rs csv)) in Hin.
      apply filter_In in Hin as [Hin He]. apply Z.eqb_eq in He. tauto.
    + intros [Hin He].
      apply (Permutation_in _ (Permutation_sym (Hperm rs csv))).
      apply filter_In. split; [exact Hin |]. apply Z.eqb_eq. exact He.
  - exists sample_countries, (fun _ => 0%nat), (fun _ => 1%nat).
    vm_compute. discriminate.
Qed.

(** ** process_population_tif *)

Lemma truncate_nonneg (q : Q) : 0 <= q -> truncate q = Qfloor q.
Proof.
  intros Hq. unfold truncate.
  rewrite (proj2 (Qle_bool_iff 0 q) Hq). reflexivity.
Qed.


(** In the range of 64-bit integers the cast of a sum rounds it down. *)
Lemma to_int64_below (q : Q) :
  0 <= q -> q < inject_Z 9223372036854775808 ->
  to_int64 q = Qfloor q /\ (0 <= Qfloor q)%Z.
Proof.
  intros Hq Hlt.
  assert (H0 : (0 <= Qfloor q)%Z).
  { change 0%Z with (Qfloor 0). apply Qfloor_resp_le. exact Hq. }
  assert (Hmax : (Qfloor q < 9223372036854775808)%Z).
  { rewrite Zlt_Qlt. eapply Qle_lt_trans; [apply Qfloor_le | exact Hlt]. }
  split; [| exact H0].
  unfold to_int64. cbv zeta. rewrite (truncate_nonneg q Hq).
  assert (E1 : (int64_min <=? Qfloor q)%Z = true)
    by (apply Z.leb_le; unfold int64_min; lia).
  assert (E2 : (Qfloor q <=? int64_max)%Z = true)
    by (apply Z.leb_le; unfold int64_max; lia).
  rewrite E1, E2. reflexivity.
Qed.

(** Above it the cast gives the least 64-bit integer. *)
Lemma to_int64_above (q : Q) :
  inject_Z 9223372036854775808 <= q -> to_int64 q = int64_min.
Proof.
  intros Hge.
  assert (Hq : 0 <= q).
  { eapply Qle_trans; [| exact Hge]. unfold Qle. simpl. lia. }
  assert (Hfl : (9223372036854775808 <= Qfloor q)%Z).
  { rewrite <- (Qfloor_Z 9223372036854775808). apply Qfloor_resp_le.
    exact Hge. }
  unfold to_int64. cbv zeta. rewrite (truncate_nonneg q Hq).
  assert (E2 : (Qfloor q <=? int64_max)%Z = false)
    by (apply Z.leb_gt; unfold int64_max; lia).
  rewrite E2, andb_false_r. reflexivity.
Qed.

Lemma Forall2_map_r {A B C : Type} (R : A -> C -> Prop) (f : B -> C)
    (l : list A) (l' : list B) :
  Forall2 (fun a b => R a (f b)) l l' -> Forall2 R l (map f l').
Proof. induction 1; simpl; constructor; assumption. Qed.

Lemma Forall2_Forall_l {A B : Type} (P : A -> Prop) (R Q' : A -> B -> Prop)
    (l : list A) (l' : list B) :
  Forall P l -> Forall2 R l l' ->
  (forall a b, P a -> R a b -> Q' a b) -> Forall2 Q' l l'.
Proof.
  intros HP HR Himp. induction HR as [| a b l l' Hab _ IH]; constructor.
  - inversion HP; subst. auto.
  - apply IH. inversion HP; assumption.
Qed.

Lemma zero_nonpositive_nonneg (raster : list (list Q)) :
  Forall (Forall (fun v => 0 <= v)) (zero_nonpositive raster).
Proof.
  unfold zero_nonpositive.
  apply Forall_forall. intros row Hrow.
  apply in_map_iff in Hrow as (row0 & <- & _).
  apply Forall_forall. intros v Hv.
  apply in_map_iff in Hv as (v0 & <- & _).
  destruct (Qle_bool v0 0) eqn:E; [apply Qle_refl |].
  apply Qlt_le_weak. apply Qnot_le_lt. intros Hle.
  apply Qle_bool_iff in Hle. congruence.
Qed.

Lemma indexed_In {A : Type} (l : list A) (i : nat) (v : A) :
  In (i, v) (indexed l) -> In v l.
Proof. unfold indexed. apply in_combine_r. Qed.

Lemma fold_left_Qplus_nonneg (vs : list Q) (acc : Q) :
  Forall (fun v => 0 <= v) vs -> 0 <= acc -> 0 <= fold_left Qplus vs acc.
Proof.
  intros Hvs. revert acc.
  induction Hvs as [| v rest Hv _ IH]; intros acc Hacc; simpl; [exact Hacc |].
  apply IH. rewrite <- (Qplus_0_l 0). apply Qplus_le_compat; assumption.
Qed.

Lemma mapM_astype_int_fields (df csv : list region_record) :
  mapM astype_int df = Ok csv ->
  Forall2 (fun r r' =>
             iso3 r' = iso3 r /\ region r' = region r /\ GID_1 r' = GID_1 r
             /\ match population r with
                | Null => False
                | FloatCell q => population r' = IntCell (to_int64 q)
                | IntCell z => population r' = IntCell z
                end) df csv.
Proof.
  revert csv. induction df as [| r rest IH]; simpl; intros csv H.
  - injection H as <-. constructor.
  - unfold astype_int in H at 1.
    destruct (population r) as [| q | z] eqn:Ep; simpl in H; [discriminate | |];
      destruct (mapM astype_int rest) as [csv' |] eqn:Er; simpl in H;
      try discriminate; injection H as <-;
      (constructor; [| apply IH; reflexivity]); simpl; rewrite ?Ep; auto.
Qed.

Section PopulationProperties.

Variable covered : geom -> nat -> nat -> bool.
Variable centroid : geom -> point.

Lemma zone_values_nonneg (g : geom) (array : list (list Q)) (nodata : Q) :
  Forall (Forall (fun v => 0 <= v)) array ->
  Forall (fun v => 0 <= v) (zone_values covered g array nodata).
Proof.
  intros Harr. apply Forall_forall. intros v Hv.
  unfold zone_values in Hv.
  apply in_flat_map in Hv as ([r row] & Hrow & Hv).
  apply in_flat_map in Hv as ([c v0] & Hc & Hv).
  cbn [fst snd] in *.
  destruct (covered g r c && negb (Qeq_bool v0 nodata)); [| destruct Hv].
  destruct Hv as [<- | []].
  apply indexed_In in Hrow. apply indexed_In in Hc.
  rewrite Forall_forall in Harr. specialize (Harr row Hrow).
  rewrite Forall_forall in Harr. apply Harr. exact Hc.
Qed.

(** After the cells at or below zero are zeroed, a zonal sum is missing
    or not negative. *)
Lemma zonal_sum_nonneg (g : geom) (raster : list (list Q)) (nodata : Q) :
  pop_nonneg (zonal_sum covered g (zero_nonpositive raster) nodata).
Proof.
  unfold zonal_sum.
  pose proof (zone_values_nonneg g _ nodata (zero_nonpositive_nonneg raster))
    as Hvs.
  destruct (zone_values covered g (zero_nonpositive raster) nodata)
    as [| v vs]; [exact I |].
  simpl. apply fold_left_Qplus_nonneg.
  - inversion Hvs; assumption.
  - inversion Hvs; subst. rewrite Qplus_0_l. assumption.
Qed.

Lemma region_entry_fields (boundary : boundary_row) (gid_column : string)
    (pop : cell) (r : region_record) :
  region_entry centroid boundary gid_column pop = Ok r ->
  dict_get (attrs boundary) "GID_0" = Some (iso3 r)
  /\ dict_get (attrs boundary) "NAME_1" = Some (region r)
  /\ dict_get (attrs boundary) gid_column = Some (GID_1 r)
  /\ population r = pop.
Proof.
  unfold region_entry, getitem.
  destruct (dict_get (attrs boundary) "GID_0"); simpl; [| discriminate].
  destruct (dict_get (attrs boundary) "NAME_1"); simpl; [| discriminate].
  destruct (dict_get (attrs boundary) gid_column); simpl; [| discriminate].
  intros H. injection H as <-. simpl. auto.
Qed.

Lemma region_entry_ok (boundary : boundary_row) (gid_column : string)
    (pop : cell) (iso name gid : string) :
  dict_get (attrs boundary) "GID_0" = Some iso ->
  dict_get (attrs boundary) "NAME_1" = Some name ->
  dict_get (attrs boundary) gid_column = Some gid ->
  region_entry centroid boundary gid_column pop
  = Ok (mkRecord iso name gid pop
          (snd (centroid (boundary_geometry boundary)))
          (fst (centroid (boundary_geometry boundary)))
          (boundary_geometry boundary)
          (area (boundary_geometry boundary) * 12309)).
Proof.
  intros H0 H1 H2. unfold region_entry, getitem.
  rewrite H0, H1, H2. reflexivity.
Qed.

(** A loop iteration that returns has appended one record, whose
    population is the zonal sum of the row. *)
Lemma process_boundary_appends (raster : list (list Q))
    (output output' : list region_record) (boundary : boundary_row) :
  process_boundary covered centroid raster output boundary = Ok output' ->
  exists r,
    output' = (output ++ [r])%list
    /\ population r
       = zonal_sum covered (boundary_geometry boundary)
           (zero_nonpositive raster) 255.
Proof.
  unfold process_boundary, try_catch. intros H.
  destruct (region_entry centroid boundary "GID_2" _) as [r2 |] eqn:E2;
    simpl in H.
  - injection H as <-. exists r2. split; [reflexivity |].
    apply (region_entry_fields _ _ _ _ E2).
  - destruct (region_entry centroid boundary "GID_1" _) as [r1 |] eqn:E1;
      simpl in H; [| discriminate].
    injection H as <-. exists r1. split; [reflexivity |].
    apply (region_entry_fields _ _ _ _ E1).
Qed.

Lemma for_boundaries_nonneg (raster : list (list Q))
    (boundaries : list boundary_row) (output output' : list region_record) :
  Forall (fun r => pop_nonneg (population r)) output ->
  for_boundaries covered centroid raster boundaries output = Ok output' ->
  Forall (fun r => pop_nonneg (population r)) output'.
Proof.
  revert output. induction boundaries as [| b rest IH]; simpl;
    intros output Hout H.
  - injection H as <-. exact Hout.
  - destruct (process_boundary covered centroid raster output b)
      as [o1 |] eqn:Eb; simpl in H; [| discriminate].
    apply (IH o1); [| exact H].
    destruct (process_boundary_appends _ _ _ _ Eb) as (r & -> & Hpop).
    apply Forall_app. split; [exact Hout |].
    constructor; [| constructor]. rewrite Hpop. apply zonal_sum_nonneg.
Qed.

(** The rows written are the records of [output] that have a population,
    in order, with the population cast to an integer. *)
Lemma process_population_tif_rows (boundaries : list boundary_row)
    (raster : list (list Q)) (csv output : list region_record) :
  process_population_tif covered centroid boundaries raster
  = Ok (csv, output) ->
  for_boundaries covered centroid raster boundaries [] = Ok output
  /\ exists df,
       mapM astype_int
         (filter (fun r => negb (is_null (population r))) output) = Ok df
       /\ csv = map round_coordinates df.
Proof.
  unfold process_population_tif. intros H.
  destruct (for_boundaries covered centroid raster boundaries [])
    as [out |] eqn:Ef; simpl in H; [| discriminate].
  unfold dropna_population in H.
  destruct out as [| r0 out0]; cbn [bind] in H; [discriminate |].
  destruct (mapM astype_int
              (filter (fun r => negb (is_null (population r))) (r0 :: out0)))
    as [df |] eqn:Em; cbn [bind] in H; [| discriminate].
  injection H as <- <-. split; [reflexivity |].
  exists df. split; [exact Em | reflexivity].
Qed.

Lemma for_boundaries_rows (raster : list (list Q))
    (boundaries : list boundary_row) (output output' : list region_record) :
  for_boundaries covered centroid raster boundaries output = Ok output' ->
  exists added,
    output' = (output ++ added)%list
    /\ Forall2 (fun b r =>
                  record_geometry r = boundary_geometry b
                  /\ population r
                     = zonal_sum covered (boundary_geometry b)
                         (zero_nonpositive raster) 255
                  /\ record_area r = area (boundary_geometry b) * 12309
                  /\ longitude r = fst (centroid (boundary_geometry b))
                  /\ latitude r = snd (centroid (boundary_geometry b)))
         boundaries added.
Proof.
  revert output. induction boundaries as [| b rest IH]; simpl;
    intros output H.
  - injection H as <-. exists []. rewrite app_nil_r. split; constructor.
  - destruct (process_boundary covered centroid raster output b)
      as [o1 |] eqn:Eb; simpl in H; [| discriminate].
    destruct (IH o1 H) as (added & -> & Hrows).
    assert (Hrec : exists r,
               o1 = (output ++ [r])%list
               /\ record_geometry r = boundary_geometry b
               /\ population r
                  = zonal_sum covered (boundary_geometry b)
                      (zero_nonpositive raster) 255
               /\ record_area r = area (boundary_geometry b) * 12309
               /\ longitude r = fst (centroid (boundary_geometry b))
               /\ latitude r = snd (centroid (boundary_geometry b))).
    { unfold process_boundary, try_catch, region_entry, getitem in Eb.
      destruct (dict_get (attrs b) "GID_0"); cbn [bind] in Eb;
        [| discriminate].
      destruct (dict_get (attrs b) "NAME_1"); cbn [bind] in Eb;
        [| discriminate].
      destruct (dict_get (attrs b) "GID_2"); cbn [bind] in Eb.
      - injection Eb as <-. eexists. split; [reflexivity |]. simpl. auto.
      - destruct (dict_get (attrs b) "GID_1"); cbn [bind] in Eb;
          [| discriminate].
        injection Eb as <-. eexists. split; [reflexivity |]. simpl. auto. }
    destruct Hrec as (r & -> & Hr).
    exists (r :: added). rewrite <- app_assoc. split; [reflexivity |].
    constructor; assumption.
Qed.

Lemma zonal_sum_not_int (g : geom) (array : list (list Q)) (nodata : Q)
    (z : Z) :
  zonal_sum covered g array nodata <> IntCell z.
Proof.
  unfold zonal_sum.
  destruct (zone_values covered g array nodata); discriminate.
Qed.

(** The records of the returned list that have a population have a float
    that is not negative. *)
Lemma output_populations (raster : list (list Q))
    (boundaries : list boundary_row) (output : list region_record) :
  for_boundaries covered centroid raster boundaries [] = Ok output ->
  Forall (fun r => exists q, population r = FloatCell q /\ 0 <= q)
    (filter (fun r => negb (is_null (population r))) output).
Proof.
  intros Hout.
  pose proof (for_boundaries_nonneg _ _ _ _
                (Forall_nil _) Hout) as Hnn.
  destruct (for_boundaries_rows _ _ _ _ Hout)
    as (added & Heq & Hrows).
  simpl in Heq. subst added.
  apply Forall_forall. intros r Hr. apply filter_In in Hr as [Hr Hnull].
  rewrite Forall_forall in Hnn. specialize (Hnn r Hr).
  assert (Hz : exists b, population r
                         = zonal_sum covered (boundary_geometry b)
                             (zero_nonpositive raster) 255).
  { clear - Hrows Hr. induction Hrows as [| b r0 bs rs Hb _ IH].
    - destruct Hr.
    - destruct Hr as [<- | Hr]; [exists b; apply Hb | apply IH; exact Hr]. }
  destruct Hz as (b & Hz).
  destruct (population r) as [| q | z] eqn:Ep.
  - discriminate.
  - exists q. split; [reflexivity | exact Hnn].
  - exfalso. symmetry in Hz. exact (zonal_sum_not_int _ _ _ _ Hz).
Qed.

(** The rows of the file are the records that have a population, in
    order, each with its sum cast to a 64-bit integer. *)
Lemma csv_population_cast (boundaries : list boundary_row)
    (raster : list (list Q)) (csv output : list region_record) :
  process_population_tif covered centroid boundaries raster
  = Ok (csv, output) ->
  Forall2 (fun r r' =>
             GID_1 r' = GID_1 r
             /\ exists q, population r = FloatCell q /\ 0 <= q
                          /\ population r' = IntCell (to_int64 q))
    (filter (fun r => negb (is_null (population r))) output) csv.
Proof.
  intros H.
  destruct (process_population_tif_rows _ _ _ _ H) as (Hout & df & Hdf & ->).
  apply Forall2_map_r.
  apply (Forall2_Forall_l _ _ _ _ _ (output_populations _ _ _ Hout)
           (mapM_astype_int_fields _ _ Hdf)).
  intros r r' (q & Hq & Hnn) (_ & _ & Hgid & Hpop).
  split; [exact Hgid |].
  rewrite Hq in Hpop. exists q. auto.
Qed.


(** C6: no row of the CSV file has a null population; the rows written
    are, in order, the records of [output] that have a population, so a
    record without one is dropped before the file is written. *)
Theorem null_population_rows_dropped (boundaries : list boundary_row)
    (raster : list (list Q)) (csv output : list region_record) :
  process_population_tif covered centroid boundaries raster
  = Ok (csv, output) ->
  Forall (fun r => population r <> Null) csv
  /\ map (fun r => (iso3 r, region r, GID_1 r)) csv
     = map (fun r => (iso3 r, region r, GID_1 r))
         (filter (fun r => negb (is_null (population r))) output).
Proof.
  intros H.
  destruct (process_population_tif_rows _ _ _ _ H) as (_ & df & Hdf & ->).
  apply mapM_astype_int_fields in Hdf.
  rewrite map_map. cbn [round_coordinates iso3 region GID_1]. clear H.
  split.
  - apply Forall_map.
    induction Hdf as [| r r' kept df' (_ & _ & _ & Hp) _ IH];
      constructor; [| exact IH].
    simpl. destruct (population r); [destruct Hp | |]; rewrite Hp;
      discriminate.
  - induction Hdf as [| r r' kept df' (Hi & Hn & Hg & _) _ IH];
      [reflexivity |].
    simpl. rewrite Hi, Hn, Hg, IH. reflexivity.
Qed.

(** C7 (amended): what the loop body does with a row, case by case.  For
    a row that has the country code and the level-1 name, it appends one
    record and raises nothing as soon as the row has one of the two id
    columns: the record carries the [GID_2] value when the row has that
    column, and the [GID_1] value when reading [GID_2] raised.  The
    handler is not guarded itself: for a row that has neither id column,
    or that lacks the country code or the level-1 name, its [KeyError]
    propagates and no record is appended. *)
Theorem process_boundary_fallback (raster : list (list Q))
    (output : list region_record) (boundary : boundary_row) :
  match dict_get (attrs boundary) "GID_0",
        dict_get (attrs boundary) "NAME_1" with
  | None, _ =>
      process_boundary covered centroid raster output boundary
      = Raise (KeyError "GID_0")
  | Some _, None =>
      process_boundary covered centroid raster output boundary
      = Raise (KeyError "NAME_1")
  | Some iso, Some name =>
      match dict_get (attrs boundary) "GID_2",
            dict_get (attrs boundary) "GID_1" with
      | Some gid2, _ =>
          exists r,
            process_boundary covered centroid raster output boundary
            = Ok (output ++ [r])%list
            /\ iso3 r = iso /\ region r = name /\ GID_1 r = gid2
      | None, Some gid1 =>
          region_entry centroid boundary "GID_2"
            (zonal_sum covered (boundary_geometry boundary)
               (zero_nonpositive raster) 255)
          = Raise (KeyError "GID_2")
          /\ exists r,
               process_boundary covered centroid raster output boundary
               = Ok (output ++ [r])%list
               /\ iso3 r = iso /\ region r = name /\ GID_1 r = gid1
      | None, None =>
          process_boundary covered centroid raster output boundary
          = Raise (KeyError "GID_1")
      end
  end.
Proof.
  unfold process_boundary, try_catch.
  destruct (dict_get (attrs boundary) "GID_0") as [iso |] eqn:H0.
  2:{ unfold region_entry, getitem. rewrite H0. reflexivity. }
  destruct (dict_get (attrs boundary) "NAME_1") as [name |] eqn:H1.
  2:{ unfold region_entry, getitem. rewrite H0, H1. reflexivity. }
  destruct (dict_get (attrs boundary) "GID_2") as [gid2 |] eqn:E2.
  - rewrite (region_entry_ok _ _ _ _ _ _ H0 H1 E2). simpl.
    eexists. split; [reflexivity |]. simpl. auto.
  - assert (Hraise : region_entry centroid boundary "GID_2"
                       (zonal_sum covered (boundary_geometry boundary)
                          (zero_nonpositive raster) 255)
                     = Raise (KeyError "GID_2")).
    { unfold region_entry, getitem. rewrite H0, H1, E2. reflexivity. }
    rewrite Hraise.
    destruct (dict_get (attrs boundary) "GID_1") as [gid1 |] eqn:E1.
    + split; [reflexivity |].
      rewrite (region_entry_ok _ _ _ _ _ _ H0 H1 E1). simpl.
      eexists. split; [reflexivity |]. simpl. auto.
    + unfold region_entry, getitem. rewrite H0, H1, E1. reflexivity.
Qed.

End PopulationProperties.



Lemma null_population_rows_dropped_witness :
  exists csv output,
    process_population_tif sample_covered sample_centroid sample_boundaries
      sample_raster = Ok (csv, output)
    /\ map GID_1 output = ["KEN.1.1_1"; "KEN.2_1"]
    /\ map GID_1 csv = ["KEN.1.1_1"]
    /\ Forall (fun r => population r <> Null) csv.
Proof.
  destruct (process_population_tif sample_covered sample_centroid
              sample_boundaries sample_raster) as [[csv output] | e] eqn:E.
  - exists csv, output. split; [reflexivity |].
    split; [vm_compute in E; injection E as _ <-; reflexivity |].
    split; [vm_compute in E; injection E as <- _; reflexivity |].
    exact (proj1 (null_population_rows_dropped _ _ _ _ _ _ E)).
  - vm_compute in E. discriminate.
Defined.

Lemma process_boundary_fallback_witness :
  exists r1 r2,
    for_boundaries sample_covered sample_centroid sample_raster
      sample_boundaries [] = Ok [r1; r2]
    /\ GID_1 r1 = "KEN.1.1_1" /\ GID_1 r2 = "KEN.2_1".
Proof.
  pose proof (process_boundary_fallback sample_covered sample_centroid
                sample_raster []
                (nth 0 sample_boundaries (mkBoundary [] (Point (0, 0)))))
    as H1.
  cbn [nth sample_boundaries attrs dict_get String.eqb Ascii.eqb Bool.eqb]
    in H1.
  destruct H1 as (r1 & Hr1 & _ & _ & Hg1).
  pose proof (process_boundary_fallback sample_covered sample_centroid
                sample_raster [r1]
                (nth 1 sample_boundaries (mkBoundary [] (Point (0, 0)))))
    as H2.
  cbn [nth sample_boundaries attrs dict_get String.eqb Ascii.eqb Bool.eqb]
    in H2.
  destruct H2 as (_ & r2 & Hr2 & _ & _ & Hg2).
  exists r1, r2. split.
  - unfold sample_boundaries. cbn [for_boundaries].
    rewrite Hr1. cbn [bind app]. rewrite Hr2. reflexivity.
  - split; assumption.
Defined.

(** C7, as stated, fails: for a row that has neither id column the handler
    raises [KeyError] in its turn and no record is appended. *)
Lemma process_boundary_without_ids_raises :
  process_boundary sample_covered sample_centroid sample_raster []
    row_without_ids = Raise (KeyError "GID_1").
Proof. reflexivity. Qed.

(** ** process_regions *)

Lemma path_eqb_eq (p q : path) : path_eqb p q = true <-> p = q.
Proof.
  unfold path_eqb. destruct (list_eq_dec string_dec p q); split;
    congruence.
Qed.

Section RegionsProperties.

Variable simplify : Q -> geom -> geom.
Variable country_iso3 : string.

(** The layer of a level is there as soon as the raw layer has a row of
    the country, and raises when it has none. *)
Lemma level_layer_rows (layer : list feature) :
  country_rows country_iso3 layer <> 0%nat ->
  exists rows, level_layer simplify country_iso3 layer = Ok rows.
Proof.
  unfold country_rows, level_layer, assign_applied.
  destruct (filter (fun r => GID_0 r =? country_iso3) layer) as [| r rest].
  - intros H. exfalso. apply H. reflexivity.
  - intros _. cbn [map]. eexists. reflexivity.
Qed.

Lemma level_layer_no_row (layer : list feature) :
  country_rows country_iso3 layer = 0%nat ->
  exists message,
    level_layer simplify country_iso3 layer = Raise (ValueError message).
Proof.
  unfold country_rows, level_layer, assign_applied.
  destruct (filter (fun r => GID_0 r =? country_iso3) layer) as [| r rest].
  - intros _. eexists. reflexivity.
  - discriminate.
Qed.

(** One level, up to the assignment of the pruned geometries: the level
    is started and the raw layer read. *)
Lemma process_level_read (regional_level : nat) (w : world)
    (layer : list feature) :
  folder_available country_iso3 w ->
  raw_layers w (path_regions regional_level) = Some layer ->
  existsb (path_eqb (path_processed country_iso3 regional_level)) (fs w)
  = false ->
  process_level simplify country_iso3 regional_level w
  = (regions <~ io_lift (level_layer simplify country_iso3 layer) ;;
     try_except
       (to_file (path_processed country_iso3 regional_level) regions)
       (print ("Unable to write " ++ gadm_filename regional_level)))
      (emit (ReadFile (path_regions regional_level))
         (level_started country_iso3 regional_level w)).
Proof.
  intros Hav Hraw Hnew.
  unfold process_level, level_started.
  unfold io_bind at 1. unfold path_exists at 1. rewrite Hnew.
  unfold io_bind at 1. unfold print at 1.
  unfold io_bind at 1. unfold path_exists at 1. cbn [fs emit].
  destruct (existsb (path_eqb (regions_folder country_iso3)) (fs w)) eqn:Ef.
  - unfold io_bind at 1. unfold io_ret at 1.
    unfold io_bind at 1. unfold read_file at 1. cbn [raw_layers emit].
    rewrite Hraw. reflexivity.
  - destruct Hav as [Hav | Hav]; [congruence |].
    unfold io_bind at 1. unfold mkdir at 1. cbn [fs emit]. rewrite Ef, Hav.
    unfold io_bind at 1. unfold read_file at 1.
    cbn [raw_layers emit add_path]. rewrite Hraw. reflexivity.
Qed.

(** One level, up to the write: the write is attempted once. *)
Lemma process_level_run (regional_level : nat) (w : world)
    (layer : list feature) (rows : list pruned_feature) :
  folder_available country_iso3 w ->
  raw_layers w (path_regions regional_level) = Some layer ->
  level_layer simplify country_iso3 layer = Ok rows ->
  existsb (path_eqb (path_processed country_iso3 regional_level)) (fs w)
  = false ->
  process_level simplify country_iso3 regional_level w
  = try_except
      (to_file (path_processed country_iso3 regional_level) rows)
      (print ("Unable to write " ++ gadm_filename regional_level))
      (emit (ReadFile (path_regions regional_level))
         (level_started country_iso3 regional_level w)).
Proof.
  intros Hav Hraw Hrows Hnew.
  rewrite (process_level_read regional_level w layer Hav Hraw Hnew).
  unfold io_bind, io_lift. rewrite Hrows. reflexivity.
Qed.

Lemma level_started_facts (regional_level : nat) (w : world) :
  raw_layers (level_started country_iso3 regional_level w) = raw_layers w
  /\ writable (level_started country_iso3 regional_level w) = writable w
  /\ (folder_available country_iso3 w ->
      folder_available country_iso3
        (level_started country_iso3 regional_level w)).
Proof.
  unfold level_started, folder_available.
  destruct (existsb (path_eqb (regions_folder country_iso3)) (fs w)) eqn:Ef.
  - cbn [raw_layers writable fs emit]. rewrite Ef. auto.
  - cbn [raw_layers writable fs emit add_path].
    split; [reflexivity |]. split; [reflexivity |].
    intros _. left. rewrite existsb_app. simpl.
    rewrite (proj2 (path_eqb_eq _ _) eq_refl). apply orb_true_r.
Qed.

(** A level whose raw layer has a row of the country never raises: not
    because of its write either. *)
Lemma process_level_ok (regional_level : nat) (w : world) :
  folder_available country_iso3 w ->
  level_readable country_iso3 w regional_level ->
  exists w',
    process_level simplify country_iso3 regional_level w = (Ok tt, w')
    /\ raw_layers w' = raw_layers w
    /\ writable w' = writable w
    /\ folder_available country_iso3 w'.
Proof.
  intros Hav (layer & Hraw & Hrows).
  destruct (existsb (path_eqb (path_processed country_iso3 regional_level))
              (fs w)) eqn:Hnew.
  - exists w. unfold process_level, io_bind, path_exists. rewrite Hnew.
    auto.
  - destruct (level_layer_rows layer Hrows) as (rows & Hlayer).
    rewrite (process_level_run regional_level w layer rows Hav Hraw Hlayer
               Hnew).
    destruct (level_started_facts regional_level w) as (Hr & Hw & Hav').
    specialize (Hav' Hav).
    unfold try_except, to_file. cbn [writable emit].
    destruct (writable (level_started country_iso3 regional_level w)
                (path_processed country_iso3 regional_level)) eqn:Ew.
    + eexists. split; [reflexivity |]. cbn [raw_layers writable emit add_path].
      split; [exact Hr |]. split; [exact Hw |].
      unfold folder_available in *. cbn [fs emit add_path].
      rewrite !existsb_app.
      destruct Hav' as [H | H]; rewrite H; [left | right]; reflexivity.
    + unfold print. eexists. split; [reflexivity |].
      cbn [raw_layers writable emit].
      split; [exact Hr |]. split; [exact Hw |]. exact Hav'.
Qed.

Lemma for_levels_ok (levels : list nat) (w : world) :
  folder_available country_iso3 w ->
  (forall regional_level, In regional_level levels ->
     level_readable country_iso3 w regional_level) ->
  exists w', for_levels simplify country_iso3 levels w = (Ok tt, w').
Proof.
  revert w. induction levels as [| l rest IH]; intros w Hav Hraw.
  - exists w. reflexivity.
  - destruct (process_level_ok l w Hav (Hraw l (or_introl eq_refl)))
      as (w1 & Hrun & Hr & _ & Hav1).
    cbn [for_levels]. unfold io_bind. rewrite Hrun.
    apply IH; [exact Hav1 |].
    intros l' Hin. unfold level_readable. rewrite Hr.
    apply Hraw. right. exact Hin.
Qed.

(** C8: when the write of a level's shapefile fails (the level was due,
    its raw layer was read and has a row of the country, so that the write
    is reached), the failure is printed, nothing is raised, and the loop
    goes on with the remaining levels from a world in which that write was
    attempted exactly once; [process_regions] as a whole returns normally
    whatever writes fail, when the raw layer of each of its levels can be
    read and has a row of the country. *)
Theorem process_regions_write_failure (regional_level : nat)
    (rest : list nat) (w : world) (layer : list feature) :
  folder_available country_iso3 w ->
  raw_layers w (path_regions regional_level) = Some layer ->
  country_rows country_iso3 layer <> 0%nat ->
  existsb (path_eqb (path_processed country_iso3 regional_level)) (fs w)
  = false ->
  writable w (path_processed country_iso3 regional_level) = false ->
  process_level simplify country_iso3 regional_level w
  = (Ok tt, level_write_failed country_iso3 regional_level w)
  /\ for_levels simplify country_iso3 (regional_level :: rest) w
     = for_levels simplify country_iso3 rest
         (level_write_failed country_iso3 regional_level w)
  /\ (exists started,
        trace (level_write_failed country_iso3 regional_level w)
        = (trace w ++ started
           ++ [ReadFile (path_regions regional_level);
               WriteFailed (path_processed country_iso3 regional_level);
               Printed ("Unable to write " ++ gadm_filename regional_level)])%list
        /\ forall e, In e started ->
             (exists line, e = Printed line) \/ (exists p, e = MadeDir p))
  /\ (forall gid_level,
        (forall l, In l (seq 1 gid_level) ->
           level_readable country_iso3 w l) ->
        exists w', process_regions simplify country_iso3 gid_level w
                   = (Ok tt, w')).
Proof.
  intros Hav Hraw Hrows Hnew Hfail.
  destruct (level_started_facts regional_level w) as (_ & Hw & _).
  destruct (level_layer_rows layer Hrows) as (rows & Hlayer).
  assert (Hrun : process_level simplify country_iso3 regional_level w
                 = (Ok tt, level_write_failed country_iso3 regional_level w)).
  { rewrite (process_level_run regional_level w layer rows Hav Hraw Hlayer
               Hnew).
    unfold try_except, to_file. cbn [writable emit].
    rewrite Hw, Hfail. reflexivity. }
  split; [exact Hrun |]. split; [| split].
  - cbn [for_levels]. unfold io_bind. rewrite Hrun. reflexivity.
  - unfold level_write_failed, level_started.
    destruct (existsb (path_eqb (regions_folder country_iso3)) (fs w)).
    + eexists [_]. cbn [trace emit].
      split; [rewrite <- !app_assoc; reflexivity |].
      intros e [<- | []]. left. eauto.
    + eexists [_; _]. cbn [trace emit add_path].
      split; [rewrite <- !app_assoc; reflexivity |].
      intros e [<- | [<- | []]]; [left | right]; eauto.
  - intros gid_level Hall. unfold process_regions.
    apply for_levels_ok; [exact Hav | exact Hall].
Qed.

End RegionsProperties.

Lemma process_regions_write_failure_witness :
  process_regions keep_geometry "KEN" 2 sample_world
  = for_levels keep_geometry "KEN" [2%nat]
      (level_write_failed "KEN" 1 sample_world)
  /\ exists w',
       process_regions keep_geometry "KEN" 2 sample_world = (Ok tt, w')
       /\ trace w'
          = [Printed "Processing GID_1 region shapes for KEN";
             MadeDir ["results"; "processed"; "KEN"; "regions"];
             ReadFile ["data"; "raw"; "boundaries"; "gadm36_1.shp"];
             WriteFailed ["results"; "processed"; "KEN"; "regions";
                          "regions_1_KEN.shp"];
             Printed "Unable to write gadm36_1.shp";
             Printed "Processing GID_2 region shapes for KEN";
             ReadFile ["data"; "raw"; "boundaries"; "gadm36_2.shp"];
             Wrote ["results"; "processed"; "KEN"; "regions";
                    "regions_2_KEN.shp"]
               (apply_remove_small_shapes [mainland_and_islet])].
Proof.
  destruct (process_regions_write_failure keep_geometry "KEN" 1 [2%nat]
              sample_world [single_polygon; a_point])
    as (_ & Hloop & _ & Hall).
  - right. reflexivity.
  - reflexivity.
  - vm_compute. discriminate.
  - reflexivity.
  - reflexivity.
  - split; [exact Hloop |].
    destruct (Hall 2%nat) as (w' & Hrun).
    + intros l [<- | [<- | []]].
      * exists [single_polygon; a_point].
        split; [reflexivity | vm_compute; discriminate].
      * exists [mainland_and_islet].
        split; [reflexivity | vm_compute; discriminate].
    + exists w'. split; [exact Hrun |].
      change w' with (snd (Ok tt : result unit, w')). rewrite <- Hrun.
      vm_compute. reflexivity.
Defined.

(** * Further properties *)

(** ** The LCA calculators on incomplete tables *)

Lemma dict_get_None_keys {V : Type} (d : dict V) (k : string) :
  dict_get d k = None -> forall k' v, In (k', v) d -> k' <> k.
Proof.
  induction d as [| [k0 v0] rest IH]; simpl; intros Hget k' v Hin;
    [destruct Hin |].
  destruct (String.eqb_spec k0 k) as [-> | Hne]; [discriminate |].
  destruct Hin as [Heq | Hin]; [congruence | eauto].
Qed.

Lemma for_items_app {V S : Type} (items1 items2 : dict V)
    (body : string -> V -> S -> result S) (s : S) :
  for_items (items1 ++ items2)%list body s
  = (s' <- for_items items1 body s ;; for_items items2 body s').
Proof.
  revert s. induction items1 as [| [k v] rest IH]; intros s; simpl;
    [reflexivity |].
  destruct (body k v s) as [s1 | e]; simpl; [apply IH | reflexivity].
Qed.

(** A loop over the phases that only acts on the phase [phase], with a
    nested loop that only acts on [inner_key], does nothing when either key
    is missing. *)
Lemma nested_loop_skips {S : Type} (outer inner : table)
    (phase inner_key : string) (act : dict Q -> string -> dict Q -> S -> result S)
    (s : S) :
  dict_get outer phase = None \/ dict_get inner inner_key = None ->
  for_items outer (fun key cf d =>
    if key =? phase then
      for_items inner (fun key item d =>
        if key =? inner_key then act cf key item d else Ok d) d
    else Ok d) s = Ok s.
Proof.
  intros Hmiss. apply for_items_skip. intros k v s' Hin.
  destruct (String.eqb_spec k phase) as [-> | Hne]; [| reflexivity].
  destruct Hmiss as [Ho | Hi].
  - exfalso. exact (dict_get_None_keys _ _ Ho _ _ Hin eq_refl).
  - apply for_items_skip. intros k' v' s'' Hin'.
    pose proof (dict_get_None_keys _ _ Hi _ _ Hin') as Hne.
    apply String.eqb_neq in Hne. rewrite Hne. reflexivity.
Qed.

(** X1: a calculator whose phase is missing from the tables raises nothing
    and returns the empty dictionary: [lca_manufacturing] and [lca_eolt]
    when [carbon_factors] has no entry for the phase or [weights] has no
    'manufacturing' entry, [lca_trans] when [carbon_factors] has no
    'trans_emissions' entry. *)
Theorem lca_missing_phase_is_empty (carbon_factors weights : table) :
  (dict_get carbon_factors "mfg_emissions" = None
   \/ dict_get weights "manufacturing" = None ->
   lca_manufacturing carbon_factors weights = Ok [])
  /\ (dict_get carbon_factors "eolt_emissions" = None
      \/ dict_get weights "manufacturing" = None ->
      lca_eolt carbon_factors weights = Ok [])
  /\ (dict_get carbon_factors "trans_emissions" = None ->
      lca_trans carbon_factors = Ok []).
Proof.
  split; [| split].
  - intros Hmiss. unfold lca_manufacturing.
    apply (nested_loop_skips carbon_factors weights "mfg_emissions"
             "manufacturing"
             (fun carbon_factor key item mfg_emission_dict => _) [] Hmiss).
  - intros Hmiss. unfold lca_eolt.
    apply (nested_loop_skips carbon_factors weights "eolt_emissions"
             "manufacturing"
             (fun carbon_factor key item eolt_emission_dict => _) [] Hmiss).
  - intros Hmiss. unfold lca_trans. apply for_items_skip.
    intros k v s' Hin.
    pose proof (dict_get_None_keys _ _ Hmiss _ _ Hin) as Hne.
    apply String.eqb_neq in Hne. rewrite Hne. reflexivity.
Qed.

Lemma lca_missing_phase_is_empty_witness :
  lca_manufacturing sample_carbon_factors sample_operations = Ok []
  /\ lca_eolt sample_operations sample_weights = Ok []
  /\ lca_trans sample_weights = Ok [].
Proof.
  split; [| split].
  - apply (proj1 (lca_missing_phase_is_empty sample_carbon_factors
                      sample_operations)).
    right. reflexivity.
  - apply (proj1 (proj2 (lca_missing_phase_is_empty sample_operations
                             sample_weights))).
    left. reflexivity.
  - apply (proj2 (proj2 (lca_missing_phase_is_empty sample_weights
                             sample_weights))).
    reflexivity.
Defined.

(** One lookup of the loop body: the missing key is reported, or the
    lookup is replaced by its value. *)
Ltac weight_or_raise d k :=
  let E := fresh "E" in
  destruct (dict_get d k) eqn:E; cbn [bind];
  [| exists k; split; [reflexivity |];
     left; split; [simpl; tauto | unfold has_key; rewrite E; reflexivity]].

Ltac factor_or_raise d k :=
  let E := fresh "E" in
  destruct (dict_get d k) eqn:E; cbn [bind];
  [| exists k; split; [reflexivity |];
     right; split; [simpl; tauto | unfold has_key; rewrite E; reflexivity]].

(** X2: on tables that have the phase entries but lack a key that the loop
    body reads, [lca_manufacturing] and [lca_eolt] return no partial
    dictionary: they raise [KeyError] for a key of the weights or of the
    carbon factors that is missing. *)
Theorem lca_incomplete_tables_raise (carbon_factors weights : table)
    (cf item : dict Q) :
  NoDup (keys carbon_factors) -> NoDup (keys weights) ->
  dict_get weights "manufacturing" = Some item ->
  (dict_get carbon_factors "mfg_emissions" = Some cf ->
   has_keys item weight_keys && has_keys cf mfg_factor_keys = false ->
   exists key,
     lca_manufacturing carbon_factors weights = Raise (KeyError key)
     /\ ((In key weight_keys /\ has_key item key = false)
         \/ (In key mfg_factor_keys /\ has_key cf key = false)))
  /\ (dict_get carbon_factors "eolt_emissions" = Some cf ->
      has_keys item weight_keys && has_keys cf eolt_factor_keys = false ->
      exists key,
        lca_eolt carbon_factors weights = Raise (KeyError key)
        /\ ((In key weight_keys /\ has_key item key = false)
            \/ (In key eolt_factor_keys /\ has_key cf key = false))).
Proof.
  intros Hnc Hnw Hit. split; intros Hcf Hinc.
  - unfold lca_manufacturing.
    rewrite (for_items_single (S := dict pyval) carbon_factors _
               "mfg_emissions" cf [] Hnc Hcf).
    2:{ intros k' v' s' Hne. apply String.eqb_neq in Hne. rewrite Hne.
        reflexivity. }
    rewrite String.eqb_refl.
    rewrite (for_items_single (S := dict pyval) weights _ "manufacturing"
               item [] Hnw Hit).
    2:{ intros k' v' s' Hne. apply String.eqb_neq in Hne. rewrite Hne.
        reflexivity. }
    rewrite String.eqb_refl. unfold weighted, getitem.
    weight_or_raise item "fiber_cable_per_km_kg".
    factor_or_raise cf "glass_kg_co2e".
    weight_or_raise item "pcb_kg".
    factor_or_raise cf "pcb_kg_co2e".
    weight_or_raise item "aluminium_bru_kg".
    factor_or_raise cf "aluminium_kg_co2e".
    weight_or_raise item "copper_antenna_kg".
    factor_or_raise cf "copper_kg_co2e".
    weight_or_raise item "aluminium_antenna_kg".
    weight_or_raise item "pvc_antenna_kg".
    factor_or_raise cf "pvc_kg_co2e".
    weight_or_raise item "iron_antenna_kg".
    factor_or_raise cf "iron_kg_co2e".
    weight_or_raise item "steel_antenna_kg".
    factor_or_raise cf "steel_kg_co2e".
    weight_or_raise item "aluminium_frame_kg".
    weight_or_raise item "concrete_kg".
    factor_or_raise cf "concrete_kg_co2e".
    weight_or_raise item "aluminium_device_kg".
    exfalso. unfold has_keys, has_key in Hinc. simpl in Hinc.
    repeat match goal with
           | E : dict_get _ _ = Some _ |- _ => rewrite E in Hinc; clear E
           end.
    discriminate.
  - unfold lca_eolt.
    rewrite (for_items_single (S := dict pyval) carbon_factors _
               "eolt_emissions" cf [] Hnc Hcf).
    2:{ intros k' v' s' Hne. apply String.eqb_neq in Hne. rewrite Hne.
        reflexivity. }
    rewrite String.eqb_refl.
    rewrite (for_items_single (S := dict pyval) weights _ "manufacturing"
               item [] Hnw Hit).
    2:{ intros k' v' s' Hne. apply String.eqb_neq in Hne. rewrite Hne.
        reflexivity. }
    rewrite String.eqb_refl. unfold weighted, getitem.
    weight_or_raise item "fiber_cable_per_km_kg".
    factor_or_raise cf "glass_kg_co2e".
    weight_or_raise item "pcb_kg".
    factor_or_raise cf "pcb_kg_co2e".
    weight_or_raise item "aluminium_bru_kg".
    factor_or_raise cf "metals_kg_co2e".
    weight_or_raise item "copper_antenna_kg".
    weight_or_raise item "aluminium_antenna_kg".
    weight_or_raise item "pvc_antenna_kg".
    weight_or_raise item "iron_antenna_kg".
    weight_or_raise item "steel_antenna_kg".
    weight_or_raise item "aluminium_frame_kg".
    weight_or_raise item "concrete_kg".
    factor_or_raise cf "concrete_kg_co2e".
    weight_or_raise item "aluminium_device_kg".
    exfalso. unfold has_keys, has_key in Hinc. simpl in Hinc.
    repeat match goal with
           | E : dict_get _ _ = Some _ |- _ => rewrite E in Hinc; clear E
           end.
    discriminate.
Qed.

Lemma lca_incomplete_tables_raise_witness :
  lca_manufacturing sample_factors_no_pvc sample_weights
  = Raise (KeyError "pvc_kg_co2e").
Proof.
  destruct (proj1 (lca_incomplete_tables_raise sample_factors_no_pvc
                     sample_weights
                     (map (fun k => (k, 3))
                        ["glass_kg_co2e"; "pcb_kg_co2e"; "aluminium_kg_co2e";
                         "copper_kg_co2e"; "iron_kg_co2e"; "steel_kg_co2e";
                         "concrete_kg_co2e"])
                     (map (fun k => (k, 2)) weight_keys)
                     ltac:(repeat constructor; simpl; intuition discriminate)
                     ltac:(repeat constructor; simpl; intuition discriminate)
                     eq_refl) eq_refl eq_refl)
    as (key & Hraise & _).
  pose proof Hraise as Hkey. vm_compute in Hkey. injection Hkey as Hkey.
  rewrite Hkey. exact Hraise.
Defined.

(** X3: on complete tables the category totals of [lca_manufacturing] and of
    [lca_eolt] add up to the sum of the eleven products weight x factor, and
    the eleven components are the eleven weights, each once: no weight is
    counted twice and none is left out. *)
Theorem lca_totals_partition_components (carbon_factors weights : table)
    (mfg eolt item : dict Q) :
  NoDup (keys carbon_factors) -> NoDup (keys weights) ->
  dict_get carbon_factors "mfg_emissions" = Some mfg ->
  dict_get carbon_factors "eolt_emissions" = Some eolt ->
  dict_get weights "manufacturing" = Some item ->
  has_keys item weight_keys = true ->
  has_keys mfg mfg_factor_keys = true ->
  has_keys eolt eolt_factor_keys = true ->
  (exists d, lca_manufacturing carbon_factors weights = Ok d
             /\ dict_total d == components_total item mfg mfg_components)
  /\ (exists d, lca_eolt carbon_factors weights = Ok d
                /\ dict_total d == components_total item eolt eolt_components)
  /\ Permutation (map fst mfg_components) weight_keys
  /\ Permutation (map fst eolt_components) weight_keys.
Proof.
  intros Hnc Hnw Hm He Hi Hwk Hmk Hek.
  split; [| split; [| split]].
  - exists (mfg_totals item mfg).
    split; [apply lca_manufacturing_totals; assumption |].
    unfold dict_total, components_total, mfg_totals, mfg_components, sumQ.
    cbn [flat_map map fold_right app fst snd]. ring.
  - exists (eolt_totals item eolt).
    split; [apply lca_eolt_totals; assumption |].
    unfold dict_total, components_total, eolt_totals, eolt_components, sumQ.
    cbn [flat_map map fold_right app fst snd]. ring.
  - apply NoDup_Permutation.
    + repeat constructor; simpl; intuition discriminate.
    + repeat constructor; simpl; intuition discriminate.
    + intros k. simpl. tauto.
  - apply NoDup_Permutation.
    + repeat constructor; simpl; intuition discriminate.
    + repeat constructor; simpl; intuition discriminate.
    + intros k. simpl. tauto.
Qed.

Lemma lca_totals_partition_components_witness :
  exists d, lca_manufacturing sample_carbon_factors sample_weights = Ok d
            /\ dict_total d == 66.
Proof.
  destruct (lca_totals_partition_components sample_carbon_factors
              sample_weights
              (map (fun k => (k, 3)) mfg_factor_keys)
              (map (fun k => (k, 3)) eolt_factor_keys)
              (map (fun k => (k, 2)) weight_keys))
    as ((d & Hd & Hsum) & _).
  - repeat constructor; simpl; intuition discriminate.
  - repeat constructor; simpl; intuition discriminate.
  - reflexivity.
  - reflexivity.
  - reflexivity.
  - reflexivity.
  - reflexivity.
  - reflexivity.
  - exists d. split; [exact Hd |]. rewrite Hsum. reflexivity.
Defined.

(** X4: [lca_operations] reads the three power values of every entry of
    [operations], not only of the last one: the first entry that lacks one
    of them makes the call raise [KeyError] for a key it lacks, whatever
    the later entries hold. *)
Theorem lca_operations_incomplete_entry_raises
    (operations earlier later : table) (k : string) (op : dict Q) :
  operations = (earlier ++ (k, op) :: later)%list ->
  forallb (fun o => has_keys (snd o) operation_keys) earlier = true ->
  has_keys op operation_keys = false ->
  exists key,
    In key operation_keys /\ has_key op key = false
    /\ lca_operations operations = Raise (KeyError key).
Proof.
  intros -> Hearlier Hop. unfold lca_operations.
  match goal with |- context [for_items _ ?b _] => set (body := b) end.
  assert (Hrun : forall ops s,
             forallb (fun o => has_keys (snd o) operation_keys) ops = true ->
             exists s', for_items ops body s = Ok s').
  { induction ops as [| [k0 o0] rest IH]; intros s Hk.
    - exists s. reflexivity.
    - simpl in Hk. apply andb_prop in Hk as [Hk0 Hk].
      cbn [for_items]. subst body. cbv beta. split_keys Hk0.
      rewrite !getitem_val by assumption. cbn [bind]. apply IH. exact Hk. }
  destruct (Hrun earlier [] Hearlier) as (s' & Hs').
  rewrite for_items_app, Hs'. cbn [bind for_items].
  subst body. cbv beta. unfold getitem.
  destruct (dict_get op "cpe_power_kwh") eqn:E1; cbn [bind];
    [| exists "cpe_power_kwh"; unfold has_key; rewrite E1; simpl; tauto].
  destruct (dict_get op "base_station_pwr_kwh") eqn:E2; cbn [bind];
    [| exists "base_station_pwr_kwh"; unfold has_key; rewrite E2; simpl;
       tauto].
  destruct (dict_get op "terminal_unit_pwr_kwh") eqn:E3; cbn [bind];
    [| exists "terminal_unit_pwr_kwh"; unfold has_key; rewrite E3; simpl;
       tauto].
  exfalso. unfold has_keys, has_key in Hop. simpl in Hop.
  rewrite E1, E2, E3 in Hop. discriminate.
Qed.

Lemma lca_operations_incomplete_entry_raises_witness :
  lca_operations sample_operations_incomplete
  = Raise (KeyError "base_station_pwr_kwh").
Proof.
  destruct (lca_operations_incomplete_entry_raises
              sample_operations_incomplete
              [("fiber", [("cpe_power_kwh", 5); ("base_station_pwr_kwh", 7);
                          ("terminal_unit_pwr_kwh", 11)])]
              [("copper", [("cpe_power_kwh", 1); ("base_station_pwr_kwh", 2);
                           ("terminal_unit_pwr_kwh", 3)])]
              "wireless"
              [("cpe_power_kwh", 5); ("terminal_unit_pwr_kwh", 11)]
              eq_refl eq_refl eq_refl)
    as (key & _ & _ & Hraise).
  pose proof Hraise as Hkey. vm_compute in Hkey. injection Hkey as Hkey.
  rewrite Hkey. exact Hraise.
Defined.

(** ** Further properties of remove_small_shapes *)

Lemma filter_all {A : Type} (f : A -> bool) (l : list A) :
  (forall y, In y l -> f y = true) -> filter f l = l.
Proof.
  induction l as [| a l IH]; simpl; intros H; [reflexivity |].
  rewrite (H a (or_introl eq_refl)). f_equal. apply IH. auto.
Qed.

Lemma filter_length_split {A : Type} (f : A -> bool) (l : list A) :
  List.length l
  = (List.length (filter f l)
     + List.length (filter (fun y => negb (f y)) l))%nat.
Proof.
  induction l as [| a l IH]; simpl; [reflexivity |].
  destruct (f a); simpl; lia.
Qed.

(** The parts that pruning drops weigh at most the threshold each. *)
Lemma pruned_area_bound (t : Q) (ps : list polygon) :
  sumQ (map polygon_area ps)
  <= sumQ (map polygon_area (filter (fun y => Qltb t (polygon_area y)) ps))
     + inject_Z (Z.of_nat
                   (List.length
                      (filter (fun y => negb (Qltb t (polygon_area y))) ps)))
       * t.
Proof.
  induction ps as [| p ps IH].
  - unfold sumQ. simpl. change (inject_Z 0) with 0. lra.
  - cbn [filter map].
    destruct (Qltb t (polygon_area p)) eqn:E; cbn [negb map List.length].
    + unfold sumQ in *. cbn [fold_right]. lra.
    + apply Qltb_ge in E. rewrite Nat2Z.inj_succ, <- Z.add_1_l.
      rewrite inject_Z_plus. unfold sumQ in *. cbn [fold_right].
      change (inject_Z 1) with 1. lra.
Qed.

(** Pruning parts that have an area adds no area. *)
Lemma pruned_area_le (t : Q) (ps : list polygon) :
  Forall (fun p => 0 <= polygon_area p) ps ->
  sumQ (map polygon_area (filter (fun y => Qltb t (polygon_area y)) ps))
  <= sumQ (map polygon_area ps).
Proof.
  induction 1 as [| p ps Hp _ IH]; simpl; [apply Qle_refl |].
  destruct (Qltb t (polygon_area p)); unfold sumQ in *; simpl; lra.
Qed.

Lemma shape_threshold_unlisted (x : feature) :
  ~ In (GID_0 x) ["CHL"; "IDN"; "RUS"; "GRL"; "CAN"; "USA"] ->
  shape_threshold x = if Qltb 50 (area (geometry x)) then 0.1 else 0.001.
Proof.
  intros Hnot. unfold shape_threshold.
  destruct (str_in (GID_0 x) ["CHL"; "IDN"]) eqn:E1.
  { exfalso. apply Hnot. unfold str_in in E1.
    apply existsb_exists in E1 as (c & Hc & Heq).
    apply String.eqb_eq in Heq. subst c. simpl in Hc |- *. tauto. }
  destruct (str_in (GID_0 x) ["RUS"; "GRL"; "CAN"; "USA"]) eqn:E2.
  { exfalso. apply Hnot. unfold str_in in E2.
    apply existsb_exists in E2 as (c & Hc & Heq).
    apply String.eqb_eq in Heq. subst c. simpl in Hc |- *. tauto. }
  reflexivity.
Qed.

(** The threshold of a pruned feature is not above the one it was pruned
    with. *)
Lemma shape_threshold_after (x : feature) (kept : list polygon) :
  sumQ (map polygon_area kept) <= area (geometry x) ->
  shape_threshold (with_geometry x (MultiPolygon kept)) <= shape_threshold x.
Proof.
  intros Hle. unfold shape_threshold, with_geometry. cbn [GID_0 geometry area].
  destruct (str_in (GID_0 x) ["CHL"; "IDN"]); [apply Qle_refl |].
  destruct (str_in (GID_0 x) ["RUS"; "GRL"; "CAN"; "USA"]); [apply Qle_refl |].
  cbv zeta.
  destruct (Qltb 50 (sumQ (map polygon_area kept))) eqn:E1;
    destruct (Qltb 50 (area (geometry x))) eqn:E2;
    try (apply Qle_refl); try (vm_compute; discriminate).
  apply Qltb_lt in E1. apply Qltb_ge in E2. lra.
Qed.

(** X5: pruning is idempotent on valid shapes: when every part of the
    geometry has a non-negative area, applying [remove_small_shapes] to a
    feature that carries an already pruned geometry returns that geometry
    unchanged. *)
Theorem remove_small_shapes_idempotent (x : feature) (g : geom) :
  Forall (fun p => 0 <= polygon_area p) (geoms (geometry x)) ->
  remove_small_shapes x = Some g ->
  remove_small_shapes (with_geometry x g) = Some g.
Proof.
  intros Hvalid Hres. unfold remove_small_shapes in Hres.
  destruct (geom_type (geometry x) =? "Polygon") eqn:Ep.
  { injection Hres as <-. unfold remove_small_shapes, with_geometry.
    cbn [geometry]. rewrite Ep. reflexivity. }
  destruct (geom_type (geometry x) =? "MultiPolygon") eqn:Em;
    [| discriminate].
  cbv zeta in Hres.
  destruct (Qltb (area (geometry x)) 0.01) eqn:Ea.
  { injection Hres as <-. unfold remove_small_shapes, with_geometry.
    cbn [geometry]. rewrite Ep, Em, Ea. reflexivity. }
  injection Hres as <-.
  apply String.eqb_eq in Em.
  destruct (geom_type_MultiPolygon _ Em) as [ps Hg].
  rewrite Hg in Hvalid |- *. cbn [geoms] in Hvalid |- *.
  set (kept := filter (fun y => Qltb (shape_threshold x) (polygon_area y)) ps).
  unfold remove_small_shapes. cbn [with_geometry geometry geom_type geoms].
  cbn [String.eqb Ascii.eqb Bool.eqb andb]. cbv zeta.
  destruct (Qltb (area (MultiPolygon kept)) 0.01); [reflexivity |].
  f_equal. f_equal. apply filter_all. intros y Hy.
  assert (Hle : shape_threshold (with_geometry x (MultiPolygon kept))
                <= shape_threshold x).
  { apply shape_threshold_after. rewrite Hg. cbn [area].
    apply pruned_area_le. exact Hvalid. }
  subst kept. apply filter_In in Hy as [_ Hy]. apply Qltb_lt in Hy.
  apply Qltb_lt. exact (Qle_lt_trans _ _ _ Hle Hy).
Qed.

Lemma remove_small_shapes_idempotent_witness :
  exists g,
    remove_small_shapes mainland_and_islet = Some g
    /\ num_parts g = 1%nat
    /\ remove_small_shapes (with_geometry mainland_and_islet g) = Some g.
Proof.
  destruct (remove_small_shapes mainland_and_islet) as [g |] eqn:E;
    [| vm_compute in E; discriminate].
  exists g. split; [reflexivity |].
  split; [vm_compute in E; injection E as <-; reflexivity |].
  apply (remove_small_shapes_idempotent mainland_and_islet g); [| exact E].
  repeat constructor; vm_compute; discriminate.
Defined.

Lemma inject_Z_of_nat_le (n m : nat) :
  (n <= m)%nat -> inject_Z (Z.of_nat n) <= inject_Z (Z.of_nat m).
Proof.
  intros H. unfold Qle, inject_Z. cbn [Qnum Qden]. lia.
Qed.

(** X6: pruning loses at most the threshold per dropped part: the area of
    the input is at most the area of the returned geometry plus the number
    of dropped parts times the threshold; and when every part has a
    non-negative area the returned geometry is not larger than the input. *)
Theorem remove_small_shapes_area_lost (x : feature) (g : geom) :
  remove_small_shapes x = Some g ->
  area (geometry x)
  <= area g
     + inject_Z (Z.of_nat (num_parts (geometry x) - num_parts g))
       * shape_threshold x
  /\ (Forall (fun p => 0 <= polygon_area p) (geoms (geometry x)) ->
      area g <= area (geometry x)).
Proof.
  intros Hres. unfold remove_small_shapes in Hres.
  assert (Hsame : g = geometry x ->
            area (geometry x)
            <= area g
               + inject_Z (Z.of_nat (num_parts (geometry x) - num_parts g))
                 * shape_threshold x
            /\ (Forall (fun p => 0 <= polygon_area p) (geoms (geometry x)) ->
                area g <= area (geometry x))).
  { intros ->. rewrite Nat.sub_diag. change (inject_Z (Z.of_nat 0)) with 0.
    split; [lra | intros _; apply Qle_refl]. }
  destruct (geom_type (geometry x) =? "Polygon");
    [injection Hres as <-; apply Hsame; reflexivity |].
  destruct (geom_type (geometry x) =? "MultiPolygon") eqn:Em;
    [| discriminate].
  cbv zeta in Hres.
  destruct (Qltb (area (geometry x)) 0.01);
    [injection Hres as <-; apply Hsame; reflexivity |].
  injection Hres as <-. clear Hsame.
  apply String.eqb_eq in Em.
  destruct (geom_type_MultiPolygon _ Em) as [ps Hg].
  rewrite Hg. unfold num_parts. cbn [geoms area].
  split; [| apply pruned_area_le].
  rewrite (filter_length_split
             (fun y => Qltb (shape_threshold x) (polygon_area y)) ps) at 1.
  rewrite Nat.add_comm, Nat.add_sub.
  apply pruned_area_bound.
Qed.

Lemma remove_small_shapes_area_lost_witness :
  exists g,
    remove_small_shapes mainland_and_islet = Some g
    /\ area (geometry mainland_and_islet) <= area g + 1 * 0.001
    /\ area g <= area (geometry mainland_and_islet).
Proof.
  destruct (remove_small_shapes mainland_and_islet) as [g |] eqn:E;
    [| vm_compute in E; discriminate].
  destruct (remove_small_shapes_area_lost mainland_and_islet g E)
    as [Hlost Hle].
  exists g. split; [reflexivity |]. split.
  - vm_compute in E. injection E as <-. exact Hlost.
  - apply Hle. repeat constructor; vm_compute; discriminate.
Defined.

(** X7: outside the six listed countries, pruning keeps at least one part
    of a multi-polygon of total area at least 0.01 that has at most nine
    parts, and of one of area above 50 that has at most 400 parts.  In
    both cases the parts that could all be dropped weigh together at most
    nine tenths of the area (9 x 0.001 against 0.01, 9 x 0.1 and 400 x 0.1
    against 50), a margin far above the rounding of the areas. *)
Theorem remove_small_shapes_keeps_a_part (x : feature) :
  geom_type (geometry x) = "MultiPolygon" ->
  0.01 <= area (geometry x) ->
  ~ In (GID_0 x) ["CHL"; "IDN"; "RUS"; "GRL"; "CAN"; "USA"] ->
  (num_parts (geometry x) <= 9)%nat
  \/ (50 < area (geometry x) /\ (num_parts (geometry x) <= 400)%nat) ->
  exists g, remove_small_shapes x = Some g /\ (1 <= num_parts g)%nat.
Proof.
  intros Hm Ha Hnot Hcond.
  assert (Hbig : inject_Z (Z.of_nat (num_parts (geometry x)))
                 * shape_threshold x
                 <= 0.9 * area (geometry x)).
  { rewrite (shape_threshold_unlisted x Hnot).
    destruct Hcond as [Hn | [H50 Hn]].
    - apply inject_Z_of_nat_le in Hn.
      change (inject_Z (Z.of_nat 9)) with 9 in Hn.
      destruct (Qltb 50 (area (geometry x))) eqn:E.
      + apply Qltb_lt in E. lra.
      + lra.
    - apply inject_Z_of_nat_le in Hn.
      change (inject_Z (Z.of_nat 400)) with 400 in Hn.
      apply Qltb_lt in H50 as E. rewrite E. lra. }
  destruct (geom_type_MultiPolygon _ Hm) as [ps Hg].
  eexists. split; [apply (remove_small_shapes_prunes x ps Hg Ha) |].
  unfold num_parts. cbn [geoms].
  destruct (filter (fun y => Qltb (shape_threshold x) (polygon_area y)) ps)
    as [| y kept] eqn:Ek; [| simpl; lia].
  exfalso.
  pose proof (pruned_area_bound (shape_threshold x) ps) as Hbound.
  pose proof (filter_length_split
                (fun y => Qltb (shape_threshold x) (polygon_area y)) ps)
    as Hlen.
  rewrite Ek in Hbound, Hlen. cbn [List.length Nat.add] in Hlen.
  rewrite <- Hlen in Hbound.
  rewrite Hg in Hbig, Ha. unfold num_parts in Hbig.
  cbn [geoms area] in Hbig, Ha.
  unfold sumQ at 2 in Hbound. cbn [map fold_right] in Hbound. lra.
Qed.

Lemma remove_small_shapes_keeps_a_part_witness :
  exists g, remove_small_shapes nine_parts = Some g /\ (1 <= num_parts g)%nat.
Proof.
  apply (remove_small_shapes_keeps_a_part nine_parts).
  - reflexivity.
  - vm_compute. discriminate.
  - simpl. intuition discriminate.
  - left. vm_compute. lia.
Defined.

(** ** Further properties of process_regions *)

Lemma existsb_path_app (p : path) (l1 l2 : list path) :
  existsb (path_eqb p) l1 = true -> existsb (path_eqb p) (l1 ++ l2) = true.
Proof. intros H. rewrite existsb_app, H. reflexivity. Qed.

Lemma existsb_path_last (p : path) (l : list path) :
  existsb (path_eqb p) (l ++ [p]) = true.
Proof.
  rewrite existsb_app. simpl.
  rewrite (proj2 (path_eqb_eq p p) eq_refl). apply orb_true_r.
Qed.

Section RegionsFurther.

Variable simplify : Q -> geom -> geom.
Variable country_iso3 : string.

Lemma level_layer_country (regions : list feature)
    (rows : list pruned_feature) :
  level_layer simplify country_iso3 regions = Ok rows ->
  Forall (fun r => pruned_GID_0 r = country_iso3) rows.
Proof.
  unfold level_layer, assign_applied.
  destruct (map (fun r => mkFeature (GID_0 r) (simplify 0.005 (geometry r)))
              (filter (fun r => GID_0 r =? country_iso3) regions))
    as [| r0 rest] eqn:E; [discriminate |].
  intros H.
  assert (Hrows : rows = apply_remove_small_shapes (r0 :: rest))
    by (injection H as <-; reflexivity).
  rewrite Hrows, <- E. unfold apply_remove_small_shapes.
  apply Forall_forall. intros r Hr.
  apply in_map_iff in Hr as (x & <- & Hx).
  apply in_map_iff in Hx as (x0 & <- & Hx0).
  apply filter_In in Hx0 as [_ Heq]. apply String.eqb_eq in Heq.
  exact Heq.
Qed.

Lemma inside_regions_folder :
  inside_regions country_iso3 (regions_folder country_iso3).
Proof. exists []. rewrite app_nil_r. reflexivity. Qed.

Lemma inside_regions_output (regional_level : nat) :
  inside_regions country_iso3 (path_processed country_iso3 regional_level).
Proof. unfold path_processed. eexists. reflexivity. Qed.

(** What one level may do to the world, whatever its outcome. *)
Lemma process_level_effects (regional_level : nat) (w w' : world)
    (r : result unit) :
  process_level simplify country_iso3 regional_level w = (r, w') ->
  raw_layers w' = raw_layers w
  /\ writable w' = writable w
  /\ (exists added,
        fs w' = (fs w ++ added)%list
        /\ Forall (inside_regions country_iso3) added)
  /\ (exists effects,
        trace w' = (trace w ++ effects)%list
        /\ Forall (writes_only country_iso3) effects)
  /\ (r = Ok tt ->
      writable w (path_processed country_iso3 regional_level) = true ->
      existsb (path_eqb (path_processed country_iso3 regional_level)) (fs w')
      = true).
Proof.
  unfold process_level, io_bind, path_exists, print, io_ret, io_lift.
  destruct (existsb (path_eqb (path_processed country_iso3 regional_level))
              (fs w)) eqn:Hdone.
  { intros H. injection H as <- <-.
    repeat split; try reflexivity.
    - exists []. rewrite app_nil_r. split; [reflexivity | constructor].
    - exists []. rewrite app_nil_r. split; [reflexivity | constructor].
    - intros _ _. exact Hdone. }
  cbn [fs emit].
  destruct (existsb (path_eqb (regions_folder country_iso3)) (fs w)) eqn:Hf.
  - unfold read_file. cbn [raw_layers emit].
    destruct (raw_layers w (path_regions regional_level)) as [layer |].
    + destruct (level_layer simplify country_iso3 layer) as [rows | err]
        eqn:El.
      * unfold try_except, to_file. cbn [writable emit].
        destruct (writable w (path_processed country_iso3 regional_level))
          eqn:Hw; intros H; injection H as <- <-;
          cbn [raw_layers writable fs trace emit add_path].
        -- repeat split; try reflexivity.
           ++ eexists [_]. split; [reflexivity |].
              constructor; [apply inside_regions_output | constructor].
           ++ eexists [_; _; _]. rewrite <- !app_assoc.
              split; [reflexivity |]. repeat constructor.
              ** apply inside_regions_output.
              ** apply (level_layer_country layer rows El).
           ++ intros _ _. apply existsb_path_last.
        -- repeat split; try reflexivity.
           ++ exists []. rewrite app_nil_r.
              split; [reflexivity | constructor].
           ++ eexists [_; _; _; _]. rewrite <- !app_assoc.
              split; [reflexivity |]. repeat constructor.
           ++ intros _ Hw'. discriminate.
      * intros H. injection H as <- <-.
        cbn [raw_layers writable fs trace emit].
        repeat split; try reflexivity.
        -- exists []. rewrite app_nil_r. split; [reflexivity | constructor].
        -- eexists [_; _]. rewrite <- !app_assoc. split; [reflexivity |].
           repeat constructor.
        -- intros Hr. discriminate.
    + intros H. injection H as <- <-. cbn [raw_layers writable fs trace emit].
      repeat split; try reflexivity.
      * exists []. rewrite app_nil_r. split; [reflexivity | constructor].
      * eexists [_]. split; [reflexivity |]. repeat constructor.
      * intros Hr. discriminate.
  - unfold mkdir. cbn [fs emit]. rewrite Hf.
    destruct (existsb (path_eqb (removelast (regions_folder country_iso3)))
                (fs w)) eqn:Hp.
    + unfold read_file. cbn [raw_layers emit add_path].
      destruct (raw_layers w (path_regions regional_level)) as [layer |].
      * destruct (level_layer simplify country_iso3 layer) as [rows | err]
          eqn:El.
        -- unfold try_except, to_file. cbn [writable emit add_path].
           destruct (writable w (path_processed country_iso3 regional_level))
             eqn:Hw; intros H; injection H as <- <-;
             cbn [raw_layers writable fs trace emit add_path].
           ++ repeat split; try reflexivity.
              ** eexists [_; _]. rewrite <- !app_assoc.
                 split; [reflexivity |].
                 constructor; [apply inside_regions_folder |].
                 constructor; [apply inside_regions_output | constructor].
              ** eexists [_; _; _; _]. rewrite <- !app_assoc.
                 split; [reflexivity |]. repeat constructor.
                 --- apply inside_regions_output.
                 --- apply (level_layer_country layer rows El).
              ** intros _ _. apply existsb_path_last.
           ++ repeat split; try reflexivity.
              ** eexists [_]. split; [reflexivity |].
                 constructor; [apply inside_regions_folder | constructor].
              ** eexists [_; _; _; _; _]. rewrite <- !app_assoc.
                 split; [reflexivity |]. repeat constructor.
              ** intros _ Hw'. discriminate.
        -- intros H. injection H as <- <-.
           cbn [raw_layers writable fs trace emit add_path].
           repeat split; try reflexivity.
           ++ eexists [_]. split; [reflexivity |].
              constructor; [apply inside_regions_folder | constructor].
           ++ eexists [_; _; _]. rewrite <- !app_assoc.
              split; [reflexivity |]. repeat constructor.
           ++ intros Hr. discriminate.
      * intros H. injection H as <- <-.
        cbn [raw_layers writable fs trace emit add_path].
        repeat split; try reflexivity.
        -- eexists [_]. split; [reflexivity |].
           constructor; [apply inside_regions_folder | constructor].
        -- eexists [_; _]. rewrite <- !app_assoc. split; [reflexivity |].
           repeat constructor.
        -- intros Hr. discriminate.
    + intros H. injection H as <- <-. cbn [raw_layers writable fs trace emit].
      repeat split; try reflexivity.
      * exists []. rewrite app_nil_r. split; [reflexivity | constructor].
      * eexists [_]. split; [reflexivity |]. repeat constructor.
      * intros Hr. discriminate.
Qed.

Lemma for_levels_effects (levels : list nat) (w w' : world) (r : result unit) :
  for_levels simplify country_iso3 levels w = (r, w') ->
  raw_layers w' = raw_layers w
  /\ writable w' = writable w
  /\ (exists added,
        fs w' = (fs w ++ added)%list
        /\ Forall (inside_regions country_iso3) added)
  /\ (exists effects,
        trace w' = (trace w ++ effects)%list
        /\ Forall (writes_only country_iso3) effects)
  /\ (r = Ok tt ->
      (forall l, In l levels ->
         writable w (path_processed country_iso3 l) = true) ->
      forall l, In l levels ->
        existsb (path_eqb (path_processed country_iso3 l)) (fs w') = true).
Proof.
  revert w. induction levels as [| l rest IH]; intros w Hrun.
  - injection Hrun as <- <-.
    repeat split; try reflexivity.
    + exists []. rewrite app_nil_r. split; [reflexivity | constructor].
    + exists []. rewrite app_nil_r. split; [reflexivity | constructor].
    + intros _ _ l [].
  - cbn [for_levels] in Hrun. unfold io_bind in Hrun.
    destruct (process_level simplify country_iso3 l w) as [r1 w1] eqn:E1.
    destruct (process_level_effects l w w1 r1 E1)
      as (Hraw1 & Hwr1 & (a1 & Hfs1 & Ha1) & (e1 & Htr1 & He1) & Hout1).
    destruct r1 as [[] | e].
    + destruct (IH w1 Hrun)
        as (Hraw & Hwr & (a & Hfs & Ha) & (ev & Htr & Hev) & Hout).
      split; [congruence |]. split; [congruence |]. split; [| split].
      * exists (a1 ++ a)%list. rewrite Hfs, Hfs1, app_assoc.
        split; [reflexivity | apply Forall_app; split; assumption].
      * exists (e1 ++ ev)%list. rewrite Htr, Htr1, app_assoc.
        split; [reflexivity | apply Forall_app; split; assumption].
      * intros Hr Hall l' [<- | Hin].
        -- rewrite Hfs. apply existsb_path_app.
           apply (Hout1 eq_refl). apply Hall. left. reflexivity.
        -- apply (Hout Hr); [| exact Hin].
           intros l0 Hl0. rewrite Hwr1. apply Hall. right. exact Hl0.
    + injection Hrun as <- <-.
      split; [exact Hraw1 |]. split; [exact Hwr1 |].
      split; [exists a1; split; assumption |].
      split; [exists e1; split; assumption |].
      intros Hr. discriminate.
Qed.

Lemma for_levels_existing (levels : list nat) (w : world) :
  (forall l, In l levels ->
     existsb (path_eqb (path_processed country_iso3 l)) (fs w) = true) ->
  for_levels simplify country_iso3 levels w = (Ok tt, w).
Proof.
  induction levels as [| l rest IH]; intros Hall; [reflexivity |].
  cbn [for_levels]. unfold process_level, io_bind, path_exists.
  rewrite (Hall l (or_introl eq_refl)). unfold io_ret.
  apply IH. intros l' Hin. apply Hall. right. exact Hin.
Qed.

(** X8: [process_regions] can be resumed and repeated: levels whose output
    exists are skipped without reading, printing or writing, so a call in a
    world where every output exists changes nothing; and after a call that
    returned with every write succeeding, a second call changes nothing. *)
Theorem process_regions_rerun_is_noop (gid_level : nat) (w : world) :
  ((forall l, In l (seq 1 gid_level) ->
      existsb (path_eqb (path_processed country_iso3 l)) (fs w) = true) ->
   process_regions simplify country_iso3 gid_level w = (Ok tt, w))
  /\ (forall w',
        process_regions simplify country_iso3 gid_level w = (Ok tt, w') ->
        (forall l, In l (seq 1 gid_level) ->
           writable w (path_processed country_iso3 l) = true) ->
        process_regions simplify country_iso3 gid_level w' = (Ok tt, w')).
Proof.
  split.
  - apply for_levels_existing.
  - intros w' Hrun Hall. unfold process_regions in *.
    apply for_levels_existing.
    destruct (for_levels_effects _ _ _ _ Hrun) as (_ & _ & _ & _ & Hout).
    apply (Hout eq_refl Hall).
Qed.

(** X9: a raw boundary layer that cannot be read is not caught: the loop
    stops at that level with the reader's error, after the level has been
    announced and its folder made, and no later level is processed. *)
Theorem process_regions_missing_raw_layer (regional_level : nat)
    (rest : list nat) (w : world) :
  folder_available country_iso3 w ->
  existsb (path_eqb (path_processed country_iso3 regional_level)) (fs w)
  = false ->
  raw_layers w (path_regions regional_level) = None ->
  for_levels simplify country_iso3 (regional_level :: rest) w
  = (Raise (DriverError (join (path_regions regional_level))),
     level_started country_iso3 regional_level w).
Proof.
  intros Hav Hnew Hraw. cbn [for_levels].
  unfold process_level, io_bind, path_exists, print, io_ret, level_started.
  rewrite Hnew. cbn [fs emit].
  destruct (existsb (path_eqb (regions_folder country_iso3)) (fs w)) eqn:Hf.
  - unfold read_file. cbn [raw_layers emit]. rewrite Hraw. reflexivity.
  - destruct Hav as [Hav | Hav]; [congruence |].
    unfold mkdir. cbn [fs emit]. rewrite Hf, Hav.
    unfold read_file. cbn [raw_layers emit add_path]. rewrite Hraw.
    reflexivity.
Qed.

(** X10: the regions folder is made with [os.mkdir], which needs the
    country folder: when neither exists, the loop stops at the first level
    to process with [FileNotFoundError], having only announced the level. *)
Theorem process_regions_needs_country_folder (regional_level : nat)
    (rest : list nat) (w : world) :
  existsb (path_eqb (path_processed country_iso3 regional_level)) (fs w)
  = false ->
  existsb (path_eqb (regions_folder country_iso3)) (fs w) = false ->
  existsb (path_eqb (removelast (regions_folder country_iso3))) (fs w)
  = false ->
  for_levels simplify country_iso3 (regional_level :: rest) w
  = (Raise (FileNotFoundError (join (regions_folder country_iso3))),
     emit (Printed ("Processing GID_" ++ string_of_nat regional_level
                    ++ " region shapes for " ++ country_iso3)) w).
Proof.
  intros Hnew Hf Hp. cbn [for_levels].
  unfold process_level, io_bind, path_exists, print, io_ret.
  rewrite Hnew. cbn [fs emit]. rewrite Hf.
  unfold mkdir. cbn [fs emit]. rewrite Hf, Hp. reflexivity.
Qed.

(** X11: whatever its outcome, [process_regions] leaves the raw layers
    alone, deletes no path, and creates paths only inside the regions
    folder of the country. *)
Theorem process_regions_stays_in_regions_folder (gid_level : nat)
    (w w' : world) (r : result unit) :
  process_regions simplify country_iso3 gid_level w = (r, w') ->
  raw_layers w' = raw_layers w
  /\ exists added,
       fs w' = (fs w ++ added)%list
       /\ Forall (inside_regions country_iso3) added.
Proof.
  intros Hrun. unfold process_regions in Hrun.
  destruct (for_levels_effects _ _ _ _ Hrun) as (Hraw & _ & Hfs & _).
  split; assumption.
Qed.

(** X12: whatever its outcome, every layer that [process_regions] writes
    lies in the regions folder of the country and holds rows of that
    country only. *)
Theorem process_regions_writes_only_country (gid_level : nat)
    (w w' : world) (r : result unit) :
  process_regions simplify country_iso3 gid_level w = (r, w') ->
  exists effects,
    trace w' = (trace w ++ effects)%list
    /\ Forall (writes_only country_iso3) effects.
Proof.
  intros Hrun. unfold process_regions in Hrun.
  destruct (for_levels_effects _ _ _ _ Hrun) as (_ & _ & _ & Htr & _).
  exact Htr.
Qed.

(** X26: a raw layer that holds no row of the country stops the loop:
    the assignment of the pruned geometries raises [ValueError] outside the
    [try], after the level was announced, its folder made and the layer
    read; nothing is written and no later level is processed. *)
Theorem process_regions_no_country_row (regional_level : nat)
    (rest : list nat) (w : world) (layer : list feature) :
  folder_available country_iso3 w ->
  existsb (path_eqb (path_processed country_iso3 regional_level)) (fs w)
  = false ->
  raw_layers w (path_regions regional_level) = Some layer ->
  country_rows country_iso3 layer = 0%nat ->
  exists message,
    for_levels simplify country_iso3 (regional_level :: rest) w
    = (Raise (ValueError message),
       emit (ReadFile (path_regions regional_level))
         (level_started country_iso3 regional_level w)).
Proof.
  intros Hav Hnew Hraw Hrows.
  destruct (level_layer_no_row simplify country_iso3 layer Hrows)
    as (message & Hlayer).
  exists message. cbn [for_levels]. unfold io_bind at 1.
  rewrite (process_level_read simplify country_iso3 regional_level w layer
             Hav Hraw Hnew).
  unfold io_bind, io_lift. rewrite Hlayer. reflexivity.
Qed.

End RegionsFurther.

Lemma process_regions_rerun_is_noop_witness :
  exists w',
    process_regions keep_geometry "KEN" 2 world_all_writable = (Ok tt, w')
    /\ List.length (trace w') = 7%nat
    /\ process_regions keep_geometry "KEN" 2 w' = (Ok tt, w').
Proof.
  destruct (process_regions keep_geometry "KEN" 2 world_all_writable)
    as [r w'] eqn:E.
  assert (Hr : r = Ok tt).
  { change r with (fst (r, w')). rewrite <- E. vm_compute. reflexivity. }
  subst r. exists w'. split; [reflexivity |]. split.
  - change w' with (snd (Ok tt, w')). rewrite <- E. vm_compute. reflexivity.
  - apply (proj2 (process_regions_rerun_is_noop keep_geometry "KEN" 2
                    world_all_writable) w' E).
    intros l _. reflexivity.
Defined.

Lemma process_regions_missing_raw_layer_witness :
  process_regions keep_geometry "KEN" 2 world_without_level_2
  = (Raise (DriverError "data/raw/boundaries/gadm36_2.shp"),
     level_started "KEN" 2
       (snd (process_level keep_geometry "KEN" 1 world_without_level_2))).
Proof.
  unfold process_regions. cbn [seq for_levels]. unfold io_bind at 1.
  destruct (process_level keep_geometry "KEN" 1 world_without_level_2)
    as [r w1] eqn:E.
  assert (Hr : r = Ok tt).
  { change r with (fst (r, w1)). rewrite <- E. vm_compute. reflexivity. }
  subst r. cbn [snd].
  assert (Hw1 : w1 = snd (process_level keep_geometry "KEN" 1
                            world_without_level_2))
    by (rewrite E; reflexivity).
  apply (process_regions_missing_raw_layer keep_geometry "KEN" 2 [] w1).
  - left. rewrite Hw1. vm_compute. reflexivity.
  - rewrite Hw1. vm_compute. reflexivity.
  - rewrite Hw1. vm_compute. reflexivity.
Defined.

Lemma process_regions_needs_country_folder_witness :
  process_regions keep_geometry "KEN" 2 world_without_folder
  = (Raise (FileNotFoundError "results/processed/KEN/regions"),
     emit (Printed "Processing GID_1 region shapes for KEN")
       world_without_folder).
Proof.
  apply (process_regions_needs_country_folder keep_geometry "KEN" 1 [2%nat]
           world_without_folder); reflexivity.
Defined.

Lemma process_regions_stays_in_regions_folder_witness :
  exists w' added,
    process_regions keep_geometry "KEN" 2 sample_world = (Ok tt, w')
    /\ fs w' = (fs sample_world ++ added)%list
    /\ Forall (inside_regions "KEN") added.
Proof.
  destruct (process_regions keep_geometry "KEN" 2 sample_world)
    as [r w'] eqn:E.
  assert (Hr : r = Ok tt).
  { change r with (fst (r, w')). rewrite <- E. vm_compute. reflexivity. }
  destruct (process_regions_stays_in_regions_folder keep_geometry "KEN" 2
              sample_world w' r E) as (_ & added & Hfs & Hin).
  subst r. exists w', added. split; [reflexivity |]. split; assumption.
Defined.

Lemma process_regions_writes_only_country_witness :
  exists w' effects,
    process_regions keep_geometry "KEN" 2 sample_world = (Ok tt, w')
    /\ trace w' = effects
    /\ Forall (writes_only "KEN") effects.
Proof.
  destruct (process_regions keep_geometry "KEN" 2 sample_world)
    as [r w'] eqn:E.
  assert (Hr : r = Ok tt).
  { change r with (fst (r, w')). rewrite <- E. vm_compute. reflexivity. }
  destruct (process_regions_writes_only_country keep_geometry "KEN" 2
              sample_world w' r E) as (effects & Htr & Hok).
  subst r. exists w', effects. split; [reflexivity |].
  split; [rewrite Htr; reflexivity | exact Hok].
Defined.

Lemma process_regions_no_country_row_witness :
  exists message,
    process_regions keep_geometry "UGA" 2 world_other_country
    = (Raise (ValueError message),
       emit (ReadFile ["data"; "raw"; "boundaries"; "gadm36_1.shp"])
         (level_started "UGA" 1 world_other_country))
    /\ trace (emit (ReadFile ["data"; "raw"; "boundaries"; "gadm36_1.shp"])
                (level_started "UGA" 1 world_other_country))
       = [Printed "Processing GID_1 region shapes for UGA";
          MadeDir ["results"; "processed"; "UGA"; "regions"];
          ReadFile ["data"; "raw"; "boundaries"; "gadm36_1.shp"]].
Proof.
  destruct (process_regions_no_country_row keep_geometry "UGA" 1 [2%nat]
              world_other_country [single_polygon; a_point])
    as (message & Hrun).
  - right. reflexivity.
  - reflexivity.
  - reflexivity.
  - reflexivity.
  - exists message. split; [exact Hrun | reflexivity].
Defined.

(** ** Further properties of process_population_tif *)

Section PopulationFurther.

Variable covered : geom -> nat -> nat -> bool.
Variable centroid : geom -> point.

Lemma process_boundary_raises_KeyError (raster : list (list Q))
    (output : list region_record) (b : boundary_row) (e : exn) :
  process_boundary covered centroid raster output b = Raise e ->
  exists key, e = KeyError key /\ In key ["GID_0"; "NAME_1"; "GID_1"].
Proof.
  unfold process_boundary, try_catch, region_entry, getitem.
  destruct (dict_get (attrs b) "GID_0"); cbn [bind].
  2:{ intros H. injection H as <-. eexists. split; [reflexivity |].
      simpl. tauto. }
  destruct (dict_get (attrs b) "NAME_1"); cbn [bind].
  2:{ intros H. injection H as <-. eexists. split; [reflexivity |].
      simpl. tauto. }
  destruct (dict_get (attrs b) "GID_2"); cbn [bind]; [discriminate |].
  destruct (dict_get (attrs b) "GID_1"); cbn [bind]; [discriminate |].
  intros H. injection H as <-. eexists. split; [reflexivity |]. simpl. tauto.
Qed.

Lemma process_boundary_bad_row (raster : list (list Q))
    (output : list region_record) (b : boundary_row) :
  ~ regions_row b ->
  exists e, process_boundary covered centroid raster output b = Raise e.
Proof.
  intros Hbad. unfold process_boundary, try_catch, region_entry, getitem.
  destruct (dict_get (attrs b) "GID_0") eqn:E0; cbn [bind];
    [| eexists; reflexivity].
  destruct (dict_get (attrs b) "NAME_1") eqn:E1; cbn [bind];
    [| eexists; reflexivity].
  destruct (dict_get (attrs b) "GID_2") eqn:E2; cbn [bind].
  - exfalso. apply Hbad. unfold regions_row. rewrite E0, E1, E2.
    repeat split; try discriminate. left. discriminate.
  - destruct (dict_get (attrs b) "GID_1") eqn:E3; cbn [bind];
      [| eexists; reflexivity].
    exfalso. apply Hbad. unfold regions_row. rewrite E0, E1, E2, E3.
    repeat split; try discriminate. right. discriminate.
Qed.

(** X14: the list that the function returns has one record per row of the
    layer, in order, rows without population included: each record carries
    the geometry of its row, the zonal sum, the centroid coordinates (not
    rounded) and the geometry area times 12309; the file has no more rows
    than that list. *)
Theorem process_population_tif_output (boundaries : list boundary_row)
    (raster : list (list Q)) (csv output : list region_record) :
  process_population_tif covered centroid boundaries raster
  = Ok (csv, output) ->
  Forall2 (fun b r =>
             record_geometry r = boundary_geometry b
             /\ population r
                = zonal_sum covered (boundary_geometry b)
                    (zero_nonpositive raster) 255
             /\ record_area r = area (boundary_geometry b) * 12309
             /\ longitude r = fst (centroid (boundary_geometry b))
             /\ latitude r = snd (centroid (boundary_geometry b)))
    boundaries output
  /\ (List.length csv <= List.length output)%nat.
Proof.
  intros H.
  destruct (process_population_tif_rows covered centroid _ _ _ _ H)
    as (Hout & df & Hdf & ->).
  destruct (for_boundaries_rows covered centroid _ _ _ _ Hout) as (added & -> & Hrows).
  split; [exact Hrows |].
  apply mapM_astype_int_fields in Hdf. apply Forall2_length in Hdf.
  rewrite length_map, <- Hdf. apply filter_length_le.
Qed.

(** X15: a row that lacks the country code, the level-1 name or both id
    columns makes the whole call raise [KeyError] for one of 'GID_0',
    'NAME_1' and 'GID_1', wherever the row is in the layer: no file is
    written for the rows before it. *)
Theorem process_population_tif_bad_row (boundaries : list boundary_row)
    (raster : list (list Q)) (b : boundary_row) :
  In b boundaries ->
  ~ regions_row b ->
  exists key,
    process_population_tif covered centroid boundaries raster
    = Raise (KeyError key)
    /\ In key ["GID_0"; "NAME_1"; "GID_1"].
Proof.
  intros Hin Hbad.
  assert (Hloop : forall output,
             exists key,
               for_boundaries covered centroid raster boundaries output
               = Raise (KeyError key)
               /\ In key ["GID_0"; "NAME_1"; "GID_1"]).
  { induction boundaries as [| b0 rest IH]; [destruct Hin |].
    intros output. cbn [for_boundaries].
    destruct (process_boundary covered centroid raster output b0)
      as [o1 | e] eqn:Eb.
    - cbn [bind]. destruct Hin as [-> | Hin].
      + destruct (process_boundary_bad_row raster output b Hbad) as (e & He).
        congruence.
      + apply IH. exact Hin.
    - destruct (process_boundary_raises_KeyError _ _ _ _ Eb)
        as (key & -> & Hkey).
      exists key. split; [reflexivity | exact Hkey]. }
  destruct (Hloop []) as (key & Hrun & Hkey).
  exists key. split; [| exact Hkey].
  unfold process_population_tif. rewrite Hrun. reflexivity.
Qed.

End PopulationFurther.

Lemma process_population_tif_output_witness :
  exists csv output,
    process_population_tif sample_covered sample_centroid sample_boundaries
      sample_raster = Ok (csv, output)
    /\ map population output = [FloatCell 20; Null]
    /\ (List.length csv <= List.length output)%nat.
Proof.
  destruct (process_population_tif sample_covered sample_centroid
              sample_boundaries sample_raster) as [[csv output] | e] eqn:E.
  - exists csv, output. split; [reflexivity |].
    split; [vm_compute in E; injection E as _ <-; reflexivity |].
    exact (proj2 (process_population_tif_output _ _ _ _ _ _ E)).
  - vm_compute in E. discriminate.
Defined.

Lemma process_population_tif_bad_row_witness :
  process_population_tif sample_covered sample_centroid
    boundaries_without_name sample_raster = Raise (KeyError "NAME_1").
Proof.
  destruct (process_population_tif_bad_row sample_covered sample_centroid
              boundaries_without_name sample_raster
              (nth 1 boundaries_without_name (mkBoundary [] (Point (0, 0)))))
    as (key & Hraise & _).
  - right. left. reflexivity.
  - intros (_ & Hname & _). apply Hname. reflexivity.
  - pose proof Hraise as Hkey. vm_compute in Hkey. injection Hkey as Hkey.
    rewrite Hkey. exact Hraise.
Defined.

Lemma round_half_even_bound (q : Q) :
  - (1 # 2) <= inject_Z (round_half_even q) - q
  /\ inject_Z (round_half_even q) - q <= 1 # 2.
Proof.
  unfold round_half_even.
  pose proof (Qfloor_le q) as Hlo. pose proof (Qlt_floor q) as Hhi.
  rewrite inject_Z_plus in Hhi. change (inject_Z 1) with 1 in Hhi.
  destruct (Qltb (q - inject_Z (Qfloor q)) (1 # 2)) eqn:E1.
  { apply Qltb_lt in E1. split; lra. }
  apply Qltb_ge in E1.
  destruct (Qltb (1 # 2) (q - inject_Z (Qfloor q))) eqn:E2.
  { rewrite inject_Z_plus. change (inject_Z 1) with 1. split; lra. }
  apply Qltb_ge in E2.
  destruct (Z.even (Qfloor q)).
  - split; lra.
  - rewrite inject_Z_plus. change (inject_Z 1) with 1. split; lra.
Qed.

Lemma round4_bound (q : Q) :
  - (1 # 20000) <= round4 q - q /\ round4 q - q <= 1 # 20000.
Proof.
  unfold round4.
  destruct (round_half_even_bound (q * 10000)) as [Hlo Hhi].
  set (z := inject_Z (round_half_even (q * 10000))) in *.
  unfold Qdiv. change (/ 10000) with (1 # 10000). split; lra.
Qed.

Lemma mapM_astype_int_coordinates (df csv : list region_record) :
  mapM astype_int df = Ok csv ->
  Forall2 (fun r r' =>
             GID_1 r' = GID_1 r /\ latitude r' = latitude r
             /\ longitude r' = longitude r) df csv.
Proof.
  revert csv. induction df as [| r rest IH]; simpl; intros csv H.
  - injection H as <-. constructor.
  - unfold astype_int in H at 1.
    destruct (population r) as [| q | z]; simpl in H; [discriminate | |];
      destruct (mapM astype_int rest) as [csv' |] eqn:Er; simpl in H;
      try discriminate; injection H as <-;
      (constructor; [| apply IH; reflexivity]); simpl; auto.
Qed.

Lemma fold_left_Qplus_constant (v : Q) (vs : list Q) (acc : Q) :
  Forall (fun x => x = v) vs ->
  fold_left Qplus vs acc == acc + inject_Z (Z.of_nat (List.length vs)) * v.
Proof.
  intros Hvs. revert acc.
  induction Hvs as [| x vs -> _ IH]; intros acc.
  - simpl. change (inject_Z 0) with 0. ring.
  - cbn [fold_left List.length]. rewrite IH.
    rewrite Nat2Z.inj_succ, <- Z.add_1_l, inject_Z_plus.
    change (inject_Z 1) with 1. ring.
Qed.

Section PopulationNumbers.

Variable covered : geom -> nat -> nat -> bool.
Variable centroid : geom -> point.

(** X16: the population written for a region is its zonal sum cast to a
    64-bit integer: the rows of the file are the records that have a
    population, in order; for a sum below 2^63 the row holds the sum
    rounded down, the integer [z] such that [z <= sum < z + 1]; for a sum
    of 2^63 or more it holds -9223372036854775808. *)
Theorem process_population_tif_rounds_down (boundaries : list boundary_row)
    (raster : list (list Q)) (csv output : list region_record) :
  process_population_tif covered centroid boundaries raster
  = Ok (csv, output) ->
  Forall2 (fun r r' =>
             GID_1 r' = GID_1 r
             /\ exists q z,
                  population r = FloatCell q /\ population r' = IntCell z
                  /\ (q < inject_Z 9223372036854775808 ->
                      inject_Z z <= q /\ q < inject_Z z + 1)
                  /\ (inject_Z 9223372036854775808 <= q -> z = int64_min))
    (filter (fun r => negb (is_null (population r))) output) csv.
Proof.
  intros H.
  pose proof (csv_population_cast covered centroid _ _ _ _ H) as Hcast.
  clear H.
  induction Hcast as [| r r' l l' (Hgid & q & Hq & Hnn & Hpop) _ IH];
    constructor; [| exact IH].
  split; [exact Hgid |]. exists q, (to_int64 q).
  split; [exact Hq |]. split; [exact Hpop |]. split.
  - intros Hlt. destruct (to_int64_below q Hnn Hlt) as [-> _].
    split; [apply Qfloor_le |].
    pose proof (Qlt_floor q) as Hfl. rewrite inject_Z_plus in Hfl.
    exact Hfl.
  - apply to_int64_above.
Qed.

(** X17: the coordinates written to the file are the centroid coordinates
    rounded to four decimals: each is a multiple of 1/10000 that differs
    from the coordinate of the returned record by at most 1/20000. *)
Theorem process_population_tif_coordinates (boundaries : list boundary_row)
    (raster : list (list Q)) (csv output : list region_record) :
  process_population_tif covered centroid boundaries raster
  = Ok (csv, output) ->
  Forall2 (fun r r' =>
             GID_1 r' = GID_1 r
             /\ (exists z, latitude r' = inject_Z z / 10000)
             /\ (exists z, longitude r' = inject_Z z / 10000)
             /\ - (1 # 20000) <= latitude r' - latitude r
             /\ latitude r' - latitude r <= 1 # 20000
             /\ - (1 # 20000) <= longitude r' - longitude r
             /\ longitude r' - longitude r <= 1 # 20000)
    (filter (fun r => negb (is_null (population r))) output) csv.
Proof.
  intros H.
  destruct (process_population_tif_rows covered centroid _ _ _ _ H)
    as (_ & df & Hdf & ->).
  apply Forall2_map_r.
  apply mapM_astype_int_coordinates in Hdf.
  clear H.
  induction Hdf as [| r r' l l' (Hgid & Hlat & Hlon) _ IH]; [constructor |].
  constructor; [| exact IH].
  cbn [round_coordinates GID_1 latitude longitude].
  rewrite Hlat, Hlon.
  destruct (round4_bound (latitude r)) as [Ha Hb].
  destruct (round4_bound (longitude r)) as [Hc Hd].
  split; [exact Hgid |].
  split; [eexists; reflexivity |].
  split; [eexists; reflexivity |]. tauto.
Qed.

Lemma zone_values_uniform (g : geom) (array : list (list Q)) (v nodata : Q) :
  Forall (Forall (fun c => c = v)) array ->
  Qeq_bool v nodata = false ->
  Forall (fun x => x = v) (zone_values covered g array nodata)
  /\ List.length (zone_values covered g array nodata)
     = covered_cells covered g array.
Proof.
  intros Harr Hv. unfold zone_values, covered_cells.
  assert (Hrows : Forall (fun rc : nat * list Q =>
                            Forall (fun c => c = v) (snd rc))
                    (indexed array)).
  { apply Forall_forall. intros [r row] Hin. apply indexed_In in Hin.
    rewrite Forall_forall in Harr. apply Harr. exact Hin. }
  induction Hrows as [| [r row] rest Hrow _ IH]; [split; constructor |].
  cbn [flat_map fst snd] in *.
  assert (Hcells : Forall (fun cv : nat * Q => snd cv = v) (indexed row)).
  { apply Forall_forall. intros [c x] Hin. apply indexed_In in Hin.
    rewrite Forall_forall in Hrow. apply Hrow. exact Hin. }
  assert (Hrowv :
            Forall (fun x => x = v)
              (flat_map (fun cv : nat * Q =>
                 if covered g r (fst cv) && negb (Qeq_bool (snd cv) nodata)
                 then [snd cv] else []) (indexed row))
            /\ List.length
                 (flat_map (fun cv : nat * Q =>
                    if covered g r (fst cv) && negb (Qeq_bool (snd cv) nodata)
                    then [snd cv] else []) (indexed row))
               = List.length
                   (filter (fun cv : nat * Q => covered g r (fst cv))
                      (indexed row))).
  { induction Hcells as [| [c x] cells Hx _ IHc]; [split; constructor |].
    cbn [flat_map filter fst snd] in *. subst x. rewrite Hv.
    destruct IHc as [IH1 IH2].
    destruct (covered g r c); cbn [andb negb app List.length].
    - split; [constructor; [reflexivity | exact IH1] | rewrite IH2; reflexivity].
    - split; assumption. }
  destruct Hrowv as [Hr1 Hr2]. destruct IH as [IH1 IH2].
  split.
  - apply Forall_app. split; assumption.
  - rewrite !length_app, Hr2, IH2. reflexivity.
Qed.

(** X18: on a raster whose cells all hold the same positive number of
    persons [v], other than the nodata value 255, the record appended for a
    row has no population when the rasterisation puts no cell in the
    geometry, and the population [n * v] when it puts [n] cells in it. *)
Theorem process_boundary_uniform_raster (raster : list (list Q)) (v : Q)
    (output output' : list region_record) (boundary : boundary_row) :
  Forall (Forall (fun c => c = v)) raster ->
  0 < v -> ~ v == 255 ->
  process_boundary covered centroid raster output boundary = Ok output' ->
  exists r,
    output' = (output ++ [r])%list
    /\ match covered_cells covered (boundary_geometry boundary) raster with
       | O => population r = Null
       | S n =>
           exists q, population r = FloatCell q
                     /\ q == inject_Z (Z.of_nat (S n)) * v
       end.
Proof.
  intros Huni Hpos Hnd Hrun.
  destruct (process_boundary_appends covered centroid _ _ _ _ Hrun)
    as (r & -> & Hpop).
  exists r. split; [reflexivity |]. rewrite Hpop.
  assert (Hzero : zero_nonpositive raster = raster).
  { unfold zero_nonpositive. clear - Huni Hpos.
    induction Huni as [| row rows Hrow _ IH]; [reflexivity |].
    cbn [map]. rewrite IH. f_equal.
    induction Hrow as [| c cs -> _ IHc]; [reflexivity |].
    cbn [map]. rewrite IHc. f_equal.
    destruct (Qle_bool v 0) eqn:E; [| reflexivity].
    apply Qle_bool_iff in E. lra. }
  rewrite Hzero.
  assert (Hv : Qeq_bool v 255 = false).
  { destruct (Qeq_bool v 255) eqn:E; [| reflexivity].
    apply Qeq_bool_iff in E. contradiction. }
  destruct (zone_values_uniform (boundary_geometry boundary) raster v 255
              Huni Hv) as [Hall Hlen].
  unfold zonal_sum. rewrite <- Hlen.
  destruct (zone_values covered (boundary_geometry boundary) raster 255)
    as [| x vs] eqn:Ez; [reflexivity |].
  cbn [List.length]. eexists. split; [reflexivity |].
  rewrite (fold_left_Qplus_constant v (x :: vs) 0 Hall).
  cbn [List.length]. ring.
Qed.

End PopulationNumbers.

Lemma process_population_tif_rounds_down_witness :
  exists csv output,
    process_population_tif sample_covered sample_centroid sample_boundaries
      huge_raster = Ok (csv, output)
    /\ map population output = [FloatCell 10000000000000000010; Null]
    /\ map population csv = [IntCell (-9223372036854775808)]
    /\ Forall2 (fun r r' => GID_1 r' = GID_1 r)
         (filter (fun r => negb (is_null (population r))) output) csv.
Proof.
  destruct (process_population_tif sample_covered sample_centroid
              sample_boundaries huge_raster) as [[csv output] | e] eqn:E.
  - exists csv, output. split; [reflexivity |].
    split; [vm_compute in E; injection E as _ <-; reflexivity |].
    split; [vm_compute in E; injection E as <- _; reflexivity |].
    pose proof (process_population_tif_rounds_down _ _ _ _ _ _ E) as H.
    clear E. induction H as [| r r' l l' [Hg _] _ IH]; constructor; assumption.
  - vm_compute in E. discriminate.
Defined.

Lemma process_population_tif_coordinates_witness :
  exists csv output,
    process_population_tif sample_covered sample_centroid sample_boundaries
      sample_raster = Ok (csv, output)
    /\ Forall2 (fun r r' => latitude r' - latitude r <= 1 # 20000)
         (filter (fun r => negb (is_null (population r))) output) csv.
Proof.
  destruct (process_population_tif sample_covered sample_centroid
              sample_boundaries sample_raster) as [[csv output] | e] eqn:E.
  - exists csv, output. split; [reflexivity |].
    pose proof (process_population_tif_coordinates _ _ _ _ _ _ E) as H.
    clear E.
    induction H as [| r r' l l' (_ & _ & _ & _ & Hb & _) _ IH];
      constructor; assumption.
  - vm_compute in E. discriminate.
Defined.

Lemma process_boundary_uniform_raster_witness :
  exists r,
    process_boundary sample_covered sample_centroid uniform_raster []
      (nth 0 sample_boundaries (mkBoundary [] (Point (0, 0)))) = Ok [r]
    /\ exists q, population r = FloatCell q /\ q == 20.
Proof.
  destruct (process_boundary sample_covered sample_centroid uniform_raster []
              (nth 0 sample_boundaries (mkBoundary [] (Point (0, 0)))))
    as [output' | e] eqn:E; [| vm_compute in E; discriminate].
  destruct (process_boundary_uniform_raster sample_covered sample_centroid
              uniform_raster 10 [] output'
              (nth 0 sample_boundaries (mkBoundary [] (Point (0, 0)))))
    as (r & Hout & Hpop).
  - repeat constructor.
  - reflexivity.
  - discriminate.
  - exact E.
  - exists r. split; [rewrite Hout; reflexivity |].
    change (covered_cells sample_covered
              (boundary_geometry
                 (nth 0 sample_boundaries (mkBoundary [] (Point (0, 0)))))
              uniform_raster) with 2%nat in Hpop.
    destruct Hpop as (q & Hq & Heq). exists q. split; [exact Hq |].
    rewrite Heq. reflexivity.
Defined.

(** ** process_country_shapes *)

Lemma make_missing_facts (w : world) (q : path) :
  raw_layers (make_missing w q) = raw_layers w
  /\ writable (make_missing w q) = writable w
  /\ existsb (path_eqb q) (fs (make_missing w q)) = true
  /\ (forall p, existsb (path_eqb p) (fs w) = true ->
                existsb (path_eqb p) (fs (make_missing w q)) = true)
  /\ exists made,
       trace (make_missing w q) = (trace w ++ made)%list
       /\ Forall (fun e => exists p, e = MadeDir p) made.
Proof.
  unfold make_missing.
  destruct (existsb (path_eqb q) (fs w)) eqn:E.
  - repeat split; auto.
    exists []. rewrite app_nil_r. split; [reflexivity | constructor].
  - cbn [raw_layers writable fs trace emit add_path].
    repeat split; auto.
    + apply existsb_path_last.
    + intros p Hp. apply existsb_path_app. exact Hp.
    + eexists [_]. split; [reflexivity |]. repeat constructor. eauto.
Qed.

Lemma makedirs_fold_facts (qs : list path) (w : world) :
  raw_layers (fold_left make_missing qs w) = raw_layers w
  /\ writable (fold_left make_missing qs w) = writable w
  /\ (forall p, existsb (path_eqb p) (fs w) = true \/ In p qs ->
                existsb (path_eqb p) (fs (fold_left make_missing qs w)) = true)
  /\ exists made,
       trace (fold_left make_missing qs w) = (trace w ++ made)%list
       /\ Forall (fun e => exists p, e = MadeDir p) made.
Proof.
  revert w. induction qs as [| q qs IH]; intros w; cbn [fold_left].
  - repeat split; auto.
    + intros p [Hp | []]. exact Hp.
    + exists []. rewrite app_nil_r. split; [reflexivity | constructor].
  - destruct (make_missing_facts w q)
      as (Hr & Hw & Hq & Hmono & made1 & Ht1 & Hm1).
    destruct (IH (make_missing w q)) as (Hr' & Hw' & Hin & made2 & Ht2 & Hm2).
    split; [congruence |]. split; [congruence |]. split.
    + intros p [Hp | [<- | Hp]]; apply Hin; auto.
    + exists (made1 ++ made2)%list. rewrite Ht2, Ht1, app_assoc.
      split; [reflexivity | apply Forall_app; split; assumption].
Qed.

Section CountryProperties.

Variable simplify : Q -> geom -> geom.
Variable csv : list country_row.
Variable iso : string.

Lemma outline_started_facts (w : world) :
  raw_layers (outline_started iso w) = raw_layers w
  /\ writable (outline_started iso w) = writable w
  /\ existsb (path_eqb (country_folder iso))
       (fs (outline_started iso w)) = true
  /\ (forall p, existsb (path_eqb p) (fs w) = true ->
                existsb (path_eqb p) (fs (outline_started iso w))
                = true).
Proof.
  unfold outline_started.
  destruct (existsb (path_eqb (country_folder iso)) (fs w)) eqn:Ef.
  - destruct (existsb (path_eqb (shape_path iso)) (fs w));
      cbn [raw_layers writable fs emit]; repeat split; auto.
  - match goal with
    | |- context [fold_left make_missing ?qs ?w1] =>
        destruct (makedirs_fold_facts qs w1) as (Hr & Hw & Hin & _)
    end.
    rewrite Hr, Hw.
    split; [destruct (existsb (path_eqb (shape_path iso)) (fs w));
            reflexivity |].
    split; [destruct (existsb (path_eqb (shape_path iso)) (fs w));
            reflexivity |].
    split.
    + apply Hin. right. simpl. auto.
    + intros p Hp. apply Hin. left.
      destruct (existsb (path_eqb (shape_path iso)) (fs w));
        exact Hp.
Qed.

Lemma country_layer_rows (countries : list feature) :
  country_rows iso countries <> 0%nat ->
  exists rows,
    country_layer simplify iso countries = Ok rows
    /\ merge_info rows csv = national_outline simplify iso countries csv.
Proof.
  unfold country_rows, country_layer, national_outline, assign_applied.
  destruct (filter (fun r => GID_0 r =? iso) countries) as [| r rest].
  - intros H. exfalso. apply H. reflexivity.
  - intros _. cbn [map]. eexists. split; reflexivity.
Qed.

Lemma country_layer_no_row (countries : list feature) :
  country_rows iso countries = 0%nat ->
  exists message,
    country_layer simplify iso countries = Raise (ValueError message).
Proof.
  unfold country_rows, country_layer, assign_applied.
  destruct (filter (fun r => GID_0 r =? iso) countries) as [| r rest].
  - intros _. eexists. reflexivity.
  - discriminate.
Qed.

(** The function up to the assignment of the pruned geometries: the
    outline is announced, the folder made sure of and the national layer
    read. *)
Lemma process_country_shapes_read (w : world) (countries : list feature) :
  raw_layers w path_countries = Some countries ->
  process_country_shapes simplify csv iso w
  = (single_country <~ io_lift (country_layer simplify iso countries) ;;
     _ <~ to_file (shape_path iso)
            (map fst (merge_info single_country csv)) ;;
     print ("National outline shapefile processing completed for "
            ++ iso))
      (emit (ReadFile path_countries) (outline_started iso w)).
Proof.
  intros Hraw.
  assert (Hr : raw_layers (outline_started iso w) path_countries
               = Some countries).
  { rewrite (proj1 (outline_started_facts w)). exact Hraw. }
  unfold process_country_shapes, outline_started in *.
  unfold io_bind at 1. unfold path_exists at 1.
  change (country_folder iso ++ ["national_outline.shp"])%list
    with (shape_path iso).
  destruct (existsb (path_eqb (shape_path iso)) (fs w)).
  - unfold io_bind at 1. unfold print at 1.
    unfold io_bind at 1. unfold print at 1.
    unfold io_bind at 1. unfold path_exists at 1. cbn [fs emit].
    destruct (existsb (path_eqb (country_folder iso)) (fs w)) eqn:Ef.
    + unfold io_bind at 1. unfold io_ret at 1.
      unfold io_bind at 1. unfold read_file at 1. rewrite Hr. reflexivity.
    + unfold io_bind at 1. unfold makedirs at 1. cbn [fs emit]. rewrite Ef.
      unfold io_bind at 1. unfold read_file at 1. rewrite Hr. reflexivity.
  - unfold io_bind at 1. unfold io_ret at 1.
    unfold io_bind at 1. unfold print at 1.
    unfold io_bind at 1. unfold path_exists at 1. cbn [fs emit].
    destruct (existsb (path_eqb (country_folder iso)) (fs w)) eqn:Ef.
    + unfold io_bind at 1. unfold io_ret at 1.
      unfold io_bind at 1. unfold read_file at 1. rewrite Hr. reflexivity.
    + unfold io_bind at 1. unfold makedirs at 1. cbn [fs emit]. rewrite Ef.
      unfold io_bind at 1. unfold read_file at 1. rewrite Hr. reflexivity.
Qed.

(** The function up to its write, when the country has a boundary row. *)
Lemma process_country_shapes_run (w : world) (countries : list feature) :
  raw_layers w path_countries = Some countries ->
  country_rows iso countries <> 0%nat ->
  process_country_shapes simplify csv iso w
  = (_ <~ to_file (shape_path iso)
            (map fst (national_outline simplify iso countries csv)) ;;
     print ("National outline shapefile processing completed for "
            ++ iso))
      (emit (ReadFile path_countries) (outline_started iso w)).
Proof.
  intros Hraw Hrows.
  rewrite (process_country_shapes_read w countries Hraw).
  destruct (country_layer_rows countries Hrows) as (rows & Hlayer & Hjoin).
  unfold io_bind at 1. unfold io_lift. rewrite Hlayer, Hjoin. reflexivity.
Qed.


(** X19: the message 'Completed national outline processing' does not end
    the call: when the outline file exists and the national layer has a row
    of the country, the function prints the message, and then reads the
    national layer and writes the outline again. *)
Theorem process_country_shapes_rewrites_outline (w : world)
    (countries : list feature) :
  existsb (path_eqb (shape_path iso)) (fs w) = true ->
  existsb (path_eqb (country_folder iso)) (fs w) = true ->
  raw_layers w path_countries = Some countries ->
  country_rows iso countries <> 0%nat ->
  writable w (shape_path iso) = true ->
  exists w',
    process_country_shapes simplify csv iso w = (Ok tt, w')
    /\ trace w'
       = (trace w
          ++ [Printed "Completed national outline processing";
              Printed ("Processing country shapes for " ++ iso);
              ReadFile path_countries;
              Wrote (shape_path iso)
                (map fst (national_outline simplify iso countries csv));
              Printed ("National outline shapefile processing completed for "
                       ++ iso)])%list.
Proof.
  intros Hout Hfolder Hraw Hrows Hw.
  rewrite (process_country_shapes_run w countries Hraw Hrows).
  unfold outline_started. rewrite Hout, Hfolder.
  unfold io_bind, to_file, print. cbn [writable emit]. rewrite Hw.
  eexists. split; [reflexivity |].
  cbn [trace emit add_path]. rewrite <- !app_assoc. reflexivity.
Qed.

Lemma process_country_shapes_unreadable (w : world) :
  raw_layers w path_countries = None ->
  process_country_shapes simplify csv iso w
  = (Raise (DriverError (join path_countries)), outline_started iso w).
Proof.
  intros Hraw.
  assert (Hr : raw_layers (outline_started iso w) path_countries = None).
  { rewrite (proj1 (outline_started_facts w)). exact Hraw. }
  unfold process_country_shapes, outline_started in *.
  unfold io_bind at 1. unfold path_exists at 1.
  change (country_folder iso ++ ["national_outline.shp"])%list
    with (shape_path iso).
  destruct (existsb (path_eqb (shape_path iso)) (fs w)).
  - unfold io_bind at 1. unfold print at 1.
    unfold io_bind at 1. unfold print at 1.
    unfold io_bind at 1. unfold path_exists at 1. cbn [fs emit].
    destruct (existsb (path_eqb (country_folder iso)) (fs w)) eqn:Ef.
    + unfold io_bind at 1. unfold io_ret at 1.
      unfold io_bind at 1. unfold read_file at 1. rewrite Hr. reflexivity.
    + unfold io_bind at 1. unfold makedirs at 1. cbn [fs emit]. rewrite Ef.
      unfold io_bind at 1. unfold read_file at 1. rewrite Hr. reflexivity.
  - unfold io_bind at 1. unfold io_ret at 1.
    unfold io_bind at 1. unfold print at 1.
    unfold io_bind at 1. unfold path_exists at 1. cbn [fs emit].
    destruct (existsb (path_eqb (country_folder iso)) (fs w)) eqn:Ef.
    + unfold io_bind at 1. unfold io_ret at 1.
      unfold io_bind at 1. unfold read_file at 1. rewrite Hr. reflexivity.
    + unfold io_bind at 1. unfold makedirs at 1. cbn [fs emit]. rewrite Ef.
      unfold io_bind at 1. unfold read_file at 1. rewrite Hr. reflexivity.
Qed.

(** X20: unlike [process_regions], the function catches nothing: when the
    national layer cannot be read, the reader's error is raised; when the
    layer has no row of the country, [ValueError] is raised by the
    assignment of the pruned geometries and no write is attempted; when
    the layer has such a row and the outline cannot be written, the
    writer's error is raised.  In none of these cases is the closing
    message printed. *)
Theorem process_country_shapes_errors_propagate (w : world) :
  (raw_layers w path_countries = None ->
   process_country_shapes simplify csv iso w
   = (Raise (DriverError (join path_countries)), outline_started iso w))
  /\ (forall countries,
        raw_layers w path_countries = Some countries ->
        country_rows iso countries = 0%nat ->
        exists message,
          process_country_shapes simplify csv iso w
          = (Raise (ValueError message),
             emit (ReadFile path_countries) (outline_started iso w)))
  /\ (forall countries,
        raw_layers w path_countries = Some countries ->
        country_rows iso countries <> 0%nat ->
        writable w (shape_path iso) = false ->
        process_country_shapes simplify csv iso w
        = (Raise (DriverError (join (shape_path iso))),
           emit (WriteFailed (shape_path iso))
             (emit (ReadFile path_countries) (outline_started iso w)))).
Proof.
  split; [| split].
  - apply process_country_shapes_unreadable.
  - intros countries Hraw Hrows.
    destruct (country_layer_no_row countries Hrows) as (message & Hlayer).
    exists message.
    rewrite (process_country_shapes_read w countries Hraw).
    unfold io_bind at 1. unfold io_lift. rewrite Hlayer. reflexivity.
  - intros countries Hraw Hrows Hw.
    rewrite (process_country_shapes_run w countries Hraw Hrows).
    unfold io_bind, to_file. cbn [writable emit].
    rewrite (proj1 (proj2 (outline_started_facts w))), Hw. reflexivity.
Qed.

(** X21: a call that returns leaves the country folder in place and the raw
    layers untouched, so that [process_regions] for the same country can
    make its regions folder: when the raw layer of each level can be read
    and has a row of the country, it returns normally. *)
Theorem process_country_shapes_then_regions (w w' : world) :
  process_country_shapes simplify csv iso w = (Ok tt, w') ->
  folder_available iso w'
  /\ raw_layers w' = raw_layers w
  /\ (forall gid_level,
        (forall l, In l (seq 1 gid_level) -> level_readable iso w l) ->
        exists w'', process_regions simplify iso gid_level w' = (Ok tt, w'')).
Proof.
  intros Hrun.
  destruct (raw_layers w path_countries) as [countries |] eqn:Hraw.
  2:{ rewrite (process_country_shapes_unreadable w Hraw) in Hrun.
      discriminate. }
  rewrite (process_country_shapes_read w countries Hraw) in Hrun.
  destruct (outline_started_facts w) as (Hr & Hw & Hex & _).
  unfold io_bind, io_lift, to_file, print in Hrun.
  destruct (country_layer simplify iso countries) as [rows | err];
    [| discriminate].
  cbn [writable emit] in Hrun. rewrite Hw in Hrun.
  destruct (writable w (shape_path iso)); [| discriminate].
  injection Hrun as <-.
  match goal with
  | |- folder_available iso ?w1 /\ _ =>
      assert (Hav : folder_available iso w1)
  end.
  { right. cbn [fs emit add_path]. apply existsb_path_app. exact Hex. }
  split; [exact Hav |]. split; [exact Hr |].
  intros gid_level Hall. unfold process_regions.
  apply for_levels_ok; [exact Hav |].
  intros l Hl. unfold level_readable. cbn [raw_layers emit add_path].
  rewrite Hr. apply Hall. exact Hl.
Qed.

(** X22: the frame written as the national outline is an inner join: it
    holds rows of the country only, each boundary row of the country once
    per row that the metadata file has for the country (none when the file
    does not list the country). *)
Theorem national_outline_rows (countries : list feature) :
  Forall (fun rc => pruned_GID_0 (fst rc) = iso
                    /\ country_iso3 (snd rc) = iso)
    (national_outline simplify iso countries csv)
  /\ List.length (national_outline simplify iso countries csv)
     = (country_rows iso countries * metadata_rows iso csv)%nat.
Proof.
  unfold national_outline, country_rows, metadata_rows,
    apply_remove_small_shapes, merge_info.
  rewrite !map_map. cbn [GID_0 geometry].
  induction countries as [| r rest [IH1 IH2]]; [split; constructor |].
  cbn [filter].
  destruct (String.eqb_spec (GID_0 r) iso) as [Heq | Hne];
    [| split; assumption].
  cbn [map flat_map pruned_GID_0 List.length]. split.
  - apply Forall_app. split; [| exact IH1].
    apply Forall_forall. intros [p c] Hin.
    apply in_map_iff in Hin as (c0 & Hpc & Hc0). injection Hpc as <- <-.
    apply filter_In in Hc0 as [_ Hc0]. apply String.eqb_eq in Hc0.
    cbn [fst snd pruned_GID_0]. split; congruence.
  - rewrite length_app, length_map, IH2, Heq. cbn [Nat.mul]. reflexivity.
Qed.

End CountryProperties.

Lemma process_country_shapes_rewrites_outline_witness :
  exists w',
    process_country_shapes keep_geometry sample_countries "KEN"
      world_with_outline = (Ok tt, w')
    /\ List.length (trace w') = 5%nat.
Proof.
  destruct (process_country_shapes_rewrites_outline keep_geometry
              sample_countries "KEN" world_with_outline
              [mainland_and_islet; two_islets])
    as (w' & Hrun & Htrace).
  - reflexivity.
  - reflexivity.
  - reflexivity.
  - vm_compute. discriminate.
  - reflexivity.
  - exists w'. split; [exact Hrun |]. rewrite Htrace. reflexivity.
Defined.

Lemma process_country_shapes_errors_propagate_witness :
  (exists w',
     process_country_shapes keep_geometry sample_countries "KEN"
       world_read_only
     = (Raise (DriverError "results/processed/KEN/national_outline.shp"), w'))
  /\ (exists message w',
        process_country_shapes keep_geometry sample_countries "UGA"
          world_with_countries
        = (Raise (ValueError message), w')
        /\ trace w'
           = [Printed "Processing country shapes for UGA";
              MadeDir ["results"];
              MadeDir ["results"; "processed"];
              MadeDir ["results"; "processed"; "UGA"];
              ReadFile ["data"; "raw"; "boundaries"; "gadm36_0.shp"]])
  /\ (exists w',
        process_country_shapes keep_geometry sample_countries "KEN"
          sample_world
        = (Raise (DriverError "data/raw/boundaries/gadm36_0.shp"), w')).
Proof.
  split; [| split].
  - eexists.
    apply (proj2 (proj2 (process_country_shapes_errors_propagate
                           keep_geometry sample_countries "KEN"
                           world_read_only))
             [mainland_and_islet; two_islets]);
      [reflexivity | vm_compute; discriminate | reflexivity].
  - destruct (proj1 (proj2 (process_country_shapes_errors_propagate
                              keep_geometry sample_countries "UGA"
                              world_with_countries))
                [mainland_and_islet; two_islets])
      as (message & Hrun); [reflexivity | reflexivity |].
    exists message. eexists. split; [exact Hrun | reflexivity].
  - eexists.
    apply (proj1 (process_country_shapes_errors_propagate keep_geometry
                    sample_countries "KEN" sample_world)).
    reflexivity.
Defined.

Lemma process_country_shapes_then_regions_witness :
  exists w' w'',
    process_country_shapes keep_geometry sample_countries "KEN"
      world_with_countries = (Ok tt, w')
    /\ process_regions keep_geometry "KEN" 1 w' = (Ok tt, w'').
Proof.
  destruct (process_country_shapes keep_geometry sample_countries "KEN"
              world_with_countries) as [r w'] eqn:E.
  assert (Hr : r = Ok tt).
  { change r with (fst (r, w')). rewrite <- E. vm_compute. reflexivity. }
  subst r.
  destruct (process_country_shapes_then_regions keep_geometry
              sample_countries "KEN" world_with_countries w' E)
    as (_ & _ & Hregions).
  destruct (Hregions 1%nat) as (w'' & Hrun).
  - intros l [<- | []]. exists [single_polygon].
    split; [reflexivity | vm_compute; discriminate].
  - exists w', w''. split; [reflexivity | exact Hrun].
Defined.

(** ** process_sub_region_boundaries *)

Lemma dict_get_set_same {V : Type} (d : dict V) (k : string) (v : V) :
  dict_get (dict_set d k v) k = Some v.
Proof.
  induction d as [| [k0 v0] rest IH]; simpl.
  - rewrite String.eqb_refl. reflexivity.
  - destruct (String.eqb_spec k0 k) as [-> | Hne]; simpl.
    + rewrite String.eqb_refl. reflexivity.
    + apply String.eqb_neq in Hne. rewrite Hne. exact IH.
Qed.

Lemma dict_get_set_other {V : Type} (d : dict V) (k k' : string) (v : V) :
  k' <> k -> dict_get (dict_set d k v) k' = dict_get d k'.
Proof.
  intros Hne. induction d as [| [k0 v0] rest IH]; simpl.
  - destruct (String.eqb_spec k k'); [congruence | reflexivity].
  - destruct (String.eqb_spec k0 k) as [-> | Hne0]; simpl.
    + destruct (String.eqb_spec k k'); [congruence | reflexivity].
    + destruct (String.eqb_spec k0 k'); [reflexivity | exact IH].
Qed.

Lemma string_length_append (s t : string) :
  String.length (s ++ t) = (String.length s + String.length t)%nat.
Proof.
  induction s as [| c s IH]; simpl; [reflexivity | rewrite IH; reflexivity].
Qed.

Lemma append_inv_head (s a b : string) : (s ++ a = s ++ b)%string -> a = b.
Proof.
  induction s as [| c s IH]; simpl; intros H; [exact H |].
  injection H as H. apply IH. exact H.
Qed.

Lemma append_inv_tail (t a b : string) : (a ++ t = b ++ t)%string -> a = b.
Proof.
  revert b. induction a as [| c a IH]; intros [| c' b] H; simpl in H.
  - reflexivity.
  - exfalso. apply (f_equal String.length) in H. simpl in H.
    rewrite string_length_append in H. lia.
  - exfalso. apply (f_equal String.length) in H. simpl in H.
    rewrite string_length_append in H. lia.
  - injection H as -> H. f_equal. apply IH. exact H.
Qed.

(** Two regions get the same file only when they have the same id. *)
Lemma sub_region_path_inj (iso a b : string) :
  join (sub_region_path iso a) = join (sub_region_path iso b) -> a = b.
Proof.
  unfold join, sub_region_path, boundaries_folder.
  cbn [app String.concat]. intros H.
  repeat apply append_inv_head in H.
  apply append_inv_tail in H. exact H.
Qed.

Section SubRegions.

Variable iso : string.
Variable gid : string.

(** The shapefiles after the rows have been written one after the other. *)
Lemma for_rows_shapefiles (rows : list boundary_row) (d : disk) :
  Forall (fun row => dict_get (attrs row) gid <> None) rows ->
  exists d',
    for_rows iso gid rows d = (Ok tt, d')
    /\ shapefiles d'
       = fold_left (fun files row =>
                      match dict_get (attrs row) gid with
                      | Some id =>
                          dict_set files (join (sub_region_path iso id)) [row]
                      | None => files
                      end) rows (shapefiles d)
    /\ (rows <> [] -> disk_exists (boundaries_folder iso) d' = true).
Proof.
  intros Hrows. revert d.
  induction Hrows as [| row rest Hrow _ IH]; intros d.
  - exists d. split; [reflexivity |]. split; [reflexivity | congruence].
  - cbn [for_rows fold_left]. unfold write_sub_region, getitem.
    destruct (dict_get (attrs row) gid) as [id |] eqn:Eid; [| congruence].
    cbv zeta.
    set (d1 := disk_write (sub_region_path iso id) [row]
                 (if disk_exists (boundaries_folder iso) d then d
                  else disk_makedirs (boundaries_folder iso) d)).
    assert (Hfolder : existsb (path_eqb (boundaries_folder iso)) (folders d1)
                      = true
                      \/ has_key (shapefiles d) (join (boundaries_folder iso))
                         = true).
    { subst d1.
      destruct (disk_exists (boundaries_folder iso) d) eqn:Ex.
      - unfold disk_exists in Ex. apply orb_true_iff in Ex as [Ex | Ex];
          [right; exact Ex | left; exact Ex].
      - left. unfold disk_write, disk_makedirs. cbn [folders].
        unfold boundaries_folder. cbn [prefixes_from app fold_left].
        repeat match goal with
               | |- context [if existsb ?f ?l then _ else _] =>
                   destruct (existsb f l) eqn:?
               end;
          try assumption;
          rewrite ?existsb_app; simpl;
          rewrite (proj2 (path_eqb_eq _ _) eq_refl); apply orb_true_r. }
    destruct (IH d1) as (d' & Hrun & Hfiles & Hex).
    exists d'. split; [exact Hrun |]. split.
    + rewrite Hfiles. subst d1. unfold disk_write. cbn [shapefiles].
      destruct (disk_exists (boundaries_folder iso) d); reflexivity.
    + intros _. destruct rest as [| r0 rest0].
      * injection Hrun as <-. unfold disk_exists.
        destruct Hfolder as [Hf | Hf]; [rewrite Hf; apply orb_true_r |].
        subst d1. unfold disk_write. cbn [shapefiles].
        apply orb_true_iff. left. unfold has_key in *.
        destruct (String.eqb_spec (join (sub_region_path iso id))
                    (join (boundaries_folder iso))) as [-> | Hne].
        -- rewrite dict_get_set_same. reflexivity.
        -- rewrite dict_get_set_other by congruence.
           destruct (disk_exists (boundaries_folder iso) d); exact Hf.
      * apply Hex. discriminate.
Qed.



Lemma fold_files_preserved (rows : list boundary_row)
    (files : dict (list boundary_row)) (k : string) :
  (forall row id, In row rows -> dict_get (attrs row) gid = Some id ->
     k <> join (sub_region_path iso id)) ->
  dict_get
    (fold_left (fun files row =>
                  match dict_get (attrs row) gid with
                  | Some id =>
                      dict_set files (join (sub_region_path iso id)) [row]
                  | None => files
                  end) rows files) k
  = dict_get files k.
Proof.
  revert files. induction rows as [| row rest IH]; intros files Hk;
    [reflexivity |].
  cbn [fold_left]. rewrite IH by (intros r id Hin; apply Hk; right; exact Hin).
  destruct (dict_get (attrs row) gid) as [id |] eqn:Eid; [| reflexivity].
  apply dict_get_set_other. apply (Hk row id); [left; reflexivity | exact Eid].
Qed.

Lemma last_occurrence (rows : list boundary_row) (row : boundary_row)
    (g : string) :
  In row rows -> dict_get (attrs row) gid = Some g ->
  exists before row' after,
    rows = (before ++ row' :: after)%list
    /\ dict_get (attrs row') gid = Some g
    /\ Forall (fun r => dict_get (attrs r) gid <> Some g) after.
Proof.
  revert row. induction rows as [| r rest IH]; intros row Hin Hid;
    [destruct Hin |].
  destruct (existsb (fun r0 => match dict_get (attrs r0) gid with
                               | Some id => id =? g
                               | None => false
                               end) rest) eqn:Ex.
  - apply existsb_exists in Ex as (r0 & Hr0 & Hg).
    destruct (dict_get (attrs r0) gid) as [id |] eqn:E0; [| discriminate].
    apply String.eqb_eq in Hg. subst id.
    destruct (IH r0 Hr0 E0) as (before & row' & after & -> & Hrow' & Hafter).
    exists (r :: before), row', after. auto.
  - assert (Hnone : Forall (fun r0 => dict_get (attrs r0) gid <> Some g) rest).
    { apply Forall_forall. intros r0 Hr0 E0.
      assert (Hex : existsb (fun r0 => match dict_get (attrs r0) gid with
                                       | Some id => id =? g
                                       | None => false
                                       end) rest = true).
      { apply existsb_exists. exists r0. split; [exact Hr0 |].
        rewrite E0. apply String.eqb_refl. }
      congruence. }
    destruct Hin as [-> | Hin].
    + exists [], row, rest. auto.
    + exfalso. rewrite Forall_forall in Hnone. exact (Hnone row Hin Hid).
Qed.

Lemma for_rows_app (rows1 rows2 : list boundary_row) (d : disk) :
  for_rows iso gid (rows1 ++ rows2) d
  = match for_rows iso gid rows1 d with
    | (Ok _, d1) => for_rows iso gid rows2 d1
    | (Raise e, d1) => (Raise e, d1)
    end.
Proof.
  revert d. induction rows1 as [| row rest IH]; intros d; [reflexivity |].
  cbn [app for_rows].
  destruct (write_sub_region iso gid d row) as [[[] | e] d1];
    [apply IH | reflexivity].
Qed.

(** Whatever the outcome, the loop only touches files named after an id. *)
Lemma for_rows_other_files (rows : list boundary_row) (d d' : disk)
    (r : result unit) (k : string) :
  for_rows iso gid rows d = (r, d') ->
  (forall id, k <> join (sub_region_path iso id)) ->
  dict_get (shapefiles d') k = dict_get (shapefiles d) k.
Proof.
  intros Hrun Hk. revert d Hrun.
  induction rows as [| row rest IH]; intros d Hrun.
  - injection Hrun as _ <-. reflexivity.
  - cbn [for_rows] in Hrun. unfold write_sub_region, getitem in Hrun.
    destruct (dict_get (attrs row) gid) as [id |].
    + cbv zeta in Hrun. rewrite (IH _ Hrun).
      unfold disk_write. cbn [shapefiles].
      rewrite dict_get_set_other by apply Hk.
      destruct (disk_exists (boundaries_folder iso) d); reflexivity.
    + injection Hrun as _ <-. reflexivity.
Qed.

Lemma process_sub_region_boundaries_run (d : disk)
    (layer : list boundary_row) :
  reads_layer iso gid d layer ->
  process_sub_region_boundaries iso d = for_rows iso gid layer d.
Proof.
  unfold reads_layer, process_sub_region_boundaries.
  intros [(-> & Hl) | (-> & Hex & Hl)].
  - assert (Hex : disk_exists (path_processed iso 2) d = true).
    { unfold disk_exists, has_key. rewrite Hl. reflexivity. }
    rewrite Hex. unfold disk_read. rewrite Hl. reflexivity.
  - rewrite Hex. unfold disk_read. rewrite Hl. reflexivity.
Qed.

(** A loop that returns found the id column in every row. *)
Lemma for_rows_ok_ids (rows : list boundary_row) (d d' : disk) :
  for_rows iso gid rows d = (Ok tt, d') ->
  Forall (fun row => dict_get (attrs row) gid <> None) rows.
Proof.
  revert d. induction rows as [| row rest IH]; intros d Hrun;
    [constructor |].
  cbn [for_rows] in Hrun. unfold write_sub_region, getitem in Hrun.
  destruct (dict_get (attrs row) gid) as [id |] eqn:Eid; [| discriminate].
  cbv zeta in Hrun. constructor; [rewrite Eid; discriminate |].
  exact (IH _ Hrun).
Qed.

(** X23: the function reads the level-2 layer when it is on the disk, even
    if the level-1 layer is there too, and the level-1 layer otherwise.
    When the ids of that layer are plain file names and the call returns,
    every row had the id column of that level, and for every id of the
    layer the file [<id>.shp] of the boundaries folder holds one row, the
    last row of the layer that has that id, and the boundaries folder
    exists. *)
Theorem process_sub_region_boundaries_files (d d' : disk)
    (layer : list boundary_row) :
  reads_layer iso gid d layer ->
  plain_ids gid layer ->
  process_sub_region_boundaries iso d = (Ok tt, d') ->
  Forall (fun row => dict_get (attrs row) gid <> None) layer
  /\ forall row g,
       In row layer -> dict_get (attrs row) gid = Some g ->
       exists before row' after,
         layer = (before ++ row' :: after)%list
         /\ dict_get (attrs row') gid = Some g
         /\ Forall (fun r => dict_get (attrs r) gid <> Some g) after
         /\ dict_get (shapefiles d') (join (sub_region_path iso g))
            = Some [row']
         /\ disk_exists (boundaries_folder iso) d' = true.
Proof.
  intros Hreads _ Hok.
  rewrite (process_sub_region_boundaries_run d layer Hreads) in Hok.
  pose proof (for_rows_ok_ids layer d d' Hok) as Hrows.
  split; [exact Hrows |].
  destruct (for_rows_shapefiles layer d Hrows) as (d1 & Hrun & Hfiles & Hdir).
  assert (Hd : d1 = d') by congruence. subst d1.
  intros row g Hin Hid.
  assert (Hfolder : disk_exists (boundaries_folder iso) d' = true).
  { apply Hdir. intros ->. destruct Hin. }
  destruct (last_occurrence layer row g Hin Hid)
    as (before & row' & after & Hlayer & Hrow' & Hafter).
  exists before, row', after.
  split; [exact Hlayer |]. split; [exact Hrow' |]. split; [exact Hafter |].
  split; [| exact Hfolder].
  rewrite Hfiles, Hlayer, fold_left_app. cbn [fold_left]. rewrite Hrow'.
  rewrite fold_files_preserved.
  - apply dict_get_set_same.
  - intros r id Hr Eid Heq. apply sub_region_path_inj in Heq. subst id.
    rewrite Forall_forall in Hafter. exact (Hafter r Hr Eid).
Qed.

(** X24: errors are not caught.  When neither regions layer is on the disk
    the reader's error for the level-1 layer is raised and nothing is
    written; when a row lacks the id column, [KeyError] is raised at that
    row: the files of the rows before it stay written and the rows after
    it get none. *)
Theorem process_sub_region_boundaries_errors (d : disk) :
  (disk_exists (path_processed iso 2) d = false ->
   dict_get (shapefiles d) (join (path_processed iso 1)) = None ->
   process_sub_region_boundaries iso d
   = (Raise (DriverError (join (path_processed iso 1))), d))
  /\ (forall before row after,
        reads_layer iso gid d (before ++ row :: after)%list ->
        Forall (fun r => dict_get (attrs r) gid <> None) before ->
        dict_get (attrs row) gid = None ->
        exists d1,
          for_rows iso gid before d = (Ok tt, d1)
          /\ process_sub_region_boundaries iso d = (Raise (KeyError gid), d1)).
Proof.
  split.
  - intros Hex Hl. unfold process_sub_region_boundaries.
    rewrite Hex. unfold disk_read. rewrite Hl. reflexivity.
  - intros before row after Hreads Hbefore Hrow.
    rewrite (process_sub_region_boundaries_run d _ Hreads).
    destruct (for_rows_shapefiles before d Hbefore) as (d1 & Hrun & _).
    exists d1. split; [exact Hrun |].
    rewrite for_rows_app, Hrun. cbn [for_rows].
    unfold write_sub_region, getitem. rewrite Hrow. reflexivity.
Qed.

(** X25: the function does not overwrite its input: when the ids of the
    layer that it reads are plain file names, the regions layers of the
    country are left as they are, whatever the outcome of the call. *)
Theorem process_sub_region_boundaries_other_files (d d' : disk)
    (r : result unit) (layer : list boundary_row) :
  reads_layer iso gid d layer ->
  plain_ids gid layer ->
  process_sub_region_boundaries iso d = (r, d') ->
  forall regional_level,
    dict_get (shapefiles d') (join (path_processed iso regional_level))
    = dict_get (shapefiles d) (join (path_processed iso regional_level)).
Proof.
  intros Hreads _ Hrun regional_level.
  rewrite (process_sub_region_boundaries_run d layer Hreads) in Hrun.
  apply (for_rows_other_files layer d d' r _ Hrun).
  intros id.
  unfold join, sub_region_path, path_processed, regions_folder,
    boundaries_folder.
  cbn [app String.concat]. intros Heq.
  do 6 apply append_inv_head in Heq. discriminate.
Qed.

End SubRegions.

Lemma sample_level_2_plain : plain_ids "GID_2" sample_level_2.
Proof.
  intros row id Hin Hid. simpl in Hin.
  destruct Hin as [<- | [<- | [<- | []]]];
    vm_compute in Hid; injection Hid as <-; reflexivity.
Qed.

Lemma process_sub_region_boundaries_files_witness :
  exists d',
    process_sub_region_boundaries "KEN" sample_disk = (Ok tt, d')
    /\ dict_get (shapefiles d')
         (join (sub_region_path "KEN" "KEN.1.1_1"))
       = Some [nth 2 sample_level_2 (mkBoundary [] (Point (0, 0)))]
    /\ disk_exists (boundaries_folder "KEN") d' = true.
Proof.
  destruct (process_sub_region_boundaries "KEN" sample_disk) as [r d'] eqn:E.
  assert (Hr : r = Ok tt).
  { change r with (fst (r, d')). rewrite <- E. vm_compute. reflexivity. }
  subst r. exists d'. split; [reflexivity |].
  destruct (process_sub_region_boundaries_files "KEN" "GID_2" sample_disk d'
              sample_level_2) as (_ & Hfiles).
  - left. split; reflexivity.
  - exact sample_level_2_plain.
  - exact E.
  - destruct (Hfiles (nth 0 sample_level_2 (mkBoundary [] (Point (0, 0))))
                "KEN.1.1_1")
      as (before & row' & after & _ & _ & _ & Hfile & Hdir).
    + left. reflexivity.
    + reflexivity.
    + split; [| exact Hdir].
      rewrite Hfile.
      assert (Hd : d' = snd (process_sub_region_boundaries "KEN" sample_disk))
        by (rewrite E; reflexivity).
      rewrite Hd in Hfile. vm_compute in Hfile. injection Hfile as <-.
      reflexivity.
Defined.

Lemma process_sub_region_boundaries_errors_witness :
  process_sub_region_boundaries "UGA" sample_disk
  = (Raise (DriverError "results/processed/UGA/regions/regions_1_UGA.shp"),
     sample_disk)
  /\ exists d1,
       process_sub_region_boundaries "KEN" sample_disk_without_id
       = (Raise (KeyError "GID_1"), d1)
       /\ map fst (shapefiles d1)
          = ["results/processed/KEN/regions/regions_1_KEN.shp";
             "results/processed/KEN/boundaries/KEN.1_1.shp"].
Proof.
  split.
  - apply (proj1 (process_sub_region_boundaries_errors "UGA" "GID_1"
                    sample_disk)); reflexivity.
  - destruct (proj2 (process_sub_region_boundaries_errors "KEN" "GID_1"
                       sample_disk_without_id)
                sample_level_1
                (mkBoundary [("GID_0", "KEN")] (Polygon (rectangle 0 1 1 1)))
                [mkBoundary [("GID_0", "KEN"); ("GID_1", "KEN.3_1")]
                   (Polygon (rectangle 0 2 1 1))])
      as (d1 & Hbefore & Hrun).
    + right. split; [reflexivity |]. split; reflexivity.
    + repeat constructor; discriminate.
    + reflexivity.
    + exists d1. split; [exact Hrun |].
      vm_compute in Hbefore. injection Hbefore as <-. reflexivity.
Defined.

Lemma process_sub_region_boundaries_other_files_witness :
  exists d',
    process_sub_region_boundaries "KEN" sample_disk = (Ok tt, d')
    /\ dict_get (shapefiles d')
         (join (path_processed "KEN" 2)) = Some sample_level_2.
Proof.
  destruct (process_sub_region_boundaries "KEN" sample_disk) as [r d'] eqn:E.
  assert (Hr : r = Ok tt).
  { change r with (fst (r, d')). rewrite <- E. vm_compute. reflexivity. }
  subst r. exists d'. split; [reflexivity |].
  rewrite (process_sub_region_boundaries_other_files "KEN" "GID_2"
             sample_disk d' (Ok tt) sample_level_2).
  - reflexivity.
  - left. split; reflexivity.
  - exact sample_level_2_plain.
  - exact E.
Defined.
